(** * SAC analytics pipeline: transform, validation and KPI rule engine

    A shallow embedding of [etl/transform.py], [etl/validate.py] and
    [kpis/kpi_calculator.py], and the properties of the pipeline proved on it.

    Conventions of the embedding.
    - A pandas float64 is a double: a rational, an infinity or NaN
      ([float64]).  The arithmetic rounds every exact result to the nearest
      double, ties to even ([binary64]); the sign of zero is abstracted.  An
      integer is the double of its value, which is exact below 2^53.  The
      sum of a column is numpy's pairwise summation, the sum of a group
      is pandas' compensated summation.
    - A DataFrame is a list of column names and a list of rows; a row maps a
      column name to a cell.  A Series is the list of the cells of one column.
      Vectorised pandas operations act cell by cell, in row order.
    - Python exceptions are values of [exn]; fallible code lives in [result].
    - [log] and [print] only write to the console and are left out.
    - The processed directory of the validator and of the calculator maps a
      table to what [read_csv] makes of its file: the frame it delivers, or
      the error it raises.  No frame of the directory is taken to be the
      frame the transform stage held in memory: what a theorem needs of a
      loaded table, it states of the loaded table. *)

From Stdlib Require Import ZArith QArith Qround Qabs Qpower String List Bool Lia Lqa
  Permutation.
From stdpp Require Import base strings gmap.
From stdpp Require Import pretty.
Import ListNotations.

Local Open Scope string_scope.
Local Open Scope list_scope.

(** ** Floating point numbers *)

Inductive float64 : Type :=
| NaN
| PInf
| NInf
| Fin (q : Q).

Definition of_Z (z : Z) : float64 := Fin (inject_Z z).
Definition of_nat (n : nat) : float64 := of_Z (Z.of_nat n).

Definition fopp (a : float64) : float64 :=
  match a with
  | NaN => NaN
  | PInf => NInf
  | NInf => PInf
  | Fin q => Fin (- q)
  end.

(** Rounding to the nearest integer, ties to even. *)
Definition round_half_even (q : Q) : Z :=
  let f := Qfloor q in
  match (q - inject_Z f ?= 1 # 2)%Q with
  | Lt => f
  | Gt => (f + 1)%Z
  | Eq => if Z.even f then f else (f + 1)%Z
  end.

(** [2 ^ e], for a negative exponent too. *)
Definition pow2 (e : Z) : Q := Qpower 2 e.

(** The binade of a positive rational: the [e] with [2^e <= a < 2^(e+1)]. *)
Definition binade (a : Q) : Z :=
  let e := (Z.log2 (Qnum a) - Z.log2 (Zpos (Qden a)))%Z in
  if Qle_bool (pow2 e) a then e else (e - 1)%Z.

(** IEEE 754 rounding to binary64, round to nearest, ties to even: the
    double nearest to a rational.  A double has a significand of 53 bits;
    below [2^-1022] the doubles are [2^-1074] apart, and what rounds to
    [2^1024] or more is an infinity. *)
Definition binary64 (q : Q) : float64 :=
  match (q ?= 0)%Q with
  | Eq => Fin 0
  | c =>
      let a := Qabs q in
      let ulp := pow2 (Z.max (binade a) (-1022) - 52) in
      let r := (inject_Z (round_half_even (a / ulp)) * ulp)%Q in
      if Qle_bool (pow2 1024) r then
        match c with Lt => NInf | _ => PInf end
      else
        Fin (Qred (match c with Lt => - r | _ => r end))
  end.

(** The arithmetic of doubles: the exact result, rounded. *)
Definition fadd (a b : float64) : float64 :=
  match a, b with
  | NaN, _ | _, NaN => NaN
  | PInf, NInf | NInf, PInf => NaN
  | PInf, _ | _, PInf => PInf
  | NInf, _ | _, NInf => NInf
  | Fin p, Fin q => binary64 (p + q)
  end.

Definition fsub (a b : float64) : float64 := fadd a (fopp b).

(** An infinity scaled by a finite factor: the sign of the factor decides,
    and a zero factor gives NaN. *)
Definition scale_inf (inf : float64) (p : Q) : float64 :=
  match (p ?= 0)%Q with
  | Eq => NaN
  | Gt => inf
  | Lt => fopp inf
  end.

Definition fmul (a b : float64) : float64 :=
  match a, b with
  | NaN, _ | _, NaN => NaN
  | Fin p, Fin q => binary64 (p * q)
  | Fin p, inf => scale_inf inf p
  | inf, Fin q => scale_inf inf q
  | PInf, PInf | NInf, NInf => PInf
  | PInf, NInf | NInf, PInf => NInf
  end.

(** IEEE division as numpy evaluates it on arrays: a zero divisor gives an
    infinity (NaN for 0/0) and no exception. *)
Definition fdiv (a b : float64) : float64 :=
  match b with
  | NaN => NaN
  | PInf | NInf =>
      match a with
      | Fin _ => Fin 0
      | _ => NaN
      end
  | Fin q =>
      if Qeq_bool q 0 then
        match a with
        | Fin p => scale_inf PInf p
        | _ => a
        end
      else
        match a with
        | Fin p => binary64 (p / q)
        | _ => scale_inf a q
        end
  end.

Definition fltb (a b : float64) : bool :=
  match a, b with
  | NaN, _ | _, NaN => false
  | _, NInf => false
  | NInf, _ => true
  | PInf, _ => false
  | _, PInf => true
  | Fin p, Fin q => match (p ?= q)%Q with Lt => true | _ => false end
  end.

Definition feqb (a b : float64) : bool :=
  match a, b with
  | PInf, PInf | NInf, NInf => true
  | Fin p, Fin q => Qeq_bool p q
  | _, _ => false
  end.

Definition fgtb (a b : float64) : bool := fltb b a.
Definition fleb (a b : float64) : bool := fltb a b || feqb a b.
Definition fgeb (a b : float64) : bool := fltb b a || feqb a b.

Definition is_nan (a : float64) : bool :=
  match a with
  | NaN => true
  | _ => false
  end.

(** [np.rint]: the nearest integer, ties to even. *)
Definition frint (a : float64) : float64 :=
  match a with
  | Fin q => Fin (inject_Z (round_half_even q))
  | _ => a
  end.

(** [round(x, n)] of a numpy float64 and [Series.round(n)], as numpy
    evaluates them: the value is multiplied by [10^n], rounded to the
    nearest integer and divided by [10^n], each step in double arithmetic. *)
Definition fround (n : nat) (a : float64) : float64 :=
  let p := binary64 (inject_Z (10 ^ Z.of_nat n)) in
  fdiv (frint (fmul a p)) p.

(** ** Cells, exceptions and results *)

(** A cell of a DataFrame.  [Flt NaN] is the null of every column type (NaN,
    None and NaT alike); [Time] is a parsed timestamp. *)
Inductive cell : Type :=
| Flt (x : float64)
| Str (s : string)
| Bool (b : bool)
| Time (t : Z).

Abbreviation Null := (Flt NaN).

Inductive exn : Type :=
| KeyError (key : string)
| TypeError
| ValueError
| ZeroDivisionError
| IndexError
| FileNotFoundError (path : string)
| EmptyDataError
| ParserError
| UnicodeDecodeError
| SystemExit (code : Z).

Inductive result (A : Type) : Type :=
| Ok (a : A)
| Raise (e : exn).

Arguments Ok {A} a.
Arguments Raise {A} e.

Definition bind {A B : Type} (m : result A) (k : A -> result B) : result B :=
  match m with
  | Ok a => k a
  | Raise e => Raise e
  end.

Notation "'do' x <- m ; k" := (bind m (fun x => k))
  (at level 10, x name, m at level 100, k at level 200).

Fixpoint mapM {A B : Type} (f : A -> result B) (l : list A) : result (list B) :=
  match l with
  | [] => Ok []
  | x :: l' => do y <- f x; do ys <- mapM f l'; Ok (y :: ys)
  end.

Fixpoint foldM {A S : Type} (f : S -> A -> result S) (l : list A) (s : S) : result S :=
  match l with
  | [] => Ok s
  | x :: l' => do s' <- f s x; foldM f l' s'
  end.

Definition isnull (c : cell) : bool :=
  match c with
  | Flt NaN => true
  | _ => false
  end.

Definition notnull (c : cell) : bool := negb (isnull c).

(** Two floats are the same key: equal, or both NaN. *)
Definition same_float (x y : float64) : bool :=
  (is_nan x && is_nan y) || feqb x y.

(** The number a cell stands for in arithmetic and ordering comparisons;
    text and timestamps raise [TypeError]. *)
Definition as_float (c : cell) : result float64 :=
  match c with
  | Flt x => Ok x
  | Bool b => Ok (if b then Fin 1 else Fin 0)
  | Str _ | Time _ => Raise TypeError
  end.

(** The equality of pandas' hash tables ([isin], [duplicated], [nunique],
    [groupby] and [merge] keys): NaN is equal to NaN, and a boolean is equal
    to the number 0 or 1 as in Python. *)
Definition cell_eqb (a b : cell) : bool :=
  match a, b with
  | Str s, Str t => String.eqb s t
  | Time s, Time t => Z.eqb s t
  | _, _ =>
      match as_float a, as_float b with
      | Ok x, Ok y => same_float x y
      | _, _ => false
      end
  end.

(** ** Series and DataFrames *)

Definition Series : Type := list cell.
Definition Row : Type := string -> cell.

Record DataFrame : Type := mkDF {
  columns : list string;
  rows : list Row
}.

Definition has_column (df : DataFrame) (col : string) : bool :=
  existsb (String.eqb col) (columns df).

(** [df[col]] *)
Definition getitem (df : DataFrame) (col : string) : result Series :=
  if has_column df col then Ok (map (fun r => r col) (rows df))
  else Raise (KeyError col).

Definition set_cell (col : string) (v : cell) (r : Row) : Row :=
  fun c => if String.eqb c col then v else r c.

(** [df[col] = s], for a Series [s] computed from [df] itself: an existing
    column is overwritten, a new one is appended. *)
Definition setitem (df : DataFrame) (col : string) (s : Series) : DataFrame :=
  {| columns := if has_column df col then columns df else columns df ++ [col];
     rows := zip_with (fun r v => set_cell col v r) (rows df) s |}.

(** Rows selected by a boolean mask. *)
Fixpoint select {A : Type} (l : list A) (mask : list bool) : list A :=
  match l, mask with
  | x :: l', b :: mask' => if b then x :: select l' mask' else select l' mask'
  | _, _ => []
  end.

(** [df[mask]] *)
Definition getitem_mask (df : DataFrame) (mask : list bool) : DataFrame :=
  {| columns := columns df; rows := select (rows df) mask |}.

(** [mask1 & mask2] and [mask1 | mask2] *)
Definition mask_and (a b : list bool) : list bool := zip_with andb a b.
Definition mask_or (a b : list bool) : list bool := zip_with orb a b.

(** [value in values], with the equality of pandas' hash tables. *)
Definition cell_in (c : cell) (values : list cell) : bool :=
  existsb (cell_eqb c) values.

(** [s.isin(values)] *)
Definition isin (s : Series) (values : list cell) : list bool :=
  map (fun c => cell_in c values) s.

(** [s != text] *)
Definition ne_str (s : Series) (text : string) : Series :=
  map (fun c => Bool (negb (cell_eqb c (Str text)))) s.

(** [df.dropna(subset=subset)] *)
Definition dropna (df : DataFrame) (subset : list string) : result DataFrame :=
  match find (fun c => negb (has_column df c)) subset with
  | Some c => Raise (KeyError c)
  | None =>
      Ok {| columns := columns df;
            rows := List.filter (fun r => forallb (fun c => notnull (r c)) subset) (rows df) |}
  end.

(** The rows whose key was not seen before, in order. *)
Fixpoint keep_first (key : Row -> cell) (seen : list cell) (l : list Row) : list Row :=
  match l with
  | [] => []
  | r :: l' =>
      if cell_in (key r) seen then keep_first key seen l'
      else r :: keep_first key (key r :: seen) l'
  end.

(** [df.drop_duplicates(subset=[col])] *)
Definition drop_duplicates (df : DataFrame) (col : string) : result DataFrame :=
  if has_column df col then
    Ok {| columns := columns df; rows := keep_first (fun r => r col) [] (rows df) |}
  else Raise (KeyError col).

(** Cell-wise arithmetic of two Series, and of a Series and a scalar. *)
Definition series_binop (f : float64 -> float64 -> float64) (a b : Series) : result Series :=
  mapM (fun p => do x <- as_float (fst p); do y <- as_float (snd p); Ok (Flt (f x y)))
       (combine a b).

Definition series_scalar (f : float64 -> float64 -> float64) (a : Series) (k : float64)
  : result Series :=
  mapM (fun c => do x <- as_float c; Ok (Flt (f x k))) a.

(** [s.round(n)] *)
Definition series_round (n : nat) (a : Series) : result Series :=
  mapM (fun c => do x <- as_float c; Ok (Flt (fround n x))) a.

(** [s.astype(bool)]: Python truth of each cell. *)
Definition truth (c : cell) : bool :=
  match c with
  | Flt (Fin q) => negb (Qeq_bool q 0)
  | Flt _ => true
  | Str s => negb (String.eqb s "")
  | Bool b => b
  | Time _ => true
  end.

Definition astype_bool (s : Series) : Series := map (fun c => Bool (truth c)) s.

(** [pd.cut(s, bins=[0, 20, 40, 60, 100], labels=..., right=True)]: the label
    of the right-closed bin a value falls in, null outside the bins. *)
Definition margin_band_of (x : float64) : cell :=
  if negb (fgtb x (of_Z 0)) then Null
  else if fleb x (of_Z 20) then Str "Low (<20%)"
  else if fleb x (of_Z 40) then Str "Medium (20-40%)"
  else if fleb x (of_Z 60) then Str "High (40-60%)"
  else if fleb x (of_Z 100) then Str "Premium (>60%)"
  else Null.

Definition cut_margin_band (s : Series) : result Series :=
  mapM (fun c => do x <- as_float c; Ok (margin_band_of x)) s.

Section Pipeline.

Set Default Proof Using "Type".

(** pandas' parser of numeric text: the number a CSV field spells, if any. *)
Variable parse_numeric : string -> option float64.

(** pandas' parser of date text: the timestamp a CSV field spells, if any. *)
Variable parse_datetime : string -> option Z.

(** Python's [str] of a float, used in check labels. *)
Variable repr_float : Q -> string.

(** Python's [str] of a list of cells, used in a check message. *)
Variable repr_cells : list cell -> string.

(** The clock: [now_isoformat n] is what the [n]-th call of
    [datetime.now().isoformat()] returns. *)
Variable now_isoformat : nat -> string.

(** ** etl/transform.py *)

(** [pd.to_numeric(s, errors="coerce")] *)
Definition to_numeric_cell (c : cell) : cell :=
  match c with
  | Flt x => Flt x
  | Bool b => Bool b
  | Time t => Flt (of_Z t)
  | Str s =>
      match parse_numeric s with
      | Some x => Flt x
      | None => Null
      end
  end.

Definition to_numeric_coerce (s : Series) : Series := map to_numeric_cell s.

(** [pd.to_datetime(s)]: text that is no date raises. *)
Definition to_datetime_cell (c : cell) : result cell :=
  match c with
  | Flt NaN => Ok Null
  | Flt (Fin q) => Ok (Time (Qfloor q))
  | Flt _ => Raise ValueError
  | Time t => Ok (Time t)
  | Bool _ => Raise TypeError
  | Str s =>
      match parse_datetime s with
      | Some t => Ok (Time t)
      | None => Raise ValueError
      end
  end.

Definition to_datetime (s : Series) : result Series := mapM to_datetime_cell s.

(** [pd.to_datetime(s, errors="coerce")]: what does not parse becomes NaT. *)
Definition to_datetime_coerce (s : Series) : result Series :=
  mapM (fun c =>
          match to_datetime_cell c with
          | Raise ValueError => Ok Null
          | r => r
          end) s.

Definition transform_dim_date (df : DataFrame) : result DataFrame :=
  do full_date <- getitem df "full_date";
  do full_date <- to_datetime full_date;
  let df := setitem df "full_date" full_date in
  do is_weekend <- getitem df "is_weekend";
  let df := setitem df "is_weekend" (astype_bool is_weekend) in
  do is_holiday <- getitem df "is_holiday";
  let df := setitem df "is_holiday" (astype_bool is_holiday) in
  do df <- drop_duplicates df "date_key";
  Ok df.

Definition transform_dim_product (df : DataFrame) : result DataFrame :=
  do unit_cost <- getitem df "unit_cost";
  let df := setitem df "unit_cost" (to_numeric_coerce unit_cost) in
  do list_price <- getitem df "list_price";
  let df := setitem df "list_price" (to_numeric_coerce list_price) in
  do is_active <- getitem df "is_active";
  let df := setitem df "is_active" (astype_bool is_active) in
  do launch_date <- getitem df "launch_date";
  do launch_date <- to_datetime_coerce launch_date;
  let df := setitem df "launch_date" launch_date in
  (* Derived: margin band *)
  do list_price <- getitem df "list_price";
  do unit_cost <- getitem df "unit_cost";
  do margin <- series_binop fsub list_price unit_cost;
  do list_price <- getitem df "list_price";
  do ratio <- series_binop fdiv margin list_price;
  do pct <- series_scalar fmul ratio (of_Z 100);
  do band <- cut_margin_band pct;
  let df := setitem df "margin_band" band in
  (* Remove rows with missing prices *)
  dropna df ["unit_cost"; "list_price"].

Definition numeric_cols : list string :=
  ["quantity"; "unit_price"; "discount_pct"; "sales_amount";
   "cogs"; "gross_margin"; "target_amount"].

Definition transform_fact_sales
  (df dim_date dim_product dim_customer dim_employee dim_region : DataFrame)
  : result DataFrame :=
  (* Cast numeric columns *)
  do df <- foldM (fun df col =>
                    do s <- getitem df col;
                    Ok (setitem df col (to_numeric_coerce s)))
                 numeric_cols df;
  do created_at <- getitem df "created_at";
  do created_at <- to_datetime_coerce created_at;
  let df := setitem df "created_at" created_at in
  do updated_at <- getitem df "updated_at";
  do updated_at <- to_datetime_coerce updated_at;
  let df := setitem df "updated_at" updated_at in
  (* FK integrity checks *)
  do valid_dates <- getitem dim_date "date_key";
  do valid_products <- getitem dim_product "product_key";
  do valid_customers <- getitem dim_customer "customer_key";
  do valid_employees <- getitem dim_employee "employee_key";
  do valid_regions <- getitem dim_region "region_key";
  do date_key <- getitem df "date_key";
  do product_key <- getitem df "product_key";
  do customer_key <- getitem df "customer_key";
  do employee_key <- getitem df "employee_key";
  do region_key <- getitem df "region_key";
  let df := getitem_mask df
              (mask_and (mask_and (mask_and (mask_and
                 (isin date_key valid_dates)
                 (isin product_key valid_products))
                 (isin customer_key valid_customers))
                 (isin employee_key valid_employees))
                 (isin region_key valid_regions)) in
  (* Derived columns *)
  do gross_margin <- getitem df "gross_margin";
  do sales_amount <- getitem df "sales_amount";
  do q <- series_binop fdiv gross_margin sales_amount;
  do q <- series_scalar fmul q (of_Z 100);
  do q <- series_round 2 q;
  let df := setitem df "gross_margin_pct" q in
  do sales_amount <- getitem df "sales_amount";
  do target_amount <- getitem df "target_amount";
  do q <- series_binop fdiv sales_amount target_amount;
  do q <- series_scalar fmul q (of_Z 100);
  do q <- series_round 2 q;
  let df := setitem df "target_attainment_pct" q in
  do quantity <- getitem df "quantity";
  do unit_price <- getitem df "unit_price";
  do q <- series_binop fmul quantity unit_price;
  do discount_pct <- getitem df "discount_pct";
  do q <- series_binop fmul q discount_pct;
  do q <- series_round 2 q;
  let df := setitem df "discount_impact" q in
  (* Remove cancelled orders from revenue metrics flag *)
  do order_status <- getitem df "order_status";
  let df := setitem df "is_revenue_eligible" (ne_str order_status "Cancelled") in
  (* Remove nulls in critical measures *)
  dropna df ["sales_amount"; "cogs"; "quantity"].

(** ** etl/validate.py *)

Record ValidationResult : Type := mkResult {
  check_name : string;
  table : string;
  passed : bool;
  message : string;
  severity : string;   (* ERROR | WARNING | INFO *)
  row_count : nat
}.

Record ValidationReport : Type := mkReport {
  results : list ValidationResult
}.

(** [report.add(result)].  The report is one mutable object handed from check
    to check; it is threaded through the checks here. *)
Definition add (report : ValidationReport) (r : ValidationResult) : ValidationReport :=
  {| results := results report ++ [r] |}.

Definition errors (report : ValidationReport) : list ValidationResult :=
  List.filter (fun r => negb (passed r) && String.eqb (severity r) "ERROR") (results report).

Definition warnings (report : ValidationReport) : list ValidationResult :=
  List.filter (fun r => negb (passed r) && String.eqb (severity r) "WARNING") (results report).

Definition passed_count (report : ValidationReport) : nat :=
  length (List.filter passed (results report)).

(** The value [print_summary] returns; what it prints is left out. *)
Definition print_summary (report : ValidationReport) : bool :=
  let total := length (results report) in
  let passed := passed_count report in
  let failed := total - passed in
  let err_cnt := length (errors report) in
  let wrn_cnt := length (warnings report) in
  Nat.eqb err_cnt 0.

(** [mask.sum()] *)
Definition count_true (mask : list bool) : nat := length (List.filter id mask).

(** Generic checks *)

Definition check_no_nulls (df : DataFrame) (table : string) (columns : list string)
  (report : ValidationReport) : result ValidationReport :=
  foldM (fun report col =>
           do s <- getitem df col;
           let null_count := count_true (map isnull s) in
           let passed := Nat.eqb null_count 0 in
           Ok (add report
                 {| check_name := "no_nulls." ++ col;
                    table := table;
                    passed := passed;
                    message := if negb passed
                               then pretty null_count ++ " null values in column '" ++ col ++ "'"
                               else "OK";
                    severity := "ERROR";
                    row_count := null_count |}))
        columns report.

(** [s.duplicated()]: true where the value occurred earlier in the Series. *)
Fixpoint duplicated_from (seen : list cell) (s : Series) : list bool :=
  match s with
  | [] => []
  | c :: s' => cell_in c seen :: duplicated_from (c :: seen) s'
  end.

Definition duplicated (s : Series) : list bool := duplicated_from [] s.

Definition check_no_duplicates (df : DataFrame) (table pk : string)
  (report : ValidationReport) : result ValidationReport :=
  do s <- getitem df pk;
  let dup_count := count_true (duplicated s) in
  let passed := Nat.eqb dup_count 0 in
  Ok (add report
        {| check_name := "no_duplicate_pk." ++ pk;
           table := table;
           passed := passed;
           message := if negb passed
                      then pretty dup_count ++ " duplicate values in PK '" ++ pk ++ "'"
                      else "OK";
           severity := "ERROR";
           row_count := dup_count |}).

Definition check_fk_integrity (df : DataFrame) (fk_col : string)
  (ref_df : DataFrame) (ref_col : string) (table ref_table : string)
  (report : ValidationReport) : result ValidationReport :=
  do fk <- getitem df fk_col;
  do ref <- getitem ref_df ref_col;
  let orphan_count := count_true (map negb (isin fk ref)) in
  let passed := Nat.eqb orphan_count 0 in
  Ok (add report
        {| check_name := "fk." ++ fk_col ++ " → " ++ ref_table ++ "." ++ ref_col;
           table := table;
           passed := passed;
           message := if negb passed
                      then pretty orphan_count ++ " orphan FK values (no match in "
                           ++ ref_table ++ "." ++ ref_col ++ ")"
                      else "OK";
           severity := "ERROR";
           row_count := orphan_count |}).

(** A Python number literal: its value and how [str] prints it. *)
Inductive pynum : Type :=
| PyInt (z : Z)
| PyFloat (q : Q).

Definition pynum_value (n : pynum) : float64 :=
  match n with
  | PyInt z => of_Z z
  | PyFloat q => binary64 q
  end.

Definition py_str (n : option pynum) : string :=
  match n with
  | None => "None"
  | Some (PyInt z) => pretty z
  | Some (PyFloat q) => repr_float q
  end.

(** [s < k] and [s > k] for a scalar [k]. *)
Definition series_lt (s : Series) (k : float64) : result (list bool) :=
  mapM (fun c => do x <- as_float c; Ok (fltb x k)) s.

Definition series_gt (s : Series) (k : float64) : result (list bool) :=
  mapM (fun c => do x <- as_float c; Ok (fgtb x k)) s.

(** [a < b] and [a > b] for two Series. *)
Definition series_cmp (f : float64 -> float64 -> bool) (a b : Series) : result (list bool) :=
  mapM (fun p => do x <- as_float (fst p); do y <- as_float (snd p); Ok (f x y))
       (combine a b).

Definition check_value_range (df : DataFrame) (table col : string)
  (min_val max_val : option pynum) (report : ValidationReport) (severity : string)
  : result ValidationReport :=
  let mask := repeat false (length (rows df)) in
  do mask <- match min_val with
             | Some lo => do s <- getitem df col;
                          do below <- series_lt s (pynum_value lo);
                          Ok (mask_or mask below)
             | None => Ok mask
             end;
  do mask <- match max_val with
             | Some hi => do s <- getitem df col;
                          do above <- series_gt s (pynum_value hi);
                          Ok (mask_or mask above)
             | None => Ok mask
             end;
  let out_of_range := count_true mask in
  let passed := Nat.eqb out_of_range 0 in
  let label := ("[" ++ py_str min_val ++ ", " ++ py_str max_val ++ "]")%string in
  Ok (add report
        {| check_name := "range." ++ col ++ " in " ++ label;
           table := table;
           passed := passed;
           message := if negb passed
                      then pretty out_of_range ++ " values outside range " ++ label
                      else "OK";
           severity := severity;
           row_count := out_of_range |}).

(** [s.unique()]: the distinct values in order of first occurrence. *)
Definition unique (s : Series) : Series := select s (map negb (duplicated s)).

(** Table-specific validations *)

Definition validate_dim_date (df : DataFrame) (report : ValidationReport)
  : result ValidationReport :=
  do report <- check_no_nulls df "dim_date"
                 ["date_key"; "full_date"; "year"; "month_number"] report;
  do report <- check_no_duplicates df "dim_date" "date_key" report;
  do report <- check_value_range df "dim_date" "month_number"
                 (Some (PyInt 1)) (Some (PyInt 12)) report "ERROR";
  do report <- check_value_range df "dim_date" "day_of_month"
                 (Some (PyInt 1)) (Some (PyInt 31)) report "ERROR";
  do report <- check_value_range df "dim_date" "year"
                 (Some (PyInt 2000)) (Some (PyInt 2030)) report "ERROR";
  do quarter <- getitem df "quarter";
  let q_values := unique quarter in
  let invalid_q :=
    List.filter (fun q => negb (cell_in q [Str "Q1"; Str "Q2"; Str "Q3"; Str "Q4"])) q_values in
  Ok (add report
        {| check_name := "valid_quarter_values";
           table := "dim_date";
           passed := Nat.eqb (length invalid_q) 0;
           message := match invalid_q with
                      | [] => "OK"
                      | _ => "Invalid quarter values: " ++ repr_cells invalid_q
                      end;
           severity := "ERROR";
           row_count := length invalid_q |}).

Definition validate_dim_product (df : DataFrame) (report : ValidationReport)
  : result ValidationReport :=
  do report <- check_no_nulls df "dim_product"
                 ["product_key"; "product_id"; "product_name"; "category";
                  "unit_cost"; "list_price"] report;
  do report <- check_no_duplicates df "dim_product" "product_key" report;
  do report <- check_value_range df "dim_product" "unit_cost"
                 (Some (PyInt 0)) None report "ERROR";
  do report <- check_value_range df "dim_product" "list_price"
                 (Some (PyInt 0)) None report "ERROR";
  (* list_price must be >= unit_cost *)
  do list_price <- getitem df "list_price";
  do unit_cost <- getitem df "unit_cost";
  do lower <- series_cmp fltb list_price unit_cost;
  let inverted := count_true lower in
  Ok (add report
        {| check_name := "list_price >= unit_cost";
           table := "dim_product";
           passed := Nat.eqb inverted 0;
           message := if negb (Nat.eqb inverted 0)
                      then pretty inverted ++ " products where list_price < unit_cost"
                      else "OK";
           severity := "WARNING";
           row_count := inverted |}).

Definition validate_dim_customer (df : DataFrame) (report : ValidationReport)
  : result ValidationReport :=
  do report <- check_no_nulls df "dim_customer"
                 ["customer_key"; "customer_id"; "customer_name"; "segment"] report;
  do report <- check_no_duplicates df "dim_customer" "customer_key" report;
  let valid_segments := [Str "Enterprise"; Str "Mid-Market"; Str "SMB"; Str "Startup"] in
  do segment <- getitem df "segment";
  let invalid_segs := count_true (map negb (isin segment valid_segments)) in
  Ok (add report
        {| check_name := "valid_segment_values";
           table := "dim_customer";
           passed := Nat.eqb invalid_segs 0;
           message := if negb (Nat.eqb invalid_segs 0)
                      then pretty invalid_segs ++ " rows with invalid segment values"
                      else "OK";
           severity := "WARNING";
           row_count := invalid_segs |}).

Definition validate_dim_employee (df : DataFrame) (report : ValidationReport)
  : result ValidationReport :=
  do report <- check_no_nulls df "dim_employee"
                 ["employee_key"; "employee_id"; "full_name"; "department"] report;
  check_no_duplicates df "dim_employee" "employee_key" report.

Definition validate_dim_region (df : DataFrame) (report : ValidationReport)
  : result ValidationReport :=
  do report <- check_no_nulls df "dim_region"
                 ["region_key"; "country"; "region"; "city"; "currency"] report;
  check_no_duplicates df "dim_region" "region_key" report.

Definition validate_fact_sales
  (df dim_date dim_product dim_customer dim_employee dim_region : DataFrame)
  (report : ValidationReport) : result ValidationReport :=
  do report <- check_no_nulls df "fact_sales"
                 ["sales_key"; "order_id"; "date_key"; "product_key";
                  "customer_key"; "region_key"; "employee_key";
                  "quantity"; "unit_price"; "sales_amount"; "cogs"] report;
  do report <- check_no_duplicates df "fact_sales" "sales_key" report;
  (* FK checks *)
  do report <- check_fk_integrity df "date_key" dim_date "date_key"
                 "fact_sales" "dim_date" report;
  do report <- check_fk_integrity df "product_key" dim_product "product_key"
                 "fact_sales" "dim_product" report;
  do report <- check_fk_integrity df "customer_key" dim_customer "customer_key"
                 "fact_sales" "dim_customer" report;
  do report <- check_fk_integrity df "employee_key" dim_employee "employee_key"
                 "fact_sales" "dim_employee" report;
  do report <- check_fk_integrity df "region_key" dim_region "region_key"
                 "fact_sales" "dim_region" report;
  (* Business rule checks *)
  do report <- check_value_range df "fact_sales" "quantity"
                 (Some (PyInt 1)) None report "ERROR";
  do report <- check_value_range df "fact_sales" "unit_price"
                 (Some (PyFloat (1 # 100))) None report "ERROR";
  do report <- check_value_range df "fact_sales" "discount_pct"
                 (Some (PyInt 0)) (Some (PyFloat 1)) report "ERROR";
  do report <- check_value_range df "fact_sales" "sales_amount"
                 (Some (PyInt 0)) None report "ERROR";
  do report <- check_value_range df "fact_sales" "cogs"
                 (Some (PyInt 0)) None report "ERROR";
  (* Gross margin sanity: GM should be < sales_amount *)
  do gross_margin <- getitem df "gross_margin";
  do sales_amount <- getitem df "sales_amount";
  do above <- series_cmp fgtb gross_margin sales_amount;
  let gm_anomaly := count_true above in
  let report :=
    add report
      {| check_name := "gross_margin <= sales_amount";
         table := "fact_sales";
         passed := Nat.eqb gm_anomaly 0;
         message := if negb (Nat.eqb gm_anomaly 0)
                    then pretty gm_anomaly ++ " rows where gross_margin > sales_amount"
                    else "OK";
         severity := "WARNING";
         row_count := gm_anomaly |} in
  (* Valid order statuses *)
  let valid_statuses :=
    [Str "Open"; Str "Confirmed"; Str "Shipped"; Str "Delivered"; Str "Cancelled"] in
  do order_status <- getitem df "order_status";
  let invalid_status := count_true (map negb (isin order_status valid_statuses)) in
  Ok (add report
        {| check_name := "valid_order_status";
           table := "fact_sales";
           passed := Nat.eqb invalid_status 0;
           message := if negb (Nat.eqb invalid_status 0)
                      then pretty invalid_status ++ " rows with invalid order_status"
                      else "OK";
           severity := "ERROR";
           row_count := invalid_status |}).

(** Why [read_csv] cannot parse a file that is there and that the process
    may read: it holds no header line, a line has more fields than the
    header, or the bytes are no UTF-8 text. *)
Inductive parse_error : Type :=
| NoColumns
| BadLine
| BadEncoding.

(** What [read_csv] makes of the file of a table: the frame it delivers, or
    the reason it gives up. *)
Inductive csv_file : Type :=
| Parsed (df : DataFrame)
| Unparsable (why : parse_error).

Definition raised (why : parse_error) : exn :=
  match why with
  | NoColumns => EmptyDataError
  | BadLine => ParserError
  | BadEncoding => UnicodeDecodeError
  end.

(** [load(table)]: the processed directory maps the name of a table to what
    [read_csv] makes of its file; a table without a file is not in the map. *)
Definition load (processed : gmap string csv_file) (table : string) : result DataFrame :=
  match processed !! table with
  | Some (Parsed df) => Ok df
  | Some (Unparsable why) => Raise (raised why)
  | None => Raise (FileNotFoundError (table ++ ".csv"))
  end.

(** The body of [run_validation] up to the summary: load the six tables and
    run their validations on one report. *)
Definition run_checks (processed : gmap string csv_file) : result ValidationReport :=
  let report := {| results := [] |} in
  do dim_date <- load processed "dim_date";
  do dim_product <- load processed "dim_product";
  do dim_customer <- load processed "dim_customer";
  do dim_employee <- load processed "dim_employee";
  do dim_region <- load processed "dim_region";
  do fact_sales <- load processed "fact_sales";
  do report <- validate_dim_date dim_date report;
  do report <- validate_dim_product dim_product report;
  do report <- validate_dim_customer dim_customer report;
  do report <- validate_dim_employee dim_employee report;
  do report <- validate_dim_region dim_region report;
  validate_fact_sales fact_sales dim_date dim_product
    dim_customer dim_employee dim_region report.

(** [sys.exit(1)] raises [SystemExit 1]. *)
Definition run_validation (processed : gmap string csv_file) : result bool :=
  do report <- run_checks processed;
  let all_passed := print_summary report in
  if negb all_passed then Raise (SystemExit 1)
  else Ok all_passed.

(** ** kpis/kpi_calculator.py *)

(** One entry of a thresholds dictionary of [kpi_definitions.json]. *)
Record threshold : Type := mkThreshold {
  operator : string;
  value : float64
}.

(** [d[key]] on a dictionary *)
Definition dict_getitem {V : Type} (d : gmap string V) (key : string) : result V :=
  match d !! key with
  | Some v => Ok v
  | None => Raise (KeyError key)
  end.

(** The local function [check] of [rag_status]: the dictionary of the five
    comparisons is built first, then the operator is looked up in it. *)
Definition check (value : float64) (op : string) (threshold : float64) : bool :=
  let ops : gmap string bool :=
    list_to_map [(">=", fgeb value threshold);
                 ("<=", fleb value threshold);
                 (">", fgtb value threshold);
                 ("<", fltb value threshold);
                 ("=", feqb value threshold)] in
  default false (ops !! op).

Definition rag_status (val : float64) (thresholds : gmap string threshold)
  (direction : string) : result string :=
  if bool_decide (size thresholds = 0%nat) then Ok "INFO"
  else
    let t := thresholds in
    do excellent <- dict_getitem t "excellent";
    if check val (operator excellent) (value excellent) then Ok "GREEN"
    else
      do good <- dict_getitem t "good";
      if check val (operator good) (value good) then Ok "GREEN"
      else
        do warning <- dict_getitem t "warning";
        if check val (operator warning) (value warning) then Ok "AMBER"
        else Ok "RED".

(** One KPI definition of the catalog; [thresholds] and [trend_direction]
    are optional keys. *)
Record KPIDef : Type := mkKPIDef {
  d_id : string;
  d_name : string;
  d_category : string;
  d_unit : string;
  d_formula : string;
  d_thresholds : option (gmap string threshold);
  d_trend_direction : option string
}.

(** One record of [self.results]. *)
Record KPIResult : Type := mkKPIResult {
  r_kpi_id : string;
  r_kpi_name : string;
  r_category : string;
  r_value : float64;
  r_unit : string;
  r_rag_status : string;
  r_formula : string;
  r_calculated_at : string
}.

Record KPICalculator : Type := mkKPICalculator {
  fact : DataFrame;
  dim_date : DataFrame;
  kpi_defs : list KPIDef;
  eligible : DataFrame;
  kpi_results : list KPIResult
}.

(** [cell == True] *)
Definition eq_True (c : cell) : bool :=
  match c with
  | Bool b => b
  | Flt x => feqb x (Fin 1)
  | _ => false
  end.

(** [df[[c1, ..., cn]]] *)
Definition getitem_cols (df : DataFrame) (cols : list string) : result DataFrame :=
  match find (fun c => negb (has_column df c)) cols with
  | Some c => Raise (KeyError c)
  | None => Ok {| columns := cols; rows := rows df |}
  end.

Definition mem (c : string) (l : list string) : bool := existsb (String.eqb c) l.

(** The row of a merge result built from a left and a right row: columns
    both frames have, the key apart, carry the suffixes [_x] and [_y]. *)
Definition merge_row (overlap others : list string) (l r : Row) : Row :=
  fun c =>
    match find (fun k => String.eqb c (k ++ "_x")) overlap with
    | Some k => l k
    | None =>
        match find (fun k => String.eqb c (k ++ "_y")) overlap with
        | Some k => r k
        | None => if mem c others then r c else l c
        end
    end.

(** The dtype [read_csv] gives a column.  A column of numbers (an empty
    field is NaN) is int64 when every number is whole and float64 otherwise,
    a column of True and False is bool, and any other column, one without
    rows among them, is object.  The cells do not tell 1 from 1.0: a float64
    column of whole numbers is taken for int64. *)
Inductive dtype : Type :=
| Dint
| Dfloat
| Dbool
| Dobject.

Definition is_whole (c : cell) : bool :=
  match c with
  | Flt (Fin q) => Qeq_bool q (inject_Z (Qfloor q))
  | _ => false
  end.

Definition is_number (c : cell) : bool :=
  match c with
  | Flt _ => true
  | _ => false
  end.

Definition is_bool (c : cell) : bool :=
  match c with
  | Bool _ => true
  | _ => false
  end.

Definition is_text (c : cell) : bool :=
  match c with
  | Str _ => true
  | _ => false
  end.

Definition dtype_of (s : Series) : dtype :=
  match s with
  | [] => Dobject
  | _ =>
      if forallb is_whole s then Dint
      else if forallb is_number s then Dfloat
      else if forallb is_bool s then Dbool
      else Dobject
  end.

(** [lib.infer_dtype(values, skipna=False)] on the values of a column of
    dtype [d]; an object column of [read_csv] holds text, booleans and NaN. *)
Definition infer_dtype (d : dtype) (values : Series) : string :=
  match d with
  | Dint => "integer"
  | Dfloat => "floating"
  | Dbool => "boolean"
  | Dobject =>
      match values with
      | [] => "empty"
      | _ =>
          if forallb is_number values then "floating"
          else if forallb is_text values then "string"
          else if forallb is_bool values then "boolean"
          else "mixed"
      end
  end.

Definition is_empty (s : Series) : bool :=
  match s with
  | [] => true
  | _ => false
  end.

(** The check of the key columns that [merge] makes before it joins
    (pandas' [_maybe_coerce_merge_keys]): a column of numbers cannot be
    merged with a column of text.  No check is made when exactly one of the
    two columns has no value. *)
Definition incompatible_keys (dl : dtype) (lk : Series) (dr : dtype) (rk : Series) : bool :=
  let bool_types := ["integer"; "mixed-integer"; "boolean"; "empty"] in
  let string_types := ["string"; "unicode"; "mixed"; "bytes"; "empty"] in
  if xorb (is_empty lk) (is_empty rk) then false
  else
    match dl, dr with
    | Dobject, Dobject => false
    | Dobject, Dbool | Dbool, Dobject => false
    | Dobject, _ | _, Dobject =>
        let inferred_left := infer_dtype dl lk in
        let inferred_right := infer_dtype dr rk in
        if mem inferred_left bool_types && mem inferred_right bool_types then false
        else xorb (mem inferred_left string_types) (mem inferred_right string_types)
    | _, _ => false
    end.

(** [left.merge(right, on=on, how="left")]: every left row once per right
    row with an equal key, in order, and once with nulls when there is none.
    It raises [ValueError] on key columns that cannot be merged.  A frame of
    the model does not carry the dtype a filtered column keeps, so the dtype
    of the left key column is an argument. *)
Definition merge_left (left right : DataFrame) (on : string) (left_dtype : dtype)
  : result DataFrame :=
  if negb (has_column left on) then Raise (KeyError on)
  else if negb (has_column right on) then Raise (KeyError on)
  else if incompatible_keys left_dtype (map (fun l : Row => l on) (rows left))
            (dtype_of (map (fun r : Row => r on) (rows right)))
            (map (fun r : Row => r on) (rows right))
       then Raise ValueError
  else
    let others := List.filter (fun c => negb (String.eqb c on)) (columns right) in
    let overlap := List.filter (fun c => has_column left c) others in
    Ok {| columns :=
            map (fun c => if mem c overlap then (c ++ "_x")%string else c) (columns left)
            ++ map (fun c => if mem c overlap then (c ++ "_y")%string else c) others;
          rows :=
            flat_map
              (fun l =>
                 match List.filter (fun r => cell_eqb (l on) (r on)) (rows right) with
                 | [] => [merge_row overlap others l (fun _ => Null)]
                 | matches => map (merge_row overlap others l) matches
                 end)
              (rows left) |}.

(** [KPICalculator.__init__]; the catalog read from [kpi_definitions.json] is
    the argument [kpi_catalog]. *)
Definition KPICalculator_init (processed : gmap string csv_file)
  (kpi_catalog : list KPIDef) : result KPICalculator :=
  do fact <- load processed "fact_sales";
  do dim_date <- load processed "dim_date";
  (* Revenue eligible only *)
  do flag <- getitem fact "is_revenue_eligible";
  let eligible := getitem_mask fact (map eq_True flag) in
  (* Enrich with date info *)
  do dates <- getitem_cols dim_date
                ["date_key"; "year"; "month_number"; "month_name"; "quarter"];
  do eligible <- merge_left eligible dates "date_key"
                   (dtype_of (map (fun r : Row => r "date_key") (rows fact)));
  Ok {| fact := fact;
        dim_date := dim_date;
        kpi_defs := kpi_catalog;
        eligible := eligible;
        kpi_results := [] |}.

(** numpy's sum of an array of doubles (pairwise summation).  Fewer than
    eight values are added one after the other.  Up to 128 values are added
    in eight lanes, a lane taking every eighth value; the lanes are then
    added in pairs, and the values left over when the length is no multiple
    of eight are added last.  A longer array is split in two, the first part
    a multiple of eight long, and the sums of the parts are added. *)
Fixpoint add_lanes (chunks : nat) (r xs : list float64) : list float64 * list float64 :=
  match chunks with
  | O => (r, xs)
  | S c => add_lanes c (zip_with fadd r (firstn 8 xs)) (skipn 8 xs)
  end.

Definition block_sum (xs : list float64) : float64 :=
  let (r, rest) := add_lanes (length xs / 8 - 1) (firstn 8 xs) (skipn 8 xs) in
  match r with
  | [r0; r1; r2; r3; r4; r5; r6; r7] =>
      fold_left fadd rest
        (fadd (fadd (fadd r0 r1) (fadd r2 r3)) (fadd (fadd r4 r5) (fadd r6 r7)))
  | _ => fold_left fadd xs (Fin 0)
  end.

(** [fuel] bounds the depth of the splitting; the length of the array is
    enough ([pairwise_sum_fuel]). *)
Fixpoint pairwise_sum (fuel : nat) (xs : list float64) : float64 :=
  let n := length xs in
  if Nat.ltb n 8 then fold_left fadd xs (Fin 0)
  else if Nat.leb n 128 then block_sum xs
  else
    match fuel with
    | O => block_sum xs
    | S fuel' =>
        let n2 := (n / 2 - (n / 2) mod 8)%nat in
        fadd (pairwise_sum fuel' (firstn n2 xs)) (pairwise_sum fuel' (skipn n2 xs))
    end.

(** Reductions.  [sum] and [mean] skip NaN: pandas puts 0 in its place and
    lets numpy add. *)
Definition fsum (xs : list float64) : float64 :=
  let values := map (fun x => if is_nan x then Fin 0 else x) xs in
  pairwise_sum (length values) values.

(** The sum of the values of one group as [groupby(...).sum()] adds them:
    in row order, NaN skipped, with Kahan's compensation of the rounding
    errors (a compensation that is NaN, after an infinity, is dropped). *)
Definition kahan_step (st : float64 * float64) (val : float64) : float64 * float64 :=
  let (sumx, compensation) := st in
  let y := fsub val compensation in
  let t := fadd sumx y in
  let c := fsub (fsub t sumx) y in
  (t, if is_nan c then Fin 0 else c).

Definition group_sum (xs : list float64) : float64 :=
  fst (fold_left kahan_step (List.filter (fun x => negb (is_nan x)) xs) (Fin 0, Fin 0)).

Definition series_sum (s : Series) : result float64 :=
  do xs <- mapM as_float s;
  Ok (fsum xs).

(** The division of two scalars.  Python raises [ZeroDivisionError] on a zero
    divisor and numpy reports it as a warning; the model raises in both
    cases, so that a theorem can say that a zero divisor never occurs. *)
Definition scalar_div (a b : float64) : result float64 :=
  if feqb b (Fin 0) then Raise ZeroDivisionError
  else Ok (fdiv a b).

(** [s.mean()]: pandas divides the sum by the count of values that are not
    NaN when that count is positive, and returns NaN otherwise. *)
Definition series_mean (s : Series) : result float64 :=
  do xs <- mapM as_float s;
  let count := length (List.filter (fun x => negb (is_nan x)) xs) in
  if Nat.ltb 0 count then scalar_div (fsum xs) (of_nat count)
  else Ok NaN.

(** The distinct elements of a list in order of first occurrence. *)
Fixpoint distinct_from {A : Type} (eqb : A -> A -> bool) (seen l : list A) : list A :=
  match l with
  | [] => []
  | x :: l' =>
      if existsb (eqb x) seen then distinct_from eqb seen l'
      else x :: distinct_from eqb (x :: seen) l'
  end.

Definition distinct {A : Type} (eqb : A -> A -> bool) (l : list A) : list A :=
  distinct_from eqb [] l.

(** [s.nunique()]: the number of distinct values, nulls left out. *)
Definition nunique (s : Series) : nat :=
  length (distinct cell_eqb (List.filter notnull s)).

Fixpoint tuple_eqb (a b : list cell) : bool :=
  match a, b with
  | [], [] => true
  | x :: a', y :: b' => cell_eqb x y && tuple_eqb a' b'
  | _, _ => false
  end.

(** The key tuples of the groups of [df.groupby(keys)]: rows with a null key
    are left out.  Groups are listed in order of first occurrence here; the
    callers sort them. *)
Definition group_keys (df : DataFrame) (keys : list string) : list (list cell) :=
  let key := fun r : Row => map r keys in
  distinct tuple_eqb
    (map key (List.filter (fun r => forallb notnull (key r)) (rows df))).

(** [df.groupby(keys)[col].sum()]: one sum per group. *)
Definition groupby_sum (df : DataFrame) (keys : list string) (col : string)
  : result (list (list cell * float64)) :=
  do _ <- mapM (getitem df) keys;
  do _ <- getitem df col;
  let key := fun r : Row => map r keys in
  let rs := List.filter (fun r => forallb notnull (key r)) (rows df) in
  mapM (fun k =>
          do xs <- mapM as_float
                     (map (fun r : Row => r col)
                          (List.filter (fun r => tuple_eqb (key r) k) rs));
          Ok (k, group_sum xs))
       (group_keys df keys).

(** Stable insertion sort. *)
Fixpoint insert_sorted {A : Type} (le : A -> A -> bool) (x : A) (l : list A) : list A :=
  match l with
  | [] => [x]
  | y :: l' => if le x y then x :: l else y :: insert_sorted le x l'
  end.

Definition sort_by {A : Type} (le : A -> A -> bool) (l : list A) : list A :=
  fold_right (insert_sorted le) [] l.

(** What a sort compares: numbers (booleans among them), text, timestamps.
    Python orders cells of one kind and raises [TypeError] on two kinds. *)
Inductive kind : Type :=
| KNumber
| KText
| KTime.

Definition kind_of (c : cell) : kind :=
  match c with
  | Str _ => KText
  | Time _ => KTime
  | Flt _ | Bool _ => KNumber
  end.

Definition kind_eqb (a b : kind) : bool :=
  match a, b with
  | KNumber, KNumber | KText, KText | KTime, KTime => true
  | _, _ => false
  end.

(** The cells of a sort column are all of one kind. *)
Definition homogeneous (s : Series) : bool :=
  match s with
  | [] => true
  | c :: s' => forallb (fun d => kind_eqb (kind_of c) (kind_of d)) s'
  end.

(** [a <= b] on two cells of one kind. *)
Definition cell_leb (a b : cell) : bool :=
  match a, b with
  | Str s, Str t => String.leb s t
  | Time s, Time t => Z.leb s t
  | _, _ =>
      match as_float a, as_float b with
      | Ok x, Ok y => fleb x y
      | _, _ => false
      end
  end.

(** Ascending lexicographic order of key tuples. *)
Fixpoint lex_le (a b : list cell) : bool :=
  match a, b with
  | [], _ => true
  | _ :: _, [] => false
  | x :: a', y :: b' => if cell_eqb x y then lex_le a' b' else cell_leb x y
  end.

(** The [i]-th components of a list of key tuples. *)
Definition key_column (keys : list (list cell)) (i : nat) : Series :=
  map (fun k => nth i k Null) keys.

(** Descending order of values, NaN last. *)
Definition desc_le (a b : float64) : bool :=
  if is_nan b then true
  else if is_nan a then false
  else fgeb a b.

(** Core KPI methods *)

Definition kpi_total_revenue (self : KPICalculator) : result float64 :=
  do sales_amount <- getitem (eligible self) "sales_amount";
  series_sum sales_amount.

Definition kpi_gross_margin_pct (self : KPICalculator) : result float64 :=
  do sales_amount <- getitem (eligible self) "sales_amount";
  do total_rev <- series_sum sales_amount;
  do gross_margin <- getitem (eligible self) "gross_margin";
  do total_gm <- series_sum gross_margin;
  if fgtb total_rev (of_Z 0) then
    do q <- scalar_div total_gm total_rev;
    Ok (fmul q (of_Z 100))
  else Ok (Fin 0).

(** The local [monthly] of [kpi_revenue_growth_mom]: the revenue of every
    (year, month) in ascending order. *)
Definition monthly_revenue (self : KPICalculator) : result (list (list cell * float64)) :=
  do grouped <- groupby_sum (eligible self) ["year"; "month_number"] "sales_amount";
  if forallb (fun i => homogeneous (key_column (map fst grouped) i)) [0%nat; 1%nat]
  then Ok (sort_by (fun a b => lex_le (fst a) (fst b)) grouped)
  else Raise TypeError.

Definition kpi_revenue_growth_mom (self : KPICalculator) : result float64 :=
  do monthly <- monthly_revenue self;
  if Nat.ltb (length monthly) 2 then Ok (Fin 0)
  else
    match rev monthly with
    | cur :: prev :: _ =>
        if fgtb (snd prev) (of_Z 0) then
          do q <- scalar_div (fsub (snd cur) (snd prev)) (snd prev);
          Ok (fmul q (of_Z 100))
        else Ok (Fin 0)
    | _ => Raise IndexError
    end.

Definition kpi_avg_order_value (self : KPICalculator) : result float64 :=
  do sales_amount <- getitem (eligible self) "sales_amount";
  do total_rev <- series_sum sales_amount;
  do order_id <- getitem (eligible self) "order_id";
  let order_count := nunique order_id in
  if Nat.ltb 0 order_count then scalar_div total_rev (of_nat order_count)
  else Ok (Fin 0).

Definition kpi_target_attainment (self : KPICalculator) : result float64 :=
  do sales_amount <- getitem (eligible self) "sales_amount";
  do actual <- series_sum sales_amount;
  do target_amount <- getitem (eligible self) "target_amount";
  do target <- series_sum target_amount;
  if fgtb target (of_Z 0) then
    do q <- scalar_div actual target;
    Ok (fmul q (of_Z 100))
  else Ok (Fin 0).

Definition kpi_total_orders (self : KPICalculator) : result float64 :=
  do order_id <- getitem (eligible self) "order_id";
  Ok (of_nat (nunique order_id)).

Definition kpi_discount_rate (self : KPICalculator) : result float64 :=
  do discount_pct <- getitem (eligible self) "discount_pct";
  do m <- series_mean discount_pct;
  Ok (fmul m (of_Z 100)).

Definition kpi_revenue_per_employee (self : KPICalculator) : result float64 :=
  do sales_amount <- getitem (eligible self) "sales_amount";
  do total_rev <- series_sum sales_amount;
  do employee_key <- getitem (eligible self) "employee_key";
  let emp_count := nunique employee_key in
  if Nat.ltb 0 emp_count then scalar_div total_rev (of_nat emp_count)
  else Ok (Fin 0).

Definition kpi_customer_count (self : KPICalculator) : result float64 :=
  do customer_key <- getitem (eligible self) "customer_key";
  Ok (of_nat (nunique customer_key)).

(** The local [by_product] of [kpi_top10_revenue_share]: the revenue of
    every product, largest first. *)
Definition revenue_by_product (self : KPICalculator) : result (list float64) :=
  do grouped <- groupby_sum (eligible self) ["product_key"] "sales_amount";
  Ok (sort_by desc_le (map snd grouped)).

Definition kpi_top10_revenue_share (self : KPICalculator) : result float64 :=
  do by_product <- revenue_by_product self;
  let total_rev := fsum by_product in
  let top10_rev := fsum (firstn 10 by_product) in
  if fgtb total_rev (of_Z 0) then
    do q <- scalar_div top10_rev total_rev;
    Ok (fmul q (of_Z 100))
  else Ok (Fin 0).

(** KPI dispatcher *)
Definition KPI_MAP : gmap string (KPICalculator -> result float64) :=
  list_to_map
    [("KPI-001", kpi_total_revenue);
     ("KPI-002", kpi_gross_margin_pct);
     ("KPI-003", kpi_revenue_growth_mom);
     ("KPI-004", kpi_avg_order_value);
     ("KPI-005", kpi_target_attainment);
     ("KPI-006", kpi_total_orders);
     ("KPI-007", kpi_discount_rate);
     ("KPI-008", kpi_revenue_per_employee);
     ("KPI-009", kpi_customer_count);
     ("KPI-010", kpi_top10_revenue_share)].

(** [self.results.append(...)] *)
Definition append_result (self : KPICalculator) (r : KPIResult) : KPICalculator :=
  {| fact := fact self;
     dim_date := dim_date self;
     kpi_defs := kpi_defs self;
     eligible := eligible self;
     kpi_results := kpi_results self ++ [r] |}.

(** One turn of the loop of [calculate_all]; [tick] counts the readings of
    the clock.  [round(value, 4)] is numpy's rounding of a float64; Python's
    own [round], which the code reaches for the literal 0.0 and for the
    counts of KPI-006 and KPI-009, gives the same on whole numbers. *)
Definition calculate_one (st : KPICalculator * nat) (kpi_def : KPIDef)
  : result (KPICalculator * nat) :=
  let self := fst st in
  let tick := snd st in
  let kpi_id := d_id kpi_def in
  match KPI_MAP !! kpi_id with
  | None => Ok st
  | Some fn =>
      do val <- fn self;
      do status <- rag_status val (default ∅ (d_thresholds kpi_def))
                     (default "" (d_trend_direction kpi_def));
      Ok (append_result self
            {| r_kpi_id := kpi_id;
               r_kpi_name := d_name kpi_def;
               r_category := d_category kpi_def;
               r_value := fround 4 val;
               r_unit := d_unit kpi_def;
               r_rag_status := status;
               r_formula := d_formula kpi_def;
               r_calculated_at := now_isoformat tick |},
          S tick)
  end.

(** [calculate_all]: the calculator with its results extended; the method
    returns [self.results]. *)
Definition calculate_all (self : KPICalculator) (tick : nat)
  : result (KPICalculator * nat) :=
  foldM calculate_one (kpi_defs self) (self, tick).

(** What a call of [calculate_all] returns: [self.results]. *)
Definition returned (r : result (KPICalculator * nat)) : result (list KPIResult) :=
  do st <- r;
  Ok (kpi_results (fst st)).

(** ** Frames written out cell by cell, as [read_csv] delivers them *)

Definition row_of (cells : list (string * cell)) : Row :=
  fun c =>
    match find (fun p => String.eqb c (fst p)) cells with
    | Some p => snd p
    | None => Null
    end.

Definition frame (cols : list string) (data : list (list cell)) : DataFrame :=
  {| columns := cols; rows := map (fun cells => row_of (combine cols cells)) data |}.

Definition num (z : Z) : cell := Flt (of_Z z).

(** The cell of a decimal numeral: the double next to it. *)
Definition dec (q : Q) : cell := Flt (binary64 q).

(** The definition [d] with its [trend_direction] key replaced. *)
Definition set_trend_direction (direction : option string) (d : KPIDef) : KPIDef :=
  {| d_id := d_id d;
     d_name := d_name d;
     d_category := d_category d;
     d_unit := d_unit d;
     d_formula := d_formula d;
     d_thresholds := d_thresholds d;
     d_trend_direction := direction |}.

(** The calculator [self] with another catalog. *)
Definition with_kpi_defs (self : KPICalculator) (defs : list KPIDef) : KPICalculator :=
  {| fact := fact self;
     dim_date := dim_date self;
     kpi_defs := defs;
     eligible := eligible self;
     kpi_results := kpi_results self |}.

(** The exceptions a computation can raise all satisfy [P]. *)
Definition raises_only {A : Type} (P : exn -> Prop) (m : result A) : Prop :=
  forall e, m = Raise e -> P e.

(** Exceptions caused by the data: a missing file or column, a cell of the
    wrong type. *)
Definition data_error (e : exn) : Prop :=
  match e with
  | KeyError _ | TypeError | FileNotFoundError _
  | EmptyDataError | ParserError | UnicodeDecodeError => True
  | _ => False
  end.

(** A cell compares strictly below the lower bound, strictly above the upper
    bound; a missing bound and a cell that is no number compare false. *)
Definition below (lo : option pynum) (c : cell) : bool :=
  match lo, as_float c with
  | Some l, Ok x => fltb x (pynum_value l)
  | _, _ => false
  end.

Definition above (hi : option pynum) (c : cell) : bool :=
  match hi, as_float c with
  | Some h, Ok x => fgtb x (pynum_value h)
  | _, _ => false
  end.

Definition out_of_range (lo hi : option pynum) (c : cell) : bool :=
  below lo c || above hi c.

(** The cell is a number (a float, NaN included, or a boolean). *)
Definition numeric (c : cell) : Prop := exists x, as_float c = Ok x.

(** The result a range check adds when [n] rows are out of range. *)
Definition range_result (tbl col : string) (lo hi : option pynum) (sev : string) (n : nat)
  : ValidationResult :=
  let label := ("[" ++ py_str lo ++ ", " ++ py_str hi ++ "]")%string in
  {| check_name := "range." ++ col ++ " in " ++ label;
     table := tbl;
     passed := Nat.eqb n 0;
     message := if negb (Nat.eqb n 0)
                then pretty n ++ " values outside range " ++ label
                else "OK";
     severity := sev;
     row_count := n |}.

(** The rows of [df] whose cell in [col] is out of range. *)
Definition out_of_range_rows (df : DataFrame) (col : string) (lo hi : option pynum)
  : list Row :=
  List.filter (fun r => out_of_range lo hi (r col)) (rows df).

(** The result [check_no_nulls] adds for one column, and the one
    [check_no_duplicates] adds for a key column. *)
Definition null_count (df : DataFrame) (col : string) : nat :=
  length (List.filter (fun r : Row => isnull (r col)) (rows df)).

Definition no_nulls_result (df : DataFrame) (tbl col : string) : ValidationResult :=
  let n := null_count df col in
  {| check_name := "no_nulls." ++ col;
     table := tbl;
     passed := Nat.eqb n 0;
     message := if negb (Nat.eqb n 0)
                then pretty n ++ " null values in column '" ++ col ++ "'"
                else "OK";
     severity := "ERROR";
     row_count := n |}.

Definition duplicate_count (df : DataFrame) (pk : string) : nat :=
  count_true (duplicated (map (fun r : Row => r pk) (rows df))).

Definition no_duplicates_result (df : DataFrame) (tbl pk : string) : ValidationResult :=
  let n := duplicate_count df pk in
  {| check_name := "no_duplicate_pk." ++ pk;
     table := tbl;
     passed := Nat.eqb n 0;
     message := if negb (Nat.eqb n 0)
                then pretty n ++ " duplicate values in PK '" ++ pk ++ "'"
                else "OK";
     severity := "ERROR";
     row_count := n |}.

(** No cell of the Series is equal to an earlier one. *)
Definition no_duplicate_value (s : Series) : Prop :=
  ForallOrdPairs (fun earlier later => cell_eqb later earlier = false) s.

(** The six tables with their primary key and the key columns listed for the
    null check. *)
Definition key_checks : list (string * string * list string) :=
  [("dim_date", "date_key", ["date_key"; "full_date"; "year"; "month_number"]);
   ("dim_product", "product_key",
    ["product_key"; "product_id"; "product_name"; "category"; "unit_cost"; "list_price"]);
   ("dim_customer", "customer_key",
    ["customer_key"; "customer_id"; "customer_name"; "segment"]);
   ("dim_employee", "employee_key",
    ["employee_key"; "employee_id"; "full_name"; "department"]);
   ("dim_region", "region_key", ["region_key"; "country"; "region"; "city"; "currency"]);
   ("fact_sales", "sales_key",
    ["sales_key"; "order_id"; "date_key"; "product_key";
     "customer_key"; "region_key"; "employee_key";
     "quantity"; "unit_price"; "sales_amount"; "cogs"])].

(** The report [r'] holds the results of [r] and possibly more after them. *)
Definition extends (r r' : ValidationReport) : Prop :=
  exists added, results r' = results r ++ added.

(** A check that, when it returns, has only appended to the report [r]. *)
Definition grows_from (r : ValidationReport) (m : result ValidationReport) : Prop :=
  forall r', m = Ok r' -> extends r r'.

(** The key checks of one table are among the results of a report. *)
Definition key_checks_in (processed : gmap string csv_file) (report : ValidationReport)
  (entry : string * string * list string) : Prop :=
  let tbl := fst (fst entry) in
  let pk := snd (fst entry) in
  let cols := snd entry in
  exists df,
    processed !! tbl = Some (Parsed df) /\
    In (no_duplicates_result df tbl pk) (results report) /\
    Forall (fun c => In (no_nulls_result df tbl c) (results report)) cols.

(** The cells of a column, in row order. *)
Definition column (df : DataFrame) (col : string) : Series :=
  map (fun r : Row => r col) (rows df).

(** The five foreign keys of a fact row occur in the key columns of the
    dimension tables. *)
Definition fk_ok (dim_date dim_product dim_customer dim_employee dim_region : DataFrame)
  (r : Row) : bool :=
  cell_in (r "date_key") (column dim_date "date_key")
  && cell_in (r "product_key") (column dim_product "product_key")
  && cell_in (r "customer_key") (column dim_customer "customer_key")
  && cell_in (r "employee_key") (column dim_employee "employee_key")
  && cell_in (r "region_key") (column dim_region "region_key").

(** The three critical measures of a raw fact row are numbers once cast. *)
Definition measures_present (r : Row) : bool :=
  notnull (to_numeric_cell (r "sales_amount"))
  && notnull (to_numeric_cell (r "cogs"))
  && notnull (to_numeric_cell (r "quantity")).

(** Both prices of a raw product row are numbers once cast. *)
Definition prices_present (r : Row) : bool :=
  notnull (to_numeric_cell (r "unit_cost"))
  && notnull (to_numeric_cell (r "list_price")).

(** The columns [transform_fact_sales] casts or derives. *)
Definition fact_columns_written : list string :=
  numeric_cols ++ ["created_at"; "updated_at"; "gross_margin_pct";
                   "target_attainment_pct"; "discount_impact"; "is_revenue_eligible"].

(** [r'] is the fact row [r] as the transform delivers it: the numeric
    columns are cast, the revenue flag is set, and every column the transform
    does not write is unchanged. *)
Definition fact_row_out (r r' : Row) : Prop :=
  (forall c, mem c fact_columns_written = false -> r' c = r c) /\
  (forall c, In c numeric_cols -> r' c = to_numeric_cell (r c)) /\
  r' "is_revenue_eligible" = Bool (negb (cell_eqb (r "order_status") (Str "Cancelled"))).

(** The columns [transform_dim_product] casts or derives. *)
Definition product_columns_written : list string :=
  ["unit_cost"; "list_price"; "is_active"; "launch_date"; "margin_band"].

Definition product_row_out (r r' : Row) : Prop :=
  (forall c, mem c product_columns_written = false -> r' c = r c) /\
  r' "unit_cost" = to_numeric_cell (r "unit_cost") /\
  r' "list_price" = to_numeric_cell (r "list_price").

(** The loop that casts the numeric columns, on one row. *)
Definition cast_columns (cols : list string) (r : Row) : Row :=
  fold_left (fun r c => set_cell c (to_numeric_cell (r c)) r) cols r.

(** The rows of [df] are the images under [f] of the rows [l]. *)
Definition rowwise (l : list Row) (f : Row -> Row) (df : DataFrame) : Prop :=
  rows df = map f l.

(** The value of a computation that returned, a default otherwise. *)
Definition unwrap {A : Type} (d : A) (m : result A) : A :=
  match m with
  | Ok a => a
  | Raise _ => d
  end.

(** The definition names a KPI of the dispatcher. *)
Definition in_KPI_MAP (d : KPIDef) : bool :=
  match KPI_MAP !! d_id d with
  | Some _ => true
  | None => false
  end.

(** [r] is the record [calculate_all] produces for the definition [d] on the
    calculator [self]. *)
Definition result_of (self : KPICalculator) (d : KPIDef) (r : KPIResult) : Prop :=
  exists fn v,
    KPI_MAP !! d_id d = Some fn /\
    fn self = Ok v /\
    rag_status v (default ∅ (d_thresholds d)) (default "" (d_trend_direction d))
      = Ok (r_rag_status r) /\
    r_value r = fround 4 v /\
    r_kpi_id r = d_id d /\
    r_kpi_name r = d_name d /\
    r_category r = d_category d /\
    r_unit r = d_unit d /\
    r_formula r = d_formula d.

(** The ids of the ten KPIs of the catalog. *)
Definition kpi_ids : list string :=
  ["KPI-001"; "KPI-002"; "KPI-003"; "KPI-004"; "KPI-005";
   "KPI-006"; "KPI-007"; "KPI-008"; "KPI-009"; "KPI-010"].

(** Two loop states that differ at most in the catalog they carry. *)
Definition same_run (st1 st2 : KPICalculator * nat) : Prop :=
  eligible (fst st1) = eligible (fst st2) /\
  kpi_results (fst st1) = kpi_results (fst st2) /\
  snd st1 = snd st2.

Definition same_outcome (r1 r2 : result (KPICalculator * nat)) : Prop :=
  match r1, r2 with
  | Ok st1, Ok st2 => same_run st1 st2
  | Raise e1, Raise e2 => e1 = e2
  | _, _ => False
  end.

(** Any exception but a division by zero. *)
Definition not_zero_division (e : exn) : Prop := e <> ZeroDivisionError.

(** The eligible rows carry the columns the KPI methods read, with numbers
    in the measures and in the year and month. *)
Definition kpi_ready (df : DataFrame) : Prop :=
  Forall (fun c => has_column df c = true)
    ["sales_amount"; "gross_margin"; "target_amount"; "discount_pct"; "order_id";
     "employee_key"; "customer_key"; "product_key"; "year"; "month_number"] /\
  Forall (fun r : Row =>
            Forall (fun c => numeric (r c))
              ["sales_amount"; "gross_margin"; "target_amount"; "discount_pct";
               "year"; "month_number"])
         (rows df).

(** The order of the row was cancelled. *)
Definition cancelled (r : Row) : bool := cell_eqb (r "order_status") (Str "Cancelled").

(** The rows of [df] whose foreign key does not occur in the referenced
    column, and the result [check_fk_integrity] adds. *)
Definition orphan_rows (df : DataFrame) (fk_col : string) (ref_df : DataFrame)
  (ref_col : string) : list Row :=
  List.filter (fun r : Row => negb (cell_in (r fk_col) (column ref_df ref_col))) (rows df).

Definition fk_result (df : DataFrame) (fk_col : string) (ref_df : DataFrame)
  (ref_col tbl ref_table : string) : ValidationResult :=
  let n := length (orphan_rows df fk_col ref_df ref_col) in
  {| check_name := "fk." ++ fk_col ++ " → " ++ ref_table ++ "." ++ ref_col;
     table := tbl;
     passed := Nat.eqb n 0;
     message := if negb (Nat.eqb n 0)
                then pretty n ++ " orphan FK values (no match in "
                     ++ ref_table ++ "." ++ ref_col ++ ")"
                else "OK";
     severity := "ERROR";
     row_count := n |}.

(** The five foreign keys of the fact table: column, dimension table and
    its name, as [validate_fact_sales] checks them. *)
Definition fact_foreign_keys (dim_date dim_product dim_customer dim_employee dim_region
  : DataFrame) : list (string * DataFrame * string) :=
  [("date_key", dim_date, "dim_date");
   ("product_key", dim_product, "dim_product");
   ("customer_key", dim_customer, "dim_customer");
   ("employee_key", dim_employee, "dim_employee");
   ("region_key", dim_region, "dim_region")].


(** What identifies a check in a report: its table, its name and its
    severity. *)
Definition outline (r : ValidationResult) : string * string * string :=
  (table r, check_name r, severity r).

(** The checks of a validation run, table by table.  The two float bounds
    are printed as Python prints them ([repr_float]). *)
Definition plan_dim_date : list (string * string * string) :=
  [("dim_date", "no_nulls.date_key", "ERROR");
   ("dim_date", "no_nulls.full_date", "ERROR");
   ("dim_date", "no_nulls.year", "ERROR");
   ("dim_date", "no_nulls.month_number", "ERROR");
   ("dim_date", "no_duplicate_pk.date_key", "ERROR");
   ("dim_date", "range.month_number in [1, 12]", "ERROR");
   ("dim_date", "range.day_of_month in [1, 31]", "ERROR");
   ("dim_date", "range.year in [2000, 2030]", "ERROR");
   ("dim_date", "valid_quarter_values", "ERROR")].

Definition plan_dim_product : list (string * string * string) :=
  [("dim_product", "no_nulls.product_key", "ERROR");
   ("dim_product", "no_nulls.product_id", "ERROR");
   ("dim_product", "no_nulls.product_name", "ERROR");
   ("dim_product", "no_nulls.category", "ERROR");
   ("dim_product", "no_nulls.unit_cost", "ERROR");
   ("dim_product", "no_nulls.list_price", "ERROR");
   ("dim_product", "no_duplicate_pk.product_key", "ERROR");
   ("dim_product", "range.unit_cost in [0, None]", "ERROR");
   ("dim_product", "range.list_price in [0, None]", "ERROR");
   ("dim_product", "list_price >= unit_cost", "WARNING")].

Definition plan_dim_customer : list (string * string * string) :=
  [("dim_customer", "no_nulls.customer_key", "ERROR");
   ("dim_customer", "no_nulls.customer_id", "ERROR");
   ("dim_customer", "no_nulls.customer_name", "ERROR");
   ("dim_customer", "no_nulls.segment", "ERROR");
   ("dim_customer", "no_duplicate_pk.customer_key", "ERROR");
   ("dim_customer", "valid_segment_values", "WARNING")].

Definition plan_dim_employee : list (string * string * string) :=
  [("dim_employee", "no_nulls.employee_key", "ERROR");
   ("dim_employee", "no_nulls.employee_id", "ERROR");
   ("dim_employee", "no_nulls.full_name", "ERROR");
   ("dim_employee", "no_nulls.department", "ERROR");
   ("dim_employee", "no_duplicate_pk.employee_key", "ERROR")].

Definition plan_dim_region : list (string * string * string) :=
  [("dim_region", "no_nulls.region_key", "ERROR");
   ("dim_region", "no_nulls.country", "ERROR");
   ("dim_region", "no_nulls.region", "ERROR");
   ("dim_region", "no_nulls.city", "ERROR");
   ("dim_region", "no_nulls.currency", "ERROR");
   ("dim_region", "no_duplicate_pk.region_key", "ERROR")].

Definition plan_fact_sales : list (string * string * string) :=
  [("fact_sales", "no_nulls.sales_key", "ERROR");
   ("fact_sales", "no_nulls.order_id", "ERROR");
   ("fact_sales", "no_nulls.date_key", "ERROR");
   ("fact_sales", "no_nulls.product_key", "ERROR");
   ("fact_sales", "no_nulls.customer_key", "ERROR");
   ("fact_sales", "no_nulls.region_key", "ERROR");
   ("fact_sales", "no_nulls.employee_key", "ERROR");
   ("fact_sales", "no_nulls.quantity", "ERROR");
   ("fact_sales", "no_nulls.unit_price", "ERROR");
   ("fact_sales", "no_nulls.sales_amount", "ERROR");
   ("fact_sales", "no_nulls.cogs", "ERROR");
   ("fact_sales", "no_duplicate_pk.sales_key", "ERROR");
   ("fact_sales", "fk.date_key → dim_date.date_key", "ERROR");
   ("fact_sales", "fk.product_key → dim_product.product_key", "ERROR");
   ("fact_sales", "fk.customer_key → dim_customer.customer_key", "ERROR");
   ("fact_sales", "fk.employee_key → dim_employee.employee_key", "ERROR");
   ("fact_sales", "fk.region_key → dim_region.region_key", "ERROR");
   ("fact_sales", "range.quantity in [1, None]", "ERROR");
   ("fact_sales", ("range.unit_price in [" ++ repr_float (1 # 100) ++ ", None]")%string,
    "ERROR");
   ("fact_sales", ("range.discount_pct in [0, " ++ repr_float 1 ++ "]")%string, "ERROR");
   ("fact_sales", "range.sales_amount in [0, None]", "ERROR");
   ("fact_sales", "range.cogs in [0, None]", "ERROR");
   ("fact_sales", "gross_margin <= sales_amount", "WARNING");
   ("fact_sales", "valid_order_status", "ERROR")].

(** The sixty checks of a completed validation run, in the order of the
    report. *)
Definition check_plan : list (string * string * string) :=
  plan_dim_date ++ plan_dim_product ++ plan_dim_customer ++ plan_dim_employee
  ++ plan_dim_region ++ plan_fact_sales.

(** The three checks that can only warn. *)
Definition warning_checks : list (string * string * string) :=
  [("dim_product", "list_price >= unit_cost", "WARNING");
   ("dim_customer", "valid_segment_values", "WARNING");
   ("fact_sales", "gross_margin <= sales_amount", "WARNING")].

(** The tables [run_validation] loads, in order, and whether a table is
    without a file that [read_csv] parses. *)
Definition validation_tables : list string :=
  ["dim_date"; "dim_product"; "dim_customer"; "dim_employee"; "dim_region"; "fact_sales"].

Definition unread (processed : gmap string csv_file) (t : string) : bool :=
  match processed !! t with
  | Some (Parsed _) => false
  | _ => true
  end.

(** Exceptions a check raises on a table it has loaded: a missing column or
    a cell of the wrong type. *)
Definition column_error (e : exn) : Prop :=
  match e with
  | KeyError _ | TypeError => True
  | _ => False
  end.


(** The quarter check of [validate_dim_date]: a value is valid when it is
    one of the four labels; the check lists the distinct invalid values. *)
Definition valid_quarter (c : cell) : bool :=
  cell_in c [Str "Q1"; Str "Q2"; Str "Q3"; Str "Q4"].

Definition invalid_quarters (df : DataFrame) : Series :=
  List.filter (fun q => negb (valid_quarter q)) (unique (column df "quarter")).

Definition quarter_result (df : DataFrame) : ValidationResult :=
  {| check_name := "valid_quarter_values";
     table := "dim_date";
     passed := Nat.eqb (length (invalid_quarters df)) 0;
     message := match invalid_quarters df with
                | [] => "OK"
                | _ => "Invalid quarter values: " ++ repr_cells (invalid_quarters df)
                end;
     severity := "ERROR";
     row_count := length (invalid_quarters df) |}.


(** How often the left merge with [right] lists the left row [l]: once for
    every row of [right] with the same key, and once when there is none. *)
Definition matches (right : DataFrame) (on : string) (l : Row) : nat :=
  length (List.filter (fun r : Row => cell_eqb (l on) (r on)) (rows right)).

Definition copies (right : DataFrame) (on : string) (l : Row) : nat :=
  Nat.max 1 (matches right on l).

(** The rows of the fact table that are flagged as revenue eligible. *)
Definition eligible_rows (fact : DataFrame) : list Row :=
  List.filter (fun r : Row => eq_True (r "is_revenue_eligible")) (rows fact).


(** ** A small instance of the pipeline

    Raw tables as [read_csv] could deliver them, and toy parsers, printers
    and a clock to stand for those of pandas and Python. *)

Definition example_parse_numeric (s : string) : option float64 :=
  if String.eqb s "120.5" then Some (Fin (241 # 2)) else None.

Definition example_parse_datetime (s : string) : option Z :=
  if String.eqb s "2025-01-15" then Some 20103%Z else None.

Definition example_repr_float (q : Q) : string :=
  if Qeq_bool q 1 then "1.0" else "0.01".

Definition example_repr_cells (l : list cell) : string := "[...]".

Definition example_now (n : nat) : string := "2025-06-30T12:00:0" ++ pretty n.

Definition raw_dim_date : DataFrame :=
  frame ["date_key"; "full_date"; "year"; "month_number"; "day_of_month"; "quarter";
         "month_name"; "is_weekend"; "is_holiday"]
    [[num 20250115; Str "2025-01-15"; num 2025; num 1; num 15; Str "Q1";
      Str "January"; Bool false; Bool false];
     [num 20250216; Str "2025-01-15"; num 2025; num 2; num 16; Str "Q1";
      Str "February"; Bool true; Bool false];
     [num 20250115; Str "2025-01-15"; num 2025; num 1; num 15; Str "Q1";
      Str "January"; Bool false; Bool false]].

Definition raw_dim_product : DataFrame :=
  frame ["product_key"; "product_id"; "product_name"; "category"; "unit_cost";
         "list_price"; "is_active"; "launch_date"]
    [[num 1; Str "PRD-001"; Str "Laptop"; Str "Hardware"; num 60; num 100;
      Bool true; Str "2025-01-15"];
     [num 2; Str "PRD-002"; Str "Mouse"; Str "Hardware"; Str "n/a"; num 20;
      Bool true; Null];
     [num 3; Str "PRD-003"; Str "Licence"; Str "Software"; num 10; Null;
      Bool true; Null];
     [num 4; Str "PRD-004"; Str "Dock"; Str "Hardware"; Str "120.5"; num 200;
      Bool false; Str "soon"]].

Definition raw_dim_customer : DataFrame :=
  frame ["customer_key"; "customer_id"; "customer_name"; "segment"]
    [[num 1; Str "CUS-001"; Str "Acme"; Str "Enterprise"];
     [num 2; Str "CUS-002"; Str "Bolt"; Str "SMB"]].

Definition raw_dim_employee : DataFrame :=
  frame ["employee_key"; "employee_id"; "full_name"; "department"]
    [[num 1; Str "EMP-001"; Str "Ada"; Str "Sales"];
     [num 2; Str "EMP-002"; Str "Bob"; Str "Sales"]].

Definition raw_dim_region : DataFrame :=
  frame ["region_key"; "country"; "region"; "city"; "currency"]
    [[num 1; Str "France"; Str "EMEA"; Str "Paris"; Str "EUR"]].

Definition fact_columns : list string :=
  ["sales_key"; "order_id"; "date_key"; "product_key"; "customer_key";
   "employee_key"; "region_key"; "quantity"; "unit_price"; "discount_pct";
   "sales_amount"; "cogs"; "gross_margin"; "target_amount"; "order_status";
   "created_at"; "updated_at"].

(** Five orders: two delivered, one cancelled, one with an unknown product
    and one without a sales amount. *)
Definition raw_fact_sales : DataFrame :=
  frame fact_columns
    [[num 1; Str "ORD-001"; num 20250115; num 1; num 1; num 1; num 1;
      num 2; num 500; dec (1 # 10); num 1000; num 600; num 400; num 950;
      Str "Delivered"; Str "2025-01-15"; Str "2025-01-15"];
     [num 2; Str "ORD-002"; num 20250216; num 4; num 2; num 2; num 1;
      num 5; num 500; Null; num 2500; num 1500; num 1000; num 2400;
      Str "Delivered"; Str "2025-01-15"; Null];
     [num 3; Str "ORD-003"; num 20250216; num 1; num 1; num 1; num 1;
      num 1; num 500; num 0; num 500; num 300; num 200; num 480;
      Str "Cancelled"; Str "2025-01-15"; Null];
     [num 4; Str "ORD-004"; num 20250115; num 9; num 1; num 1; num 1;
      num 1; num 500; num 0; num 500; num 300; num 200; num 480;
      Str "Delivered"; Str "2025-01-15"; Null];
     [num 5; Str "ORD-005"; num 20250115; num 1; num 2; num 2; num 1;
      num 1; num 500; num 0; Str "?"; num 300; num 200; num 480;
      Str "Open"; Str "2025-01-15"; Null]].

Definition empty_frame : DataFrame := {| columns := []; rows := [] |}.

(** The tables the transform stage writes for the raw tables above (with
    the parsers of the context). *)
Definition example_dim_date : DataFrame :=
  unwrap empty_frame (transform_dim_date raw_dim_date).

Definition example_dim_product : DataFrame :=
  unwrap empty_frame (transform_dim_product raw_dim_product).

Definition example_fact_sales : DataFrame :=
  unwrap empty_frame
    (transform_fact_sales raw_fact_sales
       example_dim_date example_dim_product raw_dim_customer raw_dim_employee
       raw_dim_region).

(** A processed directory that holds the tables above, cell by cell as the
    transform stage has them in memory (a parsed timestamp stays a
    timestamp; [read_csv] would deliver its text, of which the validator
    and the calculator read no more than whether it is null). *)
Definition example_processed : gmap string csv_file :=
  list_to_map
    [("dim_date", Parsed example_dim_date);
     ("dim_product", Parsed example_dim_product);
     ("dim_customer", Parsed raw_dim_customer);
     ("dim_employee", Parsed raw_dim_employee);
     ("dim_region", Parsed raw_dim_region);
     ("fact_sales", Parsed example_fact_sales)].

Definition revenue_thresholds : gmap string threshold :=
  list_to_map
    [("excellent", {| operator := ">="; value := of_Z 10000000 |});
     ("good", {| operator := ">="; value := of_Z 7000000 |});
     ("warning", {| operator := ">="; value := of_Z 4000000 |});
     ("critical", {| operator := "<"; value := of_Z 4000000 |})].

Definition example_kpi (id name unit : string)
  (thresholds : option (gmap string threshold)) : KPIDef :=
  {| d_id := id;
     d_name := name;
     d_category := "Sales";
     d_unit := unit;
     d_formula := "see catalog";
     d_thresholds := thresholds;
     d_trend_direction := Some "higher_is_better" |}.

(** A catalog with the ten KPIs and one the dispatcher does not know. *)
Definition example_catalog : list KPIDef :=
  [example_kpi "KPI-001" "Total Revenue" "currency" (Some revenue_thresholds);
   example_kpi "KPI-002" "Gross Margin %" "percentage" None;
   example_kpi "KPI-003" "Revenue Growth MoM" "percentage" None;
   example_kpi "KPI-004" "Average Order Value" "currency" None;
   example_kpi "KPI-005" "Target Attainment" "percentage" None;
   example_kpi "KPI-006" "Total Orders" "count" None;
   example_kpi "KPI-011" "Churn" "percentage" None;
   example_kpi "KPI-007" "Discount Rate" "percentage" None;
   example_kpi "KPI-008" "Revenue per Employee" "currency" None;
   example_kpi "KPI-009" "Customer Count" "count" None;
   example_kpi "KPI-010" "Top 10 Revenue Share" "percentage" (Some ∅)].

(** The same directory with the raw date table, which holds a date twice. *)
Definition example_processed_with_duplicates : gmap string csv_file :=
  <["dim_date" := Parsed raw_dim_date]> example_processed.

Definition example_report : ValidationReport :=
  unwrap {| results := [] |} (run_checks example_processed).

Definition no_calculator : KPICalculator :=
  {| fact := empty_frame;
     dim_date := empty_frame;
     kpi_defs := [];
     eligible := empty_frame;
     kpi_results := [] |}.

(** The calculator on the processed directory, before and after
    [calculate_all]. *)
Definition example_calculator : KPICalculator :=
  unwrap no_calculator (KPICalculator_init example_processed example_catalog).

Definition example_calculated : KPICalculator * nat :=
  unwrap (no_calculator, 0%nat) (calculate_all example_calculator 0).

(** A calculator whose orders are all cancelled: it has no eligible row. *)
Definition example_idle_calculator : KPICalculator :=
  {| fact := fact example_calculator;
     dim_date := dim_date example_calculator;
     kpi_defs := example_catalog;
     eligible := {| columns := columns (eligible example_calculator); rows := [] |};
     kpi_results := [] |}.

(** A processed directory written out as [read_csv] delivers it: three
    orders, one of them cancelled, and the two dates they were placed on. *)
Definition loaded_fact_sales : DataFrame :=
  frame ["sales_key"; "order_id"; "date_key"; "sales_amount"; "gross_margin";
         "order_status"; "is_revenue_eligible"]
    [[num 1; Str "ORD-001"; num 20250115; num 1000; num 400; Str "Delivered"; Bool true];
     [num 2; Str "ORD-002"; num 20250216; num 2500; num 1000; Str "Delivered"; Bool true];
     [num 3; Str "ORD-003"; num 20250216; num 500; num 200; Str "Cancelled"; Bool false]].

Definition loaded_dim_date : DataFrame :=
  frame ["date_key"; "full_date"; "year"; "month_number"; "month_name"; "quarter"]
    [[num 20250115; Str "2025-01-15"; num 2025; num 1; Str "January"; Str "Q1"];
     [num 20250216; Str "2025-02-16"; num 2025; num 2; Str "February"; Str "Q1"]].

(** The same dates with the first one listed twice, and with the keys
    written as text. *)
Definition loaded_dim_date_twice : DataFrame :=
  frame ["date_key"; "full_date"; "year"; "month_number"; "month_name"; "quarter"]
    [[num 20250115; Str "2025-01-15"; num 2025; num 1; Str "January"; Str "Q1"];
     [num 20250216; Str "2025-02-16"; num 2025; num 2; Str "February"; Str "Q1"];
     [num 20250115; Str "2025-01-15"; num 2025; num 1; Str "January"; Str "Q1"]].

Definition loaded_dim_date_text : DataFrame :=
  frame ["date_key"; "full_date"; "year"; "month_number"; "month_name"; "quarter"]
    [[Str "2025-01-15"; Str "2025-01-15"; num 2025; num 1; Str "January"; Str "Q1"];
     [Str "2025-02-16"; Str "2025-02-16"; num 2025; num 2; Str "February"; Str "Q1"]].

Definition loaded_processed (dates : DataFrame) : gmap string csv_file :=
  list_to_map [("fact_sales", Parsed loaded_fact_sales); ("dim_date", Parsed dates)].

Definition loaded_calculator (dates : DataFrame) : KPICalculator :=
  unwrap no_calculator (KPICalculator_init (loaded_processed dates) example_catalog).

(** One eligible order with a margin of 23 on sales of 640.  The margin is
    3.59375 percent; the doubles give 3.5937499999999996. *)
Definition margin_thresholds : gmap string threshold :=
  list_to_map
    [("excellent", {| operator := ">="; value := binary64 (359375 # 100000) |});
     ("good", {| operator := ">="; value := binary64 (359375 # 100000) |});
     ("warning", {| operator := ">="; value := binary64 (359375 # 100000) |})].

Definition margin_calculator : KPICalculator :=
  {| fact := empty_frame;
     dim_date := empty_frame;
     kpi_defs := [example_kpi "KPI-002" "Gross Margin %" "percentage"
                    (Some margin_thresholds)];
     eligible := frame ["sales_amount"; "gross_margin"] [[num 640; num 23]];
     kpi_results := [] |}.

(** The raw date table with quarters that are no quarter. *)
Definition dim_date_odd_quarters : DataFrame :=
  setitem raw_dim_date "quarter" [Str "Q5"; Null; Str "Q5"].


(** * Properties *)

(** ** Doubles and rounding *)

Lemma round_half_even_near q :
  (Qabs (inject_Z (round_half_even q) - q) <= 1 # 2)%Q.
Proof.
  unfold round_half_even.
  pose proof (Qfloor_le q) as Hlo. pose proof (Qlt_floor q) as Hhi.
  rewrite inject_Z_plus in Hhi. change (inject_Z 1) with 1%Q in Hhi.
  apply Qabs_Qle_condition.
  destruct (q - inject_Z (Qfloor q) ?= 1 # 2)%Q eqn:Hc.
  - apply Qeq_alt in Hc.
    destruct (Z.even (Qfloor q)).
    + split; lra.
    + rewrite inject_Z_plus. change (inject_Z 1) with 1%Q. split; lra.
  - apply Qlt_alt in Hc. split; lra.
  - apply Qgt_alt in Hc. rewrite inject_Z_plus. change (inject_Z 1) with 1%Q. split; lra.
Qed.

Lemma round_half_even_Z z : round_half_even (inject_Z z) = z.
Proof.
  unfold round_half_even. rewrite Qfloor_Z.
  assert (H : (inject_Z z - inject_Z z ?= 1 # 2)%Q = Lt).
  { apply (proj1 (Qlt_alt _ _)). 
    unfold Qlt. simpl. lia. }
  rewrite H. reflexivity.
Qed.

Lemma pow2_pos e : (0 < pow2 e)%Q.
Proof. unfold pow2. apply Qpower_0_lt. reflexivity. Qed.

Lemma pow2_plus n m : (pow2 (n + m) == pow2 n * pow2 m)%Q.
Proof. unfold pow2. apply Qpower_plus. discriminate. Qed.

Lemma pow2_le n m : (n <= m)%Z -> (pow2 n <= pow2 m)%Q.
Proof. intros H. unfold pow2. apply Qpower_le_compat_l; [exact H | discriminate]. Qed.

Lemma pow2_Z n : (0 <= n)%Z -> (inject_Z (2 ^ n) == pow2 n)%Q.
Proof. intros H. unfold pow2. rewrite Zpower_Qpower by exact H. reflexivity. Qed.

(** The binade of a positive rational is not above it. *)
Lemma binade_le a : (0 < a)%Q -> (pow2 (binade a) <= a)%Q.
Proof.
  intros Ha. unfold binade.
  destruct (Qle_bool _ a) eqn:Hb; [apply Qle_bool_iff in Hb; exact Hb |].
  destruct a as [n d]. cbn [Qnum Qden] in *.
  assert (Hn : (0 < n)%Z).
  { unfold Qlt in Ha. simpl in Ha. lia. }
  pose proof (Z.log2_spec n Hn) as [Hn1 _].
  pose proof (Z.log2_spec (Z.pos d) (Pos2Z.is_pos d)) as [_ Hd2].
  pose proof (Z.log2_nonneg n) as Hln. pose proof (Z.log2_nonneg (Z.pos d)) as Hld.
  replace (Z.log2 n - Z.log2 (Z.pos d) - 1)%Z
    with (Z.log2 n - Z.succ (Z.log2 (Z.pos d)))%Z by lia.
  unfold pow2. rewrite Qpower_minus by discriminate.
  fold (pow2 (Z.log2 n)). fold (pow2 (Z.succ (Z.log2 (Z.pos d)))).
  rewrite <- !pow2_Z by lia.
  apply Qle_shift_div_r.
  - change 0%Q with (inject_Z 0). rewrite <- Zlt_Qlt. lia.
  - rewrite (Qmake_Qdiv n d).
    assert (Hdpos : (0 < inject_Z (Z.pos d))%Q).
    { change 0%Q with (inject_Z 0). rewrite <- Zlt_Qlt. lia. }
    apply Qle_trans with (inject_Z n / inject_Z (Z.pos d) * inject_Z (Z.pos d))%Q.
    + assert (E : (inject_Z n / inject_Z (Z.pos d) * inject_Z (Z.pos d) == inject_Z n)%Q)
        by (field; lra).
      rewrite E, <- Zle_Qle. exact Hn1.
    + apply Qmult_le_l.
      * apply Qlt_shift_div_l; [exact Hdpos |]. rewrite Qmult_0_l.
        change 0%Q with (inject_Z 0). rewrite <- Zlt_Qlt. lia.
      * rewrite <- Zle_Qle. lia.
Qed.

Lemma binade_lt a : (0 < a)%Q -> (a < pow2 (binade a + 1))%Q.
Proof.
  intros Ha. unfold binade.
  destruct (Qle_bool _ a) eqn:Hb.
  - destruct a as [n d]. cbn [Qnum Qden] in *.
    assert (Hn : (0 < n)%Z) by (unfold Qlt in Ha; simpl in Ha; lia).
    pose proof (Z.log2_spec n Hn) as [_ Hn2].
    pose proof (Z.log2_spec (Z.pos d) (Pos2Z.is_pos d)) as [Hd1 _].
    pose proof (Z.log2_nonneg n) as Hln. pose proof (Z.log2_nonneg (Z.pos d)) as Hld.
    replace (Z.log2 n - Z.log2 (Z.pos d) + 1)%Z
      with (Z.succ (Z.log2 n) - Z.log2 (Z.pos d))%Z by lia.
    unfold pow2. rewrite Qpower_minus by discriminate.
    fold (pow2 (Z.succ (Z.log2 n))). fold (pow2 (Z.log2 (Z.pos d))).
    rewrite <- !pow2_Z by lia.
    assert (Hdpos : (0 < inject_Z (Z.pos d))%Q).
    { change 0%Q with (inject_Z 0). rewrite <- Zlt_Qlt. lia. }
    assert (Hppos : (0 < inject_Z (2 ^ Z.log2 (Z.pos d)))%Q).
    { change 0%Q with (inject_Z 0). rewrite <- Zlt_Qlt. lia. }
    apply Qlt_shift_div_l; [exact Hppos |].
    rewrite (Qmake_Qdiv n d).
    apply Qle_lt_trans with (inject_Z n / inject_Z (Z.pos d) * inject_Z (Z.pos d))%Q.
    + apply Qmult_le_l.
      * apply Qlt_shift_div_l; [exact Hdpos |]. rewrite Qmult_0_l.
        change 0%Q with (inject_Z 0). rewrite <- Zlt_Qlt. lia.
      * rewrite <- Zle_Qle. lia.
    + assert (E : (inject_Z n / inject_Z (Z.pos d) * inject_Z (Z.pos d) == inject_Z n)%Q)
        by (field; lra).
      rewrite E, <- Zlt_Qlt. exact Hn2.
  - replace (Z.log2 (Qnum a) - Z.log2 (Z.pos (Qden a)) - 1 + 1)%Z
      with (Z.log2 (Qnum a) - Z.log2 (Z.pos (Qden a)))%Z by lia.
    apply Qnot_le_lt. intros H. apply Qle_bool_iff in H. congruence.
Qed.

(** The spacing of the doubles around [q], and half of it. *)
Lemma half_ulp_le a :
  (0 < a)%Q ->
  (pow2 (Z.max (binade a) (-1022) - 52) * (1 # 2) <= a * pow2 (-53) + pow2 (-1075))%Q.
Proof.
  intros Ha. pose proof (binade_le a Ha) as Hb.
  pose proof (pow2_pos (-53)) as H53. pose proof (pow2_pos (-1075)) as Ht.
  destruct (Z.max_spec (binade a) (-1022)) as [[_ ->] | [_ ->]].
  - assert (E : (pow2 (-1022 - 52) * (1 # 2) == pow2 (-1075))%Q) by reflexivity.
    rewrite E. nra.
  - replace (binade a - 52)%Z with (binade a + -52)%Z by lia.
    rewrite pow2_plus.
    assert (E : (pow2 (-52) * (1 # 2) == pow2 (-53))%Q) by reflexivity.
    rewrite <- Qmult_assoc, E. nra.
Qed.

Lemma scaled_rounding_near a u :
  (0 < u)%Q ->
  (Qabs (inject_Z (round_half_even (a / u)) * u - a) <= u * (1 # 2))%Q.
Proof.
  intros Hu. pose proof (round_half_even_near (a / u)) as H.
  apply Qabs_Qle_condition in H. destruct H as [H1 H2].
  assert (E : (a == a / u * u)%Q) by (field; lra).
  apply Qabs_Qle_condition.
  set (m := inject_Z (round_half_even (a / u))) in *.
  set (x := (a / u)%Q) in *.
  split; nra.
Qed.

Lemma binary64_error q r :
  binary64 q = Fin r ->
  (Qabs (r - q) <= Qabs q * pow2 (-53) + pow2 (-1075))%Q.
Proof.
  unfold binary64.
  pose proof (pow2_pos (-53)) as H53. pose proof (pow2_pos (-1075)) as Ht.
  pose proof (Qabs_nonneg q) as Hq0.
  destruct (q ?= 0)%Q eqn:Hc.
  - intros H. injection H as <-. apply Qeq_alt in Hc.
    assert (H0 : (0 <= Qabs q * pow2 (-53))%Q) by (apply Qmult_le_0_compat; lra).
    apply Qabs_Qle_condition. split; lra.
  - apply Qlt_alt in Hc. 
    set (a := Qabs q). set (u := pow2 (Z.max (binade a) (-1022) - 52)).
    cbv zeta. fold a. fold u.
    destruct (Qle_bool _ _); [discriminate |]. intros H. injection H as <-.
    rewrite Qred_correct.
    assert (Ha : (a == - q)%Q) by (apply Qabs_neg; lra).
    assert (Hapos : (0 < a)%Q) by lra.
    pose proof (half_ulp_le a Hapos) as Hu. fold u in Hu.
    pose proof (scaled_rounding_near a u (pow2_pos _)) as Hn.
    apply Qabs_Qle_condition in Hn. destruct Hn as [Hn1 Hn2].
    apply Qabs_Qle_condition. fold a. split; lra.
  - apply Qgt_alt in Hc.
    set (a := Qabs q). set (u := pow2 (Z.max (binade a) (-1022) - 52)).
    cbv zeta. fold a. fold u.
    destruct (Qle_bool _ _); [discriminate |]. intros H. injection H as <-.
    rewrite Qred_correct.
    assert (Ha : (a == q)%Q) by (apply Qabs_pos; lra).
    assert (Hapos : (0 < a)%Q) by lra.
    pose proof (half_ulp_le a Hapos) as Hu. fold u in Hu.
    pose proof (scaled_rounding_near a u (pow2_pos _)) as Hn.
    apply Qabs_Qle_condition in Hn. destruct Hn as [Hn1 Hn2].
    apply Qabs_Qle_condition. fold a. split; lra.
Qed.

Lemma binary64_finite q :
  (Qabs q <= pow2 1023)%Q -> exists r, binary64 q = Fin r.
Proof.
  intros Hb. unfold binary64.
  destruct (q ?= 0)%Q eqn:Hc; [eexists; reflexivity | |].
  all: set (a := Qabs q) in *; set (u := pow2 (Z.max (binade a) (-1022) - 52));
    cbv zeta; fold a; fold u.
  all: assert (Hapos : (0 < a)%Q)
    by (first [apply Qlt_alt in Hc | apply Qgt_alt in Hc];
        unfold a; first [rewrite Qabs_neg by lra | rewrite Qabs_pos by lra]; lra).
  all: pose proof (half_ulp_le a Hapos) as Hu; fold u in Hu;
    pose proof (scaled_rounding_near a u (pow2_pos _)) as Hn;
    apply Qabs_Qle_condition in Hn; destruct Hn as [Hn1 Hn2].
  all: assert (Hfin : Qle_bool (pow2 1024) (inject_Z (round_half_even (a / u)) * u) = false).
  1, 3: destruct (Qle_bool _ _) eqn:Hl; [| reflexivity]; apply Qle_bool_iff in Hl;
    exfalso;
    assert (Hc1 : (pow2 1023 * pow2 (-53) + pow2 (-1075) + pow2 1023 < pow2 1024)%Q)
      by reflexivity;
    pose proof (pow2_pos (-53)); nra.
  all: rewrite Hfin; eexists; reflexivity.
Qed.

Lemma round_half_even_unique y k :
  (Qabs (inject_Z k - y) < 1 # 2)%Q -> round_half_even y = k.
Proof.
  intros H. pose proof (round_half_even_near y) as Hm.
  apply Qabs_Qle_condition in Hm. destruct Hm as [Hm1 Hm2].
  apply Qabs_Qlt_condition in H. destruct H as [H1 H2].
  set (m := round_half_even y) in *.
  assert (Hlt : (inject_Z (m - k) < inject_Z 1)%Q).
  { unfold Z.sub. rewrite inject_Z_plus, inject_Z_opp. change (inject_Z 1) with 1%Q. lra. }
  assert (Hgt : (inject_Z (-1) < inject_Z (m - k))%Q).
  { unfold Z.sub. rewrite inject_Z_plus, inject_Z_opp. change (inject_Z (-1)) with (-1)%Q. lra. }
  rewrite <- Zlt_Qlt in Hlt, Hgt. lia.
Qed.

Lemma fround_4_Fin q :
  fround 4 (Fin q) = fdiv (frint (binary64 (q * 10000))) (Fin 10000).
Proof.
  unfold fround.
  replace (binary64 (inject_Z (10 ^ Z.of_nat 4))) with (Fin 10000)
    by (vm_compute; reflexivity).
  reflexivity.
Qed.

Lemma fround_4_not_finite :
  fround 4 NaN = NaN /\ fround 4 PInf = PInf /\ fround 4 NInf = NInf.
Proof. repeat split; vm_compute; reflexivity. Qed.

Lemma Qabs_scale q : (Qabs (q * 10000) == Qabs q * 10000)%Q.
Proof. rewrite Qabs_Qmult. reflexivity. Qed.

(** Rounding to four decimals gives the double next to a decimal with four
    places, which is within half a unit of the fourth place of the value,
    up to the rounding of the multiplication. *)
Lemma fround_four_decimals q :
  (Qabs q <= inject_Z (10 ^ 300))%Q ->
  exists k : Z,
    fround 4 (Fin q) = binary64 (inject_Z k / 10000) /\
    (Qabs (inject_Z k / 10000 - q)
     <= (1 # 20000) + Qabs q * pow2 (-53) + pow2 (-1075))%Q.
Proof.
  intros Hq. rewrite fround_4_Fin.
  pose proof (Qabs_nonneg q) as Hq0.
  assert (Hfin : (Qabs (q * 10000) <= pow2 1023)%Q).
  { rewrite Qabs_scale.
    apply Qle_trans with (inject_Z (10 ^ 300) * 10000)%Q.
    - apply Qmult_le_compat_r; [exact Hq | discriminate].
    - vm_compute. discriminate. }
  destruct (binary64_finite _ Hfin) as [y Hy]. rewrite Hy.
  apply binary64_error in Hy. rewrite Qabs_scale in Hy.
  exists (round_half_even y). split; [reflexivity |].
  pose proof (round_half_even_near y) as Hk.
  set (k := inject_Z (round_half_even y)) in *.
  set (p := pow2 (-53)) in *. set (t := pow2 (-1075)) in *.
  assert (Hp : (0 < p)%Q) by apply pow2_pos.
  assert (Ht : (0 < t)%Q) by apply pow2_pos.
  set (A := Qabs q) in *.
  apply Qabs_Qle_condition in Hy, Hk. destruct Hy as [Hy1 Hy2], Hk as [Hk1 Hk2].
  assert (E : (k / 10000 - q == (k - q * 10000) * (1 # 10000))%Q) by (field; discriminate).
  rewrite E. apply Qabs_Qle_condition.
  assert (HAp : (0 <= A * p)%Q) by (apply Qmult_le_0_compat; lra).
  set (Ap := (A * p)%Q) in *.
  assert (E2 : (A * 10000 * p == 10000 * Ap)%Q) by (unfold Ap; ring).
  rewrite E2 in Hy1, Hy2.
  split; lra.
Qed.

(** A value with four decimals is kept. *)
Lemma fround_keeps_four_decimals k :
  (Z.abs k <= 2 ^ 50)%Z ->
  fround 4 (binary64 (inject_Z k / 10000)) = binary64 (inject_Z k / 10000).
Proof.
  intros Hk.
  set (p := pow2 (-53)). set (t := pow2 (-1075)).
  assert (Hp : (0 < p)%Q) by apply pow2_pos.
  assert (Ht : (0 < t)%Q) by apply pow2_pos.
  assert (Hp1 : (p * inject_Z (2 ^ 50) == 1 # 8)%Q) by reflexivity.
  assert (Ht1 : (t <= 1 # 1000000000)%Q) by (vm_compute; discriminate).
  assert (Hp2 : (p <= 1 # 1000000000)%Q) by (vm_compute; discriminate).
  assert (HK : (Qabs (inject_Z k) <= inject_Z (2 ^ 50))%Q).
  { change (Qabs (inject_Z k)) with (inject_Z (Z.abs k)). rewrite <- Zle_Qle. exact Hk. }
  set (K := Qabs (inject_Z k)) in *.
  assert (HK0 : (0 <= K)%Q) by apply Qabs_nonneg.
  assert (HKp : (K * p <= 1 # 8)%Q).
  { rewrite <- Hp1. rewrite (Qmult_comm p). apply Qmult_le_compat_r; lra. }
  assert (HKp0 : (0 <= K * p)%Q) by (apply Qmult_le_0_compat; lra).
  assert (Habs : (Qabs (inject_Z k / 10000) == K * (1 # 10000))%Q).
  { unfold Qdiv. rewrite Qabs_Qmult. reflexivity. }
  assert (Hc50 : (inject_Z (2 ^ 50) <= pow2 1000)%Q) by (vm_compute; discriminate).
  assert (Hc1000 : (2 * pow2 1000 * 10000 + 1 <= pow2 1023)%Q) by (vm_compute; discriminate).
  assert (Hfin1 : (Qabs (inject_Z k / 10000) <= pow2 1023)%Q).
  { rewrite Habs. set (P := pow2 1000) in *. set (P' := pow2 1023) in *. lra. }
  destruct (binary64_finite _ Hfin1) as [x Hx]. rewrite Hx.
  rewrite fround_4_Fin.
  pose proof (binary64_error _ _ Hx) as Hxe. rewrite Habs in Hxe. fold p t in Hxe.
  apply Qabs_Qle_condition in Hxe. destruct Hxe as [Hx1 Hx2].
  assert (Hkk : (- K <= inject_Z k <= K)%Q).
  { apply Qabs_Qle_condition. unfold K. apply Qle_refl. }
  assert (Ex : (inject_Z k / 10000 == inject_Z k * (1 # 10000))%Q) by (field; discriminate).
  rewrite Ex in Hx1, Hx2.
  assert (EKp : (K * (1 # 10000) * p == (K * p) * (1 # 10000))%Q) by ring.
  rewrite EKp in Hx1, Hx2.
  set (Kp := (K * p)%Q) in *. set (kq := inject_Z k) in *.
  (* the product with 10000 *)
  assert (Hx10 : (Qabs (x * 10000) <= K + 1)%Q).
  { apply Qabs_Qle_condition. split; lra. }
  assert (Hfin2 : (Qabs (x * 10000) <= pow2 1023)%Q).
  { set (P := pow2 1000) in *. set (P' := pow2 1023) in *. lra. }
  destruct (binary64_finite _ Hfin2) as [y Hy]. rewrite Hy.
  apply binary64_error in Hy. fold p t in Hy.
  assert (Hxp : (Qabs (x * 10000) * p <= Kp + p)%Q).
  { apply Qle_trans with ((K + 1) * p)%Q.
    - apply Qmult_le_compat_r; lra.
    - unfold Kp. ring_simplify. lra. }
  assert (Hxp0 : (0 <= Qabs (x * 10000) * p)%Q).
  { apply Qmult_le_0_compat; [apply Qabs_nonneg | lra]. }
  set (Xp := (Qabs (x * 10000) * p)%Q) in *.
  apply Qabs_Qle_condition in Hy. destruct Hy as [Hy1 Hy2].
  assert (Hr : round_half_even y = k).
  { apply round_half_even_unique. apply Qabs_Qlt_condition. fold kq. split; lra. }
  cbn [frint]. rewrite Hr. fold kq. cbn [fdiv].
  change (Qeq_bool 10000 0) with false. cbv iota. exact Hx.
Qed.

Lemma binade_unique a e :
  (0 < a)%Q -> (pow2 e <= a)%Q -> (a < pow2 (e + 1))%Q -> binade a = e.
Proof.
  intros Ha H1 H2.
  pose proof (binade_le a Ha) as B1. pose proof (binade_lt a Ha) as B2.
  assert (L1 : (pow2 e < pow2 (binade a + 1))%Q) by (eapply Qle_lt_trans; eassumption).
  assert (L2 : (pow2 (binade a) < pow2 (e + 1))%Q) by (eapply Qle_lt_trans; eassumption).
  unfold pow2 in L1, L2.
  apply Qpower_lt_compat_l_inv in L1; [| reflexivity].
  apply Qpower_lt_compat_l_inv in L2; [| reflexivity].
  lia.
Qed.

Lemma binade_Qeq a b : (0 < a)%Q -> (a == b)%Q -> binade a = binade b.
Proof.
  intros Ha E. assert (Hb : (0 < b)%Q) by (rewrite <- E; exact Ha).
  apply binade_unique; [exact Ha | |]; rewrite E; [apply binade_le | apply binade_lt];
    exact Hb.
Qed.

Lemma round_half_even_Qeq x y : (x == y)%Q -> round_half_even x = round_half_even y.
Proof.
  intros E. unfold round_half_even. rewrite (Qfloor_comp x y E).
  assert (Ec : (x - inject_Z (Qfloor y) ?= 1 # 2)%Q = (y - inject_Z (Qfloor y) ?= 1 # 2)%Q).
  { apply Qcompare_comp; [| reflexivity]. rewrite E. reflexivity. }
  rewrite Ec. reflexivity.
Qed.

(** The double next to a rational does not depend on how the rational is
    written. *)
Lemma binary64_Qeq q q' : (q == q')%Q -> binary64 q = binary64 q'.
Proof.
  intros E. unfold binary64.
  assert (Ec : (q ?= 0)%Q = (q' ?= 0)%Q) by (apply Qcompare_comp; [exact E | reflexivity]).
  rewrite <- Ec.
  destruct (q ?= 0)%Q eqn:Hc; [reflexivity | |].
  all: assert (Ha : (0 < Qabs q)%Q)
    by (first [apply Qlt_alt in Hc | apply Qgt_alt in Hc];
        first [rewrite Qabs_neg by lra | rewrite Qabs_pos by lra]; lra).
  all: assert (Ea : (Qabs q == Qabs q')%Q) by (rewrite E; reflexivity).
  all: cbv zeta; rewrite <- (binade_Qeq _ _ Ha Ea).
  all: set (u := pow2 (Z.max (binade (Qabs q)) (-1022) - 52)).
  all: assert (Er : round_half_even (Qabs q / u) = round_half_even (Qabs q' / u))
    by (apply round_half_even_Qeq; rewrite Ea; reflexivity).
  all: rewrite <- Er; reflexivity.
Qed.

(** A whole number below [2^53] is a double. *)
Lemma binary64_Z z : (Z.abs z < 2 ^ 53)%Z -> binary64 (inject_Z z) = Fin (inject_Z z).
Proof.
  intros Hz.
  assert (Hpos : forall p, (Z.pos p < 2 ^ 53)%Z ->
            let u := pow2 (Z.max (binade (inject_Z (Z.pos p))) (-1022) - 52) in
            (inject_Z (round_half_even (inject_Z (Z.pos p) / u)) * u == inject_Z (Z.pos p))%Q).
  { intros p Hp. 
    assert (H0 : (0 < Z.pos p)%Z) by lia.
    pose proof (Z.log2_spec _ H0) as [L1 L2].
    pose proof (Z.log2_nonneg (Z.pos p)) as Ln.
    assert (L53 : (Z.log2 (Z.pos p) < 53)%Z) by (apply Z.log2_lt_pow2; lia).
    set (e := Z.log2 (Z.pos p)) in *.
    assert (Hb : binade (inject_Z (Z.pos p)) = e).
    { apply binade_unique.
      - change 0%Q with (inject_Z 0). rewrite <- Zlt_Qlt. lia.
      - rewrite <- pow2_Z by lia. rewrite <- Zle_Qle. exact L1.
      - rewrite <- pow2_Z by lia. rewrite <- Zlt_Qlt.
        replace (e + 1)%Z with (Z.succ e) by lia. exact L2. }
    rewrite Hb. replace (Z.max e (-1022)) with e by lia. cbv zeta.
    assert (Eu : (pow2 (e - 52) * pow2 (52 - e) == 1)%Q).
    { rewrite <- pow2_plus. replace (e - 52 + (52 - e))%Z with 0%Z by lia. reflexivity. }
    assert (Ex : (inject_Z (Z.pos p) / pow2 (e - 52)
                  == inject_Z (Z.pos p * 2 ^ (52 - e)))%Q).
    { rewrite inject_Z_mult, (pow2_Z (52 - e)) by lia.
      pose proof (pow2_pos (e - 52)) as Hu.
      apply (Qmult_inj_r _ _ (pow2 (e - 52))); [lra |].
      rewrite <- Qmult_assoc, (Qmult_comm (pow2 (52 - e))), Eu.
      field. lra. }
    rewrite (round_half_even_Qeq _ _ Ex), round_half_even_Z.
    rewrite inject_Z_mult, (pow2_Z (52 - e)) by lia.
    rewrite <- Qmult_assoc, (Qmult_comm (pow2 (52 - e))), Eu. ring. }
  assert (Hsmall : forall p, (Z.pos p < 2 ^ 53)%Z -> forall r,
            (r == inject_Z (Z.pos p))%Q -> Qle_bool (pow2 1024) r = false).
  { intros p Hp r Er. destruct (Qle_bool _ r) eqn:Hl; [| reflexivity].
    apply Qle_bool_iff in Hl. rewrite Er in Hl.
    assert (Hc : (inject_Z (2 ^ 53) < pow2 1024)%Q) by reflexivity.
    rewrite Zlt_Qlt in Hp. lra. }
  destruct z as [|p|p].
  - reflexivity.
  - unfold binary64.
    assert (Hc : (inject_Z (Z.pos p) ?= 0)%Q = Gt) by reflexivity.
    rewrite Hc. change (Qabs (inject_Z (Z.pos p))) with (inject_Z (Z.pos p)). cbv zeta.
    specialize (Hpos p Hz). cbv zeta in Hpos.
    rewrite (Hsmall p Hz _ Hpos).
    rewrite (Qred_complete _ _ Hpos), inject_Z_Qred. reflexivity.
  - unfold binary64.
    assert (Hc : (inject_Z (Z.neg p) ?= 0)%Q = Lt) by reflexivity.
    rewrite Hc. change (Qabs (inject_Z (Z.neg p))) with (inject_Z (Z.pos p)). cbv zeta.
    assert (Hz' : (Z.pos p < 2 ^ 53)%Z) by exact Hz.
    specialize (Hpos p Hz'). cbv zeta in Hpos.
    rewrite (Hsmall p Hz' _ Hpos).
    assert (En : (- (inject_Z (round_half_even
                      (inject_Z (Z.pos p)
                       / pow2 (Z.max (binade (inject_Z (Z.pos p))) (-1022) - 52)))
                    * pow2 (Z.max (binade (inject_Z (Z.pos p))) (-1022) - 52))
                  == inject_Z (Z.neg p))%Q).
    { rewrite Hpos. reflexivity. }
    rewrite (Qred_complete _ _ En), inject_Z_Qred. reflexivity.
Qed.

(** A count is recorded as it is. *)
Lemma fround_4_whole z :
  (Z.abs z <= 10 ^ 11)%Z -> fround 4 (of_Z z) = of_Z z.
Proof.
  intros Hz. unfold of_Z.
  assert (H53 : (Z.abs z < 2 ^ 53)%Z).
  { assert ((10 ^ 11 < 2 ^ 53)%Z) by reflexivity. lia. }
  assert (H50 : (Z.abs (z * 10000) <= 2 ^ 50)%Z).
  { rewrite Z.abs_mul. assert ((10 ^ 11 * 10000 <= 2 ^ 50)%Z) by (vm_compute; discriminate).
    change (Z.abs 10000) with 10000%Z. nia. }
  assert (E : (inject_Z (z * 10000) / 10000 == inject_Z z)%Q).
  { rewrite inject_Z_mult. change (inject_Z 10000) with 10000%Q. field. }
  pose proof (fround_keeps_four_decimals (z * 10000) H50) as H.
  rewrite (binary64_Qeq _ _ E), (binary64_Z z H53) in H. exact H.
Qed.

(** The length of the array is fuel enough for the pairwise summation. *)
Lemma pairwise_sum_fuel fuel fuel' xs :
  (length xs <= fuel)%nat -> (length xs <= fuel')%nat ->
  pairwise_sum fuel xs = pairwise_sum fuel' xs.
Proof.
  revert fuel' xs. induction fuel as [|fuel IH]; intros fuel' xs H H'.
  - destruct xs; [| simpl in H; lia]. destruct fuel'; reflexivity.
  - destruct fuel' as [|fuel'].
    + destruct xs; [| simpl in H'; lia]. reflexivity.
    + cbn [pairwise_sum].
      destruct (Nat.ltb (length xs) 8) eqn:E8; [reflexivity |].
      destruct (Nat.leb (length xs) 128) eqn:E128; [reflexivity |].
      apply Nat.leb_gt in E128.
      set (n2 := (length xs / 2 - (length xs / 2) mod 8)%nat).
      assert (Hn2 : (1 <= n2 < length xs)%nat).
      { unfold n2.
        pose proof (Nat.mod_upper_bound (length xs / 2) 8 ltac:(lia)) as Hm.
        pose proof (Nat.div_lt (length xs) 2 ltac:(lia) ltac:(lia)) as Hd.
        assert (Hh : (64 <= length xs / 2)%nat).
        { apply (Nat.div_le_lower_bound (length xs) 2 64); lia. }
        lia. }
      f_equal; apply IH; rewrite ?length_firstn, ?length_skipn; lia.
Qed.

(** ** The result monad *)

Lemma bind_ok {A B : Type} (m : result A) (k : A -> result B) (b : B) :
  bind m k = Ok b -> exists a, m = Ok a /\ k a = Ok b.
Proof.
  destruct m as [a|e]; simpl; intros H; [exists a; auto | discriminate].
Qed.

Lemma bind_raise {A B : Type} (m : result A) (k : A -> result B) (e : exn) :
  bind m k = Raise e -> m = Raise e \/ exists a, m = Ok a /\ k a = Raise e.
Proof.
  destruct m as [a|e']; simpl; intros H.
  - right. exists a. split; [reflexivity | exact H].
  - left. congruence.
Qed.

(** Splits a hypothesis [do x <- m; k = Ok b] into its two steps. *)
Tactic Notation "bind_inv" hyp(H) "as" ident(x) ident(Hx) :=
  apply bind_ok in H; destruct H as (x & Hx & H).

(** ** rag_status *)

Lemma check_other v op x :
  ~ In op [">="; "<="; ">"; "<"; "="] -> check v op x = false.
Proof.
  intros Hop. unfold check. cbn [list_to_map foldr fst snd curry uncurry].
  rewrite !lookup_insert_ne, lookup_empty; [reflexivity | ..];
    intros <-; apply Hop; simpl; auto 10.
Qed.

Lemma size_lookup_ne_0 {V : Type} (t : gmap string V) (k : string) (v : V) :
  t !! k = Some v -> bool_decide (size t = 0%nat) = false.
Proof.
  intros Hk. apply bool_decide_eq_false. intros Hs.
  apply map_size_empty_inv in Hs. subst t. rewrite lookup_empty in Hk. discriminate.
Qed.

(** C2.  With an empty thresholds dictionary [rag_status] returns INFO.  With
    a dictionary that has the entries excellent, good and warning it returns
    GREEN when the value satisfies the excellent comparison, else GREEN when
    it satisfies the good one, else AMBER when it satisfies the warning one,
    else RED; the comparison of an entry is the one its operator names among
    >=, <=, >, < and =, taken against the entry's value, and any other
    operator is not satisfied. *)
Theorem rag_status_classification :
  (forall v d, rag_status v ∅ d = Ok "INFO") /\
  (forall v (t : gmap string threshold) d e g w,
     t !! "excellent" = Some e -> t !! "good" = Some g -> t !! "warning" = Some w ->
     rag_status v t d =
       Ok (if check v (operator e) (value e) then "GREEN"
           else if check v (operator g) (value g) then "GREEN"
           else if check v (operator w) (value w) then "AMBER"
           else "RED")) /\
  (forall v x,
     check v ">=" x = fgeb v x /\ check v "<=" x = fleb v x /\
     check v ">" x = fgtb v x /\ check v "<" x = fltb v x /\
     check v "=" x = feqb v x) /\
  (forall v op x, ~ In op [">="; "<="; ">"; "<"; "="] -> check v op x = false).
Proof.
  split; [| split; [| split]].
  - intros v d. reflexivity.
  - intros v t d e g w He Hg Hw. unfold rag_status.
    rewrite (size_lookup_ne_0 t _ _ He).
    unfold dict_getitem. rewrite He, Hg, Hw. simpl.
    destruct (check v (operator e) (value e)); [reflexivity |].
    destruct (check v (operator g) (value g)); [reflexivity |].
    destruct (check v (operator w) (value w)); reflexivity.
  - intros v x. repeat split; reflexivity.
  - apply check_other.
Qed.

(** ** Which exceptions can be raised *)

Section RaisesOnly.

Variable P : exn -> Prop.

Lemma raises_only_ok {A : Type} (a : A) : raises_only P (Ok a).
Proof. intros e H. discriminate. Qed.

Lemma raises_only_raise {A : Type} (e : exn) : P e -> raises_only P (@Raise A e).
Proof. intros He e' H. injection H as <-. exact He. Qed.

Lemma raises_only_bind {A B : Type} (m : result A) (k : A -> result B) :
  raises_only P m -> (forall a, m = Ok a -> raises_only P (k a)) ->
  raises_only P (bind m k).
Proof.
  intros Hm Hk e H. apply bind_raise in H. destruct H as [H | (a & Ha & H)].
  - exact (Hm e H).
  - exact (Hk a Ha e H).
Qed.

Lemma raises_only_mapM {A B : Type} (f : A -> result B) (l : list A) :
  (forall x, raises_only P (f x)) -> raises_only P (mapM f l).
Proof.
  intros Hf. induction l as [|x l IH]; simpl.
  - apply raises_only_ok.
  - apply raises_only_bind; [apply Hf | intros y _].
    apply raises_only_bind; [exact IH | intros ys _; apply raises_only_ok].
Qed.

Lemma raises_only_foldM {A S : Type} (f : S -> A -> result S) (l : list A) (s : S) :
  (forall s x, raises_only P (f s x)) -> raises_only P (foldM f l s).
Proof.
  intros Hf. revert s. induction l as [|x l IH]; intros s; simpl.
  - apply raises_only_ok.
  - apply raises_only_bind; [apply Hf | intros s' _; apply IH].
Qed.

Hypothesis P_KeyError : forall k, P (KeyError k).
Hypothesis P_TypeError : P TypeError.

Lemma raises_only_getitem df col : raises_only P (getitem df col).
Proof using P_KeyError.
  unfold getitem. destruct (has_column df col).
  - apply raises_only_ok.
  - apply raises_only_raise, P_KeyError.
Qed.

Lemma raises_only_as_float c : raises_only P (as_float c).
Proof using P_TypeError.
  destruct c; simpl; try apply raises_only_ok; apply raises_only_raise, P_TypeError.
Qed.

Lemma raises_only_dict_getitem {V : Type} (d : gmap string V) k :
  raises_only P (dict_getitem d k).
Proof using P_KeyError.
  unfold dict_getitem. destruct (d !! k).
  - apply raises_only_ok.
  - apply raises_only_raise, P_KeyError.
Qed.

End RaisesOnly.

(** Solves [raises_only] goals of straight-line code made of the pandas
    primitives above. *)
Ltac raises_only_step :=
  first
    [ apply raises_only_ok
    | apply raises_only_getitem; solve [intros; simpl; auto]
    | apply raises_only_as_float; solve [intros; simpl; auto]
    | apply raises_only_dict_getitem; solve [intros; simpl; auto]
    | apply raises_only_mapM; intros
    | apply raises_only_foldM; intros
    | apply raises_only_bind; [| intros ? _] ].

Ltac raises_only_tac := repeat raises_only_step.

(** ** The validation report *)

Lemma errors_nil_iff report :
  errors report = [] <->
  forall r, In r (results report) -> severity r = "ERROR" -> passed r = true.
Proof.
  unfold errors. split.
  - intros H r Hin Hsev.
    destruct (passed r) eqn:Hp; [reflexivity | exfalso].
    assert (Hr : In r (List.filter
                         (fun r => negb (passed r) && String.eqb (severity r) "ERROR")
                         (results report))).
    { apply filter_In. split; [exact Hin |].
      rewrite Hp, Hsev. reflexivity. }
    rewrite H in Hr. exact Hr.
  - intros H.
    destruct (List.filter _ (results report)) as [|r l] eqn:Hf; [reflexivity | exfalso].
    assert (Hr : In r (r :: l)) by (left; reflexivity).
    rewrite <- Hf in Hr. apply filter_In in Hr. destruct Hr as [Hin Hb].
    apply andb_prop in Hb. destruct Hb as [Hp Hsev].
    apply String.eqb_eq in Hsev. rewrite (H r Hin Hsev) in Hp. discriminate.
Qed.

Lemma print_summary_true_iff report :
  print_summary report = true <->
  forall r, In r (results report) -> severity r = "ERROR" -> passed r = true.
Proof.
  rewrite <- errors_nil_iff. unfold print_summary.
  destruct (errors report); simpl; split; intros H; congruence.
Qed.

Lemma print_summary_add_not_error report r :
  severity r <> "ERROR" -> print_summary (add report r) = print_summary report.
Proof.
  intros Hsev. unfold print_summary, errors, add. simpl.
  rewrite List.filter_app. simpl.
  apply String.eqb_neq in Hsev. rewrite Hsev, andb_false_r, app_nil_r. reflexivity.
Qed.

Lemma data_error_KeyError k : data_error (KeyError k).
Proof. exact I. Qed.

Lemma data_error_TypeError : data_error TypeError.
Proof. exact I. Qed.

Local Hint Resolve data_error_KeyError data_error_TypeError : core.

Lemma check_no_nulls_data_error df tbl cols report :
  raises_only data_error (check_no_nulls df tbl cols report).
Proof. unfold check_no_nulls. raises_only_tac. Qed.

Lemma check_no_duplicates_data_error df tbl pk report :
  raises_only data_error (check_no_duplicates df tbl pk report).
Proof. unfold check_no_duplicates. raises_only_tac. Qed.

Lemma check_fk_integrity_data_error df fk ref_df ref_col tbl ref_table report :
  raises_only data_error (check_fk_integrity df fk ref_df ref_col tbl ref_table report).
Proof. unfold check_fk_integrity. raises_only_tac. Qed.

Lemma check_value_range_data_error df tbl col lo hi report sev :
  raises_only data_error (check_value_range df tbl col lo hi report sev).
Proof.
  unfold check_value_range, series_lt, series_gt.
  destruct lo, hi; raises_only_tac.
Qed.

Lemma load_data_error processed tbl : raises_only data_error (load processed tbl).
Proof.
  unfold load. destruct (processed !! tbl) as [[df|why]|].
  - apply raises_only_ok.
  - apply raises_only_raise. destruct why; exact I.
  - apply raises_only_raise. exact I.
Qed.

Ltac validate_data_error :=
  repeat first
    [ apply check_no_nulls_data_error
    | apply check_no_duplicates_data_error
    | apply check_fk_integrity_data_error
    | apply check_value_range_data_error
    | apply load_data_error
    | raises_only_step ].

Lemma run_checks_data_error processed : raises_only data_error (run_checks processed).
Proof.
  unfold run_checks, validate_dim_date, validate_dim_product, validate_dim_customer,
    validate_dim_employee, validate_dim_region, validate_fact_sales, series_cmp.
  validate_data_error.
Qed.

(** C3.  [print_summary] returns True exactly when every result of severity
    ERROR passed; a result of another severity never changes what it returns.
    [run_validation] exits with status 1 exactly when the report was built
    and [print_summary] returned False on it, and returns True when
    [print_summary] returned True. *)
Theorem validation_succeeds_iff_no_error :
  (forall report,
     print_summary report = true <->
     forall r, In r (results report) -> severity r = "ERROR" -> passed r = true) /\
  (forall report r,
     severity r <> "ERROR" -> print_summary (add report r) = print_summary report) /\
  (forall processed,
     run_validation processed = Raise (SystemExit 1) <->
     exists report, run_checks processed = Ok report /\ print_summary report = false) /\
  (forall processed,
     run_validation processed = Ok true <->
     exists report, run_checks processed = Ok report /\ print_summary report = true).
Proof.
  split; [| split; [| split]].
  - apply print_summary_true_iff.
  - apply print_summary_add_not_error.
  - intros processed. unfold run_validation. split.
    + intros H. destruct (run_checks processed) as [report|e] eqn:Hr; simpl in H.
      * exists report. split; [reflexivity |].
        destruct (print_summary report); [discriminate | reflexivity].
      * injection H as ->. exfalso. exact (run_checks_data_error processed _ Hr).
    + intros (report & Hr & Hp). rewrite Hr. simpl. rewrite Hp. reflexivity.
  - intros processed. unfold run_validation. split.
    + intros H. destruct (run_checks processed) as [report|e] eqn:Hr; simpl in H.
      * exists report. split; [reflexivity |].
        destruct (print_summary report); [reflexivity | discriminate].
      * discriminate.
    + intros (report & Hr & Hp). rewrite Hr. simpl. rewrite Hp. reflexivity.
Qed.

(** ** Lists, masks and Series *)

Lemma mapM_ok_map {A B : Type} (f : A -> result B) (d : B) (l : list A) (l' : list B) :
  mapM f l = Ok l' ->
  l' = map (fun x => match f x with Ok y => y | Raise _ => d end) l.
Proof.
  revert l'. induction l as [|x l IH]; simpl; intros l' H.
  - injection H as <-. reflexivity.
  - bind_inv H as y Hy. bind_inv H as ys Hys. injection H as <-.
    rewrite Hy. f_equal. apply IH. exact Hys.
Qed.

Lemma mapM_all_ok {A B : Type} (f : A -> result B) (g : A -> B) (l : list A) :
  Forall (fun x => f x = Ok (g x)) l -> mapM f l = Ok (map g l).
Proof.
  induction 1 as [|x l Hx Hl IH]; simpl; [reflexivity |].
  rewrite Hx, IH. reflexivity.
Qed.

Lemma zip_with_map_same {A B C D : Type} (h : B -> C -> D) (f : A -> B) (g : A -> C)
  (l : list A) :
  zip_with h (map f l) (map g l) = map (fun x => h (f x) (g x)) l.
Proof. induction l as [|x l IH]; simpl; [reflexivity | rewrite IH; reflexivity]. Qed.

Lemma combine_map_same {A B C : Type} (f : A -> B) (g : A -> C) (l : list A) :
  combine (map f l) (map g l) = map (fun x => (f x, g x)) l.
Proof. induction l as [|x l IH]; simpl; [reflexivity | rewrite IH; reflexivity]. Qed.

Lemma mask_or_false_l {A : Type} (p : A -> bool) (l : list A) :
  mask_or (repeat false (length l)) (map p l) = map p l.
Proof.
  unfold mask_or. induction l as [|x l IH]; simpl; [reflexivity | rewrite IH; reflexivity].
Qed.

Lemma mask_or_map {A : Type} (p q : A -> bool) (l : list A) :
  mask_or (map p l) (map q l) = map (fun x => p x || q x) l.
Proof. apply zip_with_map_same. Qed.

Lemma mask_and_map {A : Type} (p q : A -> bool) (l : list A) :
  mask_and (map p l) (map q l) = map (fun x => p x && q x) l.
Proof. apply zip_with_map_same. Qed.

Lemma select_map {A : Type} (p : A -> bool) (l : list A) :
  select l (map p l) = List.filter p l.
Proof.
  induction l as [|x l IH]; simpl; [reflexivity |].
  rewrite IH. reflexivity.
Qed.

Lemma count_true_map {A : Type} (p : A -> bool) (l : list A) :
  count_true (map p l) = length (List.filter p l).
Proof.
  unfold count_true. induction l as [|x l IH]; simpl; [reflexivity |].
  unfold id in *. destruct (p x); simpl; rewrite IH; reflexivity.
Qed.

Lemma filter_map_comm {A B : Type} (f : A -> B) (p : B -> bool) (l : list A) :
  List.filter p (map f l) = map f (List.filter (fun x => p (f x)) l).
Proof.
  induction l as [|x l IH]; simpl; [reflexivity |].
  destruct (p (f x)); simpl; rewrite IH; reflexivity.
Qed.

Lemma filter_none {A : Type} (p : A -> bool) (l : list A) :
  Forall (fun x => p x = false) l -> List.filter p l = [].
Proof.
  induction 1 as [|x l Hx Hl IH]; simpl; [reflexivity |].
  rewrite Hx. exact IH.
Qed.

Lemma getitem_ok df col s :
  getitem df col = Ok s ->
  has_column df col = true /\ s = map (fun r => r col) (rows df).
Proof.
  unfold getitem. destruct (has_column df col); intros H; [| discriminate].
  injection H as <-. auto.
Qed.

Lemma getitem_has df col :
  has_column df col = true -> getitem df col = Ok (map (fun r => r col) (rows df)).
Proof. unfold getitem. intros ->. reflexivity. Qed.

(** ** check_value_range *)

Lemma series_lt_ok s k m :
  series_lt s k = Ok m ->
  m = map (fun c => match as_float c with Ok x => fltb x k | Raise _ => false end) s.
Proof.
  intros H. apply (mapM_ok_map _ false) in H. subst m.
  apply map_ext. intros c. destruct (as_float c); reflexivity.
Qed.

Lemma series_gt_ok s k m :
  series_gt s k = Ok m ->
  m = map (fun c => match as_float c with Ok x => fgtb x k | Raise _ => false end) s.
Proof.
  intros H. apply (mapM_ok_map _ false) in H. subst m.
  apply map_ext. intros c. destruct (as_float c); reflexivity.
Qed.

Lemma series_lt_numeric s k :
  Forall numeric s ->
  series_lt s k = Ok (map (fun c => match as_float c with Ok x => fltb x k | Raise _ => false end) s).
Proof.
  intros H. apply mapM_all_ok. eapply Forall_impl; [exact H |].
  intros c [x Hx]. simpl. rewrite Hx. reflexivity.
Qed.

Lemma series_gt_numeric s k :
  Forall numeric s ->
  series_gt s k = Ok (map (fun c => match as_float c with Ok x => fgtb x k | Raise _ => false end) s).
Proof.
  intros H. apply mapM_all_ok. eapply Forall_impl; [exact H |].
  intros c [x Hx]. simpl. rewrite Hx. reflexivity.
Qed.

Lemma fltb_nan_r a : fltb a NaN = false.
Proof. destruct a; reflexivity. Qed.

Lemma out_of_range_null lo hi : out_of_range lo hi Null = false.
Proof.
  unfold out_of_range, below, above, fgtb. simpl.
  destruct lo, hi; rewrite ?fltb_nan_r; reflexivity.
Qed.

Lemma check_value_range_ok df tbl col lo hi report sev report' :
  check_value_range df tbl col lo hi report sev = Ok report' ->
  report' = add report (range_result tbl col lo hi sev
                          (length (out_of_range_rows df col lo hi))).
Proof.
  unfold check_value_range, out_of_range_rows. intros H.
  bind_inv H as m1 Hm1. bind_inv H as m2 Hm2. injection H as <-.
  assert (Hm : m2 = map (fun r : Row => out_of_range lo hi (r col)) (rows df)).
  { destruct lo as [l|], hi as [h|].
    - bind_inv Hm1 as s1 Hs1. bind_inv Hm1 as b1 Hb1. injection Hm1 as <-.
      bind_inv Hm2 as s2 Hs2. bind_inv Hm2 as b2 Hb2. injection Hm2 as <-.
      apply getitem_ok in Hs1, Hs2. destruct Hs1 as [_ ->], Hs2 as [_ ->].
      apply series_lt_ok in Hb1. apply series_gt_ok in Hb2. subst.
      rewrite !map_map, mask_or_false_l, mask_or_map.
      apply map_ext. intros r. unfold out_of_range, below, above.
      destruct (as_float (r col)); reflexivity.
    - bind_inv Hm1 as s1 Hs1. bind_inv Hm1 as b1 Hb1. injection Hm1 as <-.
      injection Hm2 as <-.
      apply getitem_ok in Hs1. destruct Hs1 as [_ ->].
      apply series_lt_ok in Hb1. subst.
      rewrite !map_map, mask_or_false_l.
      apply map_ext. intros r. unfold out_of_range, below, above.
      destruct (as_float (r col)); simpl; rewrite ?orb_false_r; reflexivity.
    - injection Hm1 as <-.
      bind_inv Hm2 as s2 Hs2. bind_inv Hm2 as b2 Hb2. injection Hm2 as <-.
      apply getitem_ok in Hs2. destruct Hs2 as [_ ->].
      apply series_gt_ok in Hb2. subst.
      rewrite !map_map, mask_or_false_l.
      apply map_ext. intros r. unfold out_of_range, below, above.
      destruct (as_float (r col)); reflexivity.
    - injection Hm1 as <-. injection Hm2 as <-.
      induction (rows df) as [|r l IH]; simpl; [reflexivity | f_equal; exact IH]. }
  rewrite Hm, count_true_map. reflexivity.
Qed.

Lemma check_value_range_numeric df tbl col lo hi report sev :
  has_column df col = true ->
  Forall (fun r : Row => numeric (r col)) (rows df) ->
  exists report', check_value_range df tbl col lo hi report sev = Ok report'.
Proof.
  intros Hc Hn. unfold check_value_range.
  assert (Hs : Forall numeric (map (fun r : Row => r col) (rows df))).
  { apply Forall_map. exact Hn. }
  destruct lo, hi; simpl;
    rewrite ?(getitem_has _ _ Hc); simpl;
    rewrite ?(series_lt_numeric _ _ Hs); simpl;
    rewrite ?(getitem_has _ _ Hc); simpl;
    rewrite ?(series_gt_numeric _ _ Hs); simpl; eexists; reflexivity.
Qed.

Lemma fltb_Fin_false p q : (q <= p)%Q -> fltb (Fin p) (Fin q) = false.
Proof.
  intros Hle. simpl. destruct (p ?= q)%Q eqn:Hc; try reflexivity.
  apply Qlt_alt in Hc. exfalso. exact (Qlt_not_le _ _ Hc Hle).
Qed.

Lemma isnull_true c : isnull c = true -> c = Null.
Proof. destruct c as [[| | |q]| | |]; simpl; intros H; congruence. Qed.

Lemma out_of_range_spec lo hi c :
  out_of_range lo hi c = true <->
  exists x, as_float c = Ok x /\
    ((exists l, lo = Some l /\ fltb x (pynum_value l) = true) \/
     (exists h, hi = Some h /\ fgtb x (pynum_value h) = true)).
Proof.
  unfold out_of_range, below, above. split.
  - intros H. apply orb_prop in H.
    destruct (as_float c) as [x|e]; [exists x; split; [reflexivity |] |].
    + destruct H as [H | H]; [left | right].
      * destruct lo as [l|]; [exists l; auto | discriminate].
      * destruct hi as [h|]; [exists h; auto | discriminate].
    + destruct lo, hi, H; discriminate.
  - intros (x & Hx & [(l & -> & H) | (h & -> & H)]); rewrite Hx, H.
    + reflexivity.
    + apply orb_true_r.
Qed.

(** C10.  A range check adds one result whose row count is the number of rows
    whose cell is a number strictly below [min_val] or strictly above
    [max_val].  A null cell satisfies neither comparison, so no counted row
    has a null in the checked column, a column of nulls only passes every
    range check, and the discount check on [0, 1.0] passes on a fact table
    whose discounts are null or within the bounds. *)
Theorem range_check_skips_nulls :
  (forall df tbl col lo hi report sev report',
     check_value_range df tbl col lo hi report sev = Ok report' ->
     report' = add report (range_result tbl col lo hi sev
                             (length (out_of_range_rows df col lo hi)))) /\
  (forall lo hi c,
     out_of_range lo hi c = true <->
     exists x, as_float c = Ok x /\
       ((exists l, lo = Some l /\ fltb x (pynum_value l) = true) \/
        (exists h, hi = Some h /\ fgtb x (pynum_value h) = true))) /\
  (forall df col lo hi r,
     In r (out_of_range_rows df col lo hi) -> isnull (r col) = false) /\
  (forall df tbl col lo hi report sev,
     has_column df col = true ->
     Forall (fun r : Row => isnull (r col) = true) (rows df) ->
     check_value_range df tbl col lo hi report sev
       = Ok (add report (range_result tbl col lo hi sev 0)) /\
     passed (range_result tbl col lo hi sev 0) = true) /\
  (forall df report,
     has_column df "discount_pct" = true ->
     Forall (fun r : Row =>
               isnull (r "discount_pct") = true \/
               exists q, r "discount_pct" = Flt (Fin q) /\ (0 <= q)%Q /\ (q <= 1)%Q)
            (rows df) ->
     check_value_range df "fact_sales" "discount_pct"
       (Some (PyInt 0)) (Some (PyFloat 1)) report "ERROR"
       = Ok (add report (range_result "fact_sales" "discount_pct"
                           (Some (PyInt 0)) (Some (PyFloat 1)) "ERROR" 0))).
Proof.
  split; [| split; [| split; [| split]]].
  - apply check_value_range_ok.
  - apply out_of_range_spec.
  - intros df col lo hi r Hin. apply filter_In in Hin. destruct Hin as [_ Hr].
    destruct (isnull (r col)) eqn:Hn; [| reflexivity].
    apply isnull_true in Hn. rewrite Hn, out_of_range_null in Hr. discriminate.
  - intros df tbl col lo hi report sev Hc Hnull. split; [| reflexivity].
    destruct (check_value_range_numeric df tbl col lo hi report sev Hc) as [report' Hr].
    { eapply Forall_impl; [exact Hnull |]. intros r Hn.
      apply isnull_true in Hn. rewrite Hn. exists NaN. reflexivity. }
    rewrite Hr. f_equal. apply check_value_range_ok in Hr. rewrite Hr.
    unfold out_of_range_rows. rewrite filter_none; [reflexivity |].
    eapply Forall_impl; [exact Hnull |]. intros r Hn.
    apply isnull_true in Hn. rewrite Hn. apply out_of_range_null.
  - intros df report Hc Hrows.
    destruct (check_value_range_numeric df "fact_sales" "discount_pct"
                (Some (PyInt 0)) (Some (PyFloat 1)) report "ERROR" Hc) as [report' Hr].
    { eapply Forall_impl; [exact Hrows |]. intros r [Hn | (q & Hq & _)].
      - apply isnull_true in Hn. rewrite Hn. exists NaN. reflexivity.
      - rewrite Hq. exists (Fin q). reflexivity. }
    rewrite Hr. f_equal. apply check_value_range_ok in Hr. rewrite Hr.
    unfold out_of_range_rows. rewrite filter_none; [reflexivity |].
    eapply Forall_impl; [exact Hrows |]. intros r [Hn | (q & Hq & H0 & H1)].
    + apply isnull_true in Hn. rewrite Hn. apply out_of_range_null.
    + rewrite Hq.
      cbv beta iota delta [out_of_range below above fgtb as_float pynum_value of_Z].
      replace (binary64 1) with (Fin 1) by (vm_compute; reflexivity).
      rewrite (fltb_Fin_false q (inject_Z 0)) by exact H0.
      rewrite (fltb_Fin_false 1 q) by exact H1. reflexivity.
Qed.

(** ** The generic checks *)

Lemma check_no_nulls_ok df tbl cols report report' :
  check_no_nulls df tbl cols report = Ok report' ->
  results report' = results report ++ map (no_nulls_result df tbl) cols.
Proof.
  unfold check_no_nulls. revert report.
  induction cols as [|c cols IH]; simpl; intros report H.
  - injection H as <-. rewrite app_nil_r. reflexivity.
  - bind_inv H as report1 H1. bind_inv H1 as s Hs. injection H1 as <-.
    apply IH in H. rewrite H. simpl. rewrite <- app_assoc. simpl.
    apply getitem_ok in Hs. destruct Hs as [_ ->].
    rewrite map_map, count_true_map. reflexivity.
Qed.

Lemma check_no_nulls_present df tbl cols report :
  Forall (fun c => has_column df c = true) cols ->
  check_no_nulls df tbl cols report
    = Ok {| results := results report ++ map (no_nulls_result df tbl) cols |}.
Proof.
  unfold check_no_nulls. intros Hc. revert report.
  induction Hc as [|c cols Hc Hcols IH]; simpl; intros report.
  - rewrite app_nil_r. destruct report. reflexivity.
  - rewrite (getitem_has _ _ Hc). simpl. rewrite IH. simpl.
    rewrite <- app_assoc. simpl. rewrite map_map, count_true_map. reflexivity.
Qed.

Lemma no_nulls_passed_iff df tbl col :
  passed (no_nulls_result df tbl col) = true <->
  Forall (fun r : Row => isnull (r col) = false) (rows df).
Proof.
  unfold no_nulls_result, null_count. simpl. rewrite Nat.eqb_eq.
  induction (rows df) as [|r l IH]; simpl.
  - split; auto.
  - destruct (isnull (r col)) eqn:Hn; simpl.
    + split; [discriminate |]. intros H. inversion H; congruence.
    + rewrite IH. split; [auto | intros H; inversion H; auto].
Qed.

Lemma check_no_duplicates_ok df tbl pk report report' :
  check_no_duplicates df tbl pk report = Ok report' ->
  report' = add report (no_duplicates_result df tbl pk).
Proof.
  unfold check_no_duplicates. intros H. bind_inv H as s Hs. injection H as <-.
  apply getitem_ok in Hs. destruct Hs as [_ ->]. reflexivity.
Qed.

Lemma check_no_duplicates_present df tbl pk report :
  has_column df pk = true ->
  check_no_duplicates df tbl pk report = Ok (add report (no_duplicates_result df tbl pk)).
Proof.
  intros Hc. unfold check_no_duplicates. rewrite (getitem_has _ _ Hc). reflexivity.
Qed.

Lemma count_true_cons b m :
  count_true (b :: m) = ((if b then 1 else 0) + count_true m)%nat.
Proof. unfold count_true. simpl. unfold id at 1. destruct b; reflexivity. Qed.

Lemma duplicated_from_none seen s :
  count_true (duplicated_from seen s) = 0%nat <->
  Forall (fun c => cell_in c seen = false) s /\ no_duplicate_value s.
Proof.
  unfold no_duplicate_value. revert seen. induction s as [|c s IH]; intros seen; simpl.
  - split; [intros _; split; constructor | reflexivity].
  - rewrite count_true_cons. split.
    + intros H. destruct (cell_in c seen) eqn:Hc; [discriminate |].
      simpl in H. apply IH in H. destruct H as [Hs Hp].
      split.
      * constructor; [exact Hc |].
        eapply Forall_impl; [exact Hs |]. intros x Hx. simpl in Hx.
        apply orb_false_elim in Hx. destruct Hx; assumption.
      * constructor; [| exact Hp].
        eapply Forall_impl; [exact Hs |]. intros x Hx. simpl in Hx.
        apply orb_false_elim in Hx. destruct Hx; assumption.
    + intros [Hs Hp]. inversion Hs as [|? ? Hc Hs']; subst.
      inversion Hp as [|? ? Hall Hp']; subst.
      rewrite Hc. simpl. apply IH. split; [| exact Hp'].
      apply Forall_forall. intros x Hx. simpl.
      rewrite Forall_forall in Hall, Hs'.
      rewrite (Hall x Hx), (Hs' x Hx). reflexivity.
Qed.

Lemma no_duplicates_passed_iff df tbl pk :
  passed (no_duplicates_result df tbl pk) = true <->
  no_duplicate_value (map (fun r : Row => r pk) (rows df)).
Proof.
  unfold no_duplicates_result, duplicate_count, duplicated. simpl.
  rewrite Nat.eqb_eq, duplicated_from_none. split; [intros [_ H]; exact H |].
  intros H. split; [| exact H]. apply Forall_forall. reflexivity.
Qed.

(** ** Checks only append to the report *)

Lemma extends_refl r : extends r r.
Proof. exists []. rewrite app_nil_r. reflexivity. Qed.

Lemma extends_trans r1 r2 r3 : extends r1 r2 -> extends r2 r3 -> extends r1 r3.
Proof.
  intros [a Ha] [b Hb]. exists (a ++ b). rewrite Hb, Ha, app_assoc. reflexivity.
Qed.

Lemma extends_add r x : extends r (add r x).
Proof. exists [x]. reflexivity. Qed.

Lemma extends_In r r' x : extends r r' -> In x (results r) -> In x (results r').
Proof. intros [a Ha] Hx. rewrite Ha. apply in_or_app. left. exact Hx. Qed.

Lemma grows_ok_add r x : grows_from r (Ok (add r x)).
Proof. intros r' H. injection H as <-. apply extends_add. Qed.

Lemma grows_bind_report r m k :
  grows_from r m -> (forall r1, grows_from r1 (k r1)) -> grows_from r (bind m k).
Proof.
  intros Hm Hk r' H. bind_inv H as r1 H1.
  eapply extends_trans; [apply Hm; exact H1 | apply Hk; exact H].
Qed.

Lemma grows_bind_other {A : Type} r (m : result A) k :
  (forall a, grows_from r (k a)) -> grows_from r (bind m k).
Proof. intros Hk r' H. bind_inv H as a Ha. exact (Hk a r' H). Qed.

Lemma check_no_nulls_grows df tbl cols r : grows_from r (check_no_nulls df tbl cols r).
Proof. intros r' H. apply check_no_nulls_ok in H. eexists. exact H. Qed.

Lemma check_no_duplicates_grows df tbl pk r :
  grows_from r (check_no_duplicates df tbl pk r).
Proof. intros r' H. apply check_no_duplicates_ok in H. subst. apply extends_add. Qed.

Lemma check_fk_integrity_grows df fk ref_df ref_col tbl ref_table r :
  grows_from r (check_fk_integrity df fk ref_df ref_col tbl ref_table r).
Proof.
  unfold check_fk_integrity. do 2 (apply grows_bind_other; intros ?). apply grows_ok_add.
Qed.

Lemma check_value_range_grows df tbl col lo hi r sev :
  grows_from r (check_value_range df tbl col lo hi r sev).
Proof. intros r' H. apply check_value_range_ok in H. subst. apply extends_add. Qed.

Lemma grows_ok_add2 r x y : grows_from r (Ok (add (add r x) y)).
Proof.
  intros r' H. injection H as <-.
  eapply extends_trans; apply extends_add.
Qed.

Ltac grows_tac :=
  repeat first
    [ apply grows_ok_add
    | apply grows_ok_add2
    | apply check_no_nulls_grows
    | apply check_no_duplicates_grows
    | apply check_fk_integrity_grows
    | apply check_value_range_grows
    | apply grows_bind_report; [| intros ?]
    | apply grows_bind_other; intros ? ].

(** Every table validation starts with the null checks of its key columns
    and the duplicate check of its primary key. *)
Ltac key_checks_first H :=
  let r1 := fresh "rnulls" in
  let r2 := fresh "rdups" in
  let H1 := fresh "Hnulls" in
  let H2 := fresh "Hdups" in
  let Hrest := fresh "Hrest" in
  apply bind_ok in H; destruct H as (r1 & H1 & H);
  apply bind_ok in H; destruct H as (r2 & H2 & H);
  apply check_no_nulls_ok in H1; apply check_no_duplicates_ok in H2;
  match type of H with
  | ?m = Ok _ => assert (Hrest : grows_from r2 m) by (cbv zeta; grows_tac)
  end;
  apply Hrest in H; clear Hrest; destruct H as [rest Hrest]; exists rest;
  rewrite Hrest, H2; simpl; rewrite H1, <- !app_assoc; reflexivity.

Lemma validate_dim_date_key_checks df report report' :
  validate_dim_date df report = Ok report' ->
  exists rest,
    results report' =
      results report
      ++ map (no_nulls_result df "dim_date") ["date_key"; "full_date"; "year"; "month_number"]
      ++ [no_duplicates_result df "dim_date" "date_key"] ++ rest.
Proof. unfold validate_dim_date. intros H. key_checks_first H. Qed.

Lemma validate_dim_product_key_checks df report report' :
  validate_dim_product df report = Ok report' ->
  exists rest,
    results report' =
      results report
      ++ map (no_nulls_result df "dim_product")
           ["product_key"; "product_id"; "product_name"; "category";
            "unit_cost"; "list_price"]
      ++ [no_duplicates_result df "dim_product" "product_key"] ++ rest.
Proof. unfold validate_dim_product. intros H. key_checks_first H. Qed.

Lemma validate_dim_customer_key_checks df report report' :
  validate_dim_customer df report = Ok report' ->
  exists rest,
    results report' =
      results report
      ++ map (no_nulls_result df "dim_customer")
           ["customer_key"; "customer_id"; "customer_name"; "segment"]
      ++ [no_duplicates_result df "dim_customer" "customer_key"] ++ rest.
Proof. unfold validate_dim_customer. intros H. key_checks_first H. Qed.

Lemma validate_dim_employee_key_checks df report report' :
  validate_dim_employee df report = Ok report' ->
  exists rest,
    results report' =
      results report
      ++ map (no_nulls_result df "dim_employee")
           ["employee_key"; "employee_id"; "full_name"; "department"]
      ++ [no_duplicates_result df "dim_employee" "employee_key"] ++ rest.
Proof.
  unfold validate_dim_employee. intros H. bind_inv H as r1 H1.
  apply check_no_nulls_ok in H1. apply check_no_duplicates_ok in H. subst report'.
  exists []. simpl. rewrite H1, <- !app_assoc. reflexivity.
Qed.

Lemma validate_dim_region_key_checks df report report' :
  validate_dim_region df report = Ok report' ->
  exists rest,
    results report' =
      results report
      ++ map (no_nulls_result df "dim_region")
           ["region_key"; "country"; "region"; "city"; "currency"]
      ++ [no_duplicates_result df "dim_region" "region_key"] ++ rest.
Proof.
  unfold validate_dim_region. intros H. bind_inv H as r1 H1.
  apply check_no_nulls_ok in H1. apply check_no_duplicates_ok in H. subst report'.
  exists []. simpl. rewrite H1, <- !app_assoc. reflexivity.
Qed.

Lemma validate_fact_sales_key_checks df dd dp dc de dr report report' :
  validate_fact_sales df dd dp dc de dr report = Ok report' ->
  exists rest,
    results report' =
      results report
      ++ map (no_nulls_result df "fact_sales")
           ["sales_key"; "order_id"; "date_key"; "product_key";
            "customer_key"; "region_key"; "employee_key";
            "quantity"; "unit_price"; "sales_amount"; "cogs"]
      ++ [no_duplicates_result df "fact_sales" "sales_key"] ++ rest.
Proof. unfold validate_fact_sales. intros H. key_checks_first H. Qed.

(** From the shape of the results after one table validation to the key
    checks of that table in any later report. *)
Lemma key_checks_in_later processed df tbl pk cols r0 r1 rest report :
  processed !! tbl = Some (Parsed df) ->
  results r1 =
    results r0 ++ map (no_nulls_result df tbl) cols
    ++ [no_duplicates_result df tbl pk] ++ rest ->
  extends r1 report ->
  key_checks_in processed report (tbl, pk, cols).
Proof.
  intros Hdf Hr1 Hext. exists df. simpl. split; [exact Hdf |]. split.
  - apply (extends_In _ _ _ Hext). rewrite Hr1.
    apply in_or_app. right. apply in_or_app. right. left. reflexivity.
  - apply Forall_forall. intros c Hc. apply list_elem_of_In in Hc.
    apply (extends_In _ _ _ Hext). rewrite Hr1.
    apply in_or_app. right. apply in_or_app. left.
    apply in_map. exact Hc.
Qed.

Lemma validate_dim_product_grows df r : grows_from r (validate_dim_product df r).
Proof. unfold validate_dim_product. grows_tac. Qed.

Lemma validate_dim_customer_grows df r : grows_from r (validate_dim_customer df r).
Proof. unfold validate_dim_customer. grows_tac. Qed.

Lemma validate_dim_employee_grows df r : grows_from r (validate_dim_employee df r).
Proof. unfold validate_dim_employee. grows_tac. Qed.

Lemma validate_dim_region_grows df r : grows_from r (validate_dim_region df r).
Proof. unfold validate_dim_region. grows_tac. Qed.

Lemma validate_fact_sales_grows df dd dp dc de dr r :
  grows_from r (validate_fact_sales df dd dp dc de dr r).
Proof. unfold validate_fact_sales. cbv zeta. grows_tac. Qed.

Lemma load_ok processed tbl df :
  load processed tbl = Ok df -> processed !! tbl = Some (Parsed df).
Proof.
  unfold load. destruct (processed !! tbl) as [[df'|why]|]; intros H; congruence.
Qed.

Lemma run_checks_key_checks processed report :
  run_checks processed = Ok report ->
  Forall (key_checks_in processed report) key_checks.
Proof.
  unfold run_checks. intros H.
  bind_inv H as dd Hdd. bind_inv H as dp Hdp. bind_inv H as dc Hdc.
  bind_inv H as de Hde. bind_inv H as dr Hdr. bind_inv H as fs Hfs.
  bind_inv H as r1 H1. bind_inv H as r2 H2. bind_inv H as r3 H3.
  bind_inv H as r4 H4. bind_inv H as r5 H5.
  apply load_ok in Hdd, Hdp, Hdc, Hde, Hdr, Hfs.
  pose proof (validate_dim_product_grows _ _ _ H2) as E2.
  pose proof (validate_dim_customer_grows _ _ _ H3) as E3.
  pose proof (validate_dim_employee_grows _ _ _ H4) as E4.
  pose proof (validate_dim_region_grows _ _ _ H5) as E5.
  pose proof (validate_fact_sales_grows _ _ _ _ _ _ _ _ H) as E6.
  apply validate_dim_date_key_checks in H1. destruct H1 as [t1 H1].
  apply validate_dim_product_key_checks in H2. destruct H2 as [t2 H2].
  apply validate_dim_customer_key_checks in H3. destruct H3 as [t3 H3].
  apply validate_dim_employee_key_checks in H4. destruct H4 as [t4 H4].
  apply validate_dim_region_key_checks in H5. destruct H5 as [t5 H5].
  apply validate_fact_sales_key_checks in H. destruct H as [t6 H6].
  unfold key_checks. repeat constructor.
  - eapply key_checks_in_later; [exact Hdd | exact H1 |].
    repeat (eapply extends_trans; [eassumption |]). apply extends_refl.
  - eapply key_checks_in_later; [exact Hdp | exact H2 |].
    repeat (eapply extends_trans; [eassumption |]). apply extends_refl.
  - eapply key_checks_in_later; [exact Hdc | exact H3 |].
    repeat (eapply extends_trans; [eassumption |]). apply extends_refl.
  - eapply key_checks_in_later; [exact Hde | exact H4 |].
    repeat (eapply extends_trans; [eassumption |]). apply extends_refl.
  - eapply key_checks_in_later; [exact Hdr | exact H5 |].
    eapply extends_trans; [exact E6 | apply extends_refl].
  - eapply key_checks_in_later; [exact Hfs | exact H6 |]. apply extends_refl.
Qed.

(** C6.  [check_no_nulls] adds one result per listed column, and the result of
    a column passes exactly when the column holds no null; [check_no_duplicates]
    adds one result, which passes exactly when no value of the key column
    occurs twice.  A validation run that completes applies both to each of
    the six tables: its report holds the duplicate check of the table's key
    column and the null check of every listed key column of the table. *)
Theorem key_checks_applied_to_every_table :
  (forall df tbl cols report,
     Forall (fun c => has_column df c = true) cols ->
     check_no_nulls df tbl cols report
       = Ok {| results := results report ++ map (no_nulls_result df tbl) cols |}) /\
  (forall df tbl col,
     row_count (no_nulls_result df tbl col) = null_count df col /\
     (passed (no_nulls_result df tbl col) = true <-> null_count df col = 0%nat) /\
     (null_count df col = 0%nat <->
      Forall (fun r : Row => isnull (r col) = false) (rows df))) /\
  (forall df tbl pk report,
     has_column df pk = true ->
     check_no_duplicates df tbl pk report
       = Ok (add report (no_duplicates_result df tbl pk))) /\
  (forall df tbl pk,
     passed (no_duplicates_result df tbl pk) = true <->
     no_duplicate_value (map (fun r : Row => r pk) (rows df))) /\
  (forall processed report,
     run_checks processed = Ok report ->
     Forall (key_checks_in processed report) key_checks).
Proof.
  split; [| split; [| split; [| split]]].
  - apply check_no_nulls_present.
  - intros df tbl col. split; [reflexivity |]. split.
    + simpl. apply Nat.eqb_eq.
    + rewrite <- (no_nulls_passed_iff df tbl col). simpl. symmetry. apply Nat.eqb_eq.
  - apply check_no_duplicates_present.
  - apply no_duplicates_passed_iff.
  - apply run_checks_key_checks.
Qed.

(** ** Row-wise reading of the frame operations *)

Lemma rw_start df : rowwise (rows df) (fun r => r) df.
Proof. unfold rowwise. rewrite map_id. reflexivity. Qed.

Lemma rw_getitem l f df c s :
  rowwise l f df -> getitem df c = Ok s -> s = map (fun x => f x c) l.
Proof.
  unfold rowwise. intros Hr H. apply getitem_ok in H. destruct H as [_ ->].
  rewrite Hr, map_map. reflexivity.
Qed.

Lemma rw_map {A B : Type} (l : list Row) (g : Row -> A) (h : A -> B) s :
  s = map g l -> map h s = map (fun x => h (g x)) l.
Proof. intros ->. apply map_map. Qed.

Lemma rw_mapM {A B : Type} (l : list Row) (g : Row -> A) (h : A -> result B) (d : B) s s' :
  s = map g l -> mapM h s = Ok s' -> s' = map (fun x => unwrap d (h (g x))) l.
Proof.
  intros -> H. apply (mapM_ok_map _ d) in H. rewrite H, map_map. reflexivity.
Qed.

Lemma rw_binop (l : list Row) (ga gb : Row -> cell) f a b q :
  a = map ga l -> b = map gb l -> series_binop f a b = Ok q ->
  q = map (fun x => unwrap Null (do u <- as_float (ga x); do v <- as_float (gb x);
                                 Ok (Flt (f u v)))) l.
Proof.
  intros -> -> H. unfold series_binop in H. rewrite combine_map_same in H.
  apply (mapM_ok_map _ Null) in H. rewrite H, map_map. reflexivity.
Qed.

Lemma rw_setitem l f df c (g : Row -> cell) s :
  rowwise l f df -> s = map g l ->
  rowwise l (fun x => set_cell c (g x) (f x)) (setitem df c s).
Proof.
  unfold rowwise. intros Hr ->. simpl. rewrite Hr.
  apply (zip_with_map_same (fun r v => set_cell c v r)).
Qed.

Lemma rw_mask l f df (p : Row -> bool) mask :
  rowwise l f df -> mask = map p l ->
  rowwise (List.filter p l) f (getitem_mask df mask).
Proof.
  unfold rowwise. intros Hr ->. simpl. rewrite Hr.
  clear Hr. induction l as [|x l IH]; simpl; [reflexivity |].
  destruct (p x); simpl; rewrite IH; reflexivity.
Qed.

Lemma dropna_ok df subset df' :
  dropna df subset = Ok df' ->
  columns df' = columns df /\
  rows df' = List.filter (fun r : Row => forallb (fun c => notnull (r c)) subset) (rows df).
Proof.
  unfold dropna. destruct (find _ subset); intros H; [discriminate |].
  injection H as <-. auto.
Qed.

Lemma rw_dropna l f df subset df' :
  rowwise l f df -> dropna df subset = Ok df' ->
  rowwise (List.filter (fun x => forallb (fun c => notnull (f x c)) subset) l) f df'.
Proof.
  unfold rowwise. intros Hr H. apply dropna_ok in H. destruct H as [_ ->].
  rewrite Hr. apply filter_map_comm.
Qed.

Lemma filter_filter {A : Type} (p q : A -> bool) (l : list A) :
  List.filter q (List.filter p l) = List.filter (fun x => p x && q x) l.
Proof.
  induction l as [|x l IH]; simpl; [reflexivity |].
  destruct (p x); simpl; [destruct (q x) |]; rewrite IH; reflexivity.
Qed.

Lemma cast_loop_rows cols l f df df1 :
  rowwise l f df ->
  foldM (fun df col => do s <- getitem df col;
                       Ok (setitem df col (to_numeric_coerce s))) cols df = Ok df1 ->
  rowwise l (fun x => cast_columns cols (f x)) df1.
Proof.
  revert f df. induction cols as [|c cols IH]; simpl; intros f df Hr H.
  - injection H as <-. exact Hr.
  - bind_inv H as df' H'. bind_inv H' as s Hs. injection H' as <-.
    eapply (IH (fun x => set_cell c (to_numeric_cell (f x c)) (f x))); [| exact H].
    eapply rw_setitem; [exact Hr |].
    unfold to_numeric_coerce. eapply rw_map. eapply rw_getitem; eassumption.
Qed.

Lemma rw_mapM_ex {A : Type} (l : list Row) (g : Row -> A) (h : A -> result cell) s s' :
  s = map g l -> mapM h s = Ok s' -> exists g', s' = map g' l.
Proof. intros Hs H. eexists. eapply (rw_mapM _ _ _ Null); eassumption. Qed.

Lemma rw_binop_ex (l : list Row) (ga gb : Row -> cell) f a b q :
  a = map ga l -> b = map gb l -> series_binop f a b = Ok q -> exists g, q = map g l.
Proof. intros Ha Hb H. eexists. eapply rw_binop; [exact Ha | exact Hb | exact H]. Qed.

Lemma mem_cons_false c x l :
  mem c (x :: l) = false -> String.eqb c x = false /\ mem c l = false.
Proof. unfold mem. simpl. intros H. apply orb_false_elim in H. exact H. Qed.

(** One statement of a transform, read row-wise: a column read, a cell-wise
    map that can fail, a cell-wise operation of two Series. *)
Tactic Notation "get_col" hyp(H) "as" ident(s) ident(Hs) "from" hyp(R) :=
  bind_inv H as s Hs; eapply rw_getitem in Hs; [| exact R].

Tactic Notation "map_col" hyp(H) "as" ident(s) ident(g) ident(Hs) "from" hyp(Hprev) :=
  bind_inv H as s Hs; eapply rw_mapM_ex in Hs; [| exact Hprev]; destruct Hs as [g Hs].

Tactic Notation "binop_col" hyp(H) "as" ident(s) ident(g) ident(Hs)
  "from" hyp(Ha) hyp(Hb) :=
  bind_inv H as s Hs; eapply rw_binop_ex in Hs; [| exact Ha | exact Hb];
  destruct Hs as [g Hs].

Lemma transform_fact_sales_rowwise df dd dp dc de dr out :
  transform_fact_sales df dd dp dc de dr = Ok out ->
  exists post : Row -> Row,
    rowwise (List.filter (fun r => fk_ok dd dp dc de dr r && measures_present r) (rows df))
            post out /\
    forall r, fact_row_out r (post r).
Proof.
  unfold transform_fact_sales. intros H.
  pose proof (rw_start df) as R0.
  bind_inv H as df1 Hcast. eapply cast_loop_rows in Hcast; [| exact R0].
  get_col H as created Hc from Hcast.
  map_col H as created' g1 Hg1 from Hc.
  pose proof (rw_setitem _ _ _ "created_at" _ _ Hcast Hg1) as R1.
  get_col H as updated Hu from R1.
  map_col H as updated' g2 Hg2 from Hu.
  pose proof (rw_setitem _ _ _ "updated_at" _ _ R1 Hg2) as R2.
  bind_inv H as vd Hvd. bind_inv H as vp Hvp. bind_inv H as vc Hvc.
  bind_inv H as ve Hve. bind_inv H as vr Hvr.
  apply getitem_ok in Hvd, Hvp, Hvc, Hve, Hvr.
  destruct Hvd as [_ ->], Hvp as [_ ->], Hvc as [_ ->], Hve as [_ ->], Hvr as [_ ->].
  get_col H as kd Hkd from R2. get_col H as kp Hkp from R2.
  get_col H as kc Hkc from R2. get_col H as ke Hke from R2.
  get_col H as kr Hkr from R2.
  unfold isin in H. rewrite Hkd, Hkp, Hkc, Hke, Hkr in H.
  rewrite !map_map, !mask_and_map in H.
  match type of H with
  | context [getitem_mask ?d ?m] =>
      match m with
      | map ?p _ => pose proof (rw_mask _ _ d p m R2 eq_refl) as R3
      end
  end.
  change (rowwise (List.filter (fk_ok dd dp dc de dr) (rows df))
            (fun x => set_cell "updated_at" (g2 x)
                        (set_cell "created_at" (g1 x) (cast_columns numeric_cols x)))
            (getitem_mask (setitem (setitem df1 "created_at" created') "updated_at" updated')
               (map (fun x => fk_ok dd dp dc de dr x) (rows df)))) in R3.
  match goal with R3 : rowwise _ _ ?d |- _ => set (df3 := d) in * end.
  clear Hkd Hkp Hkc Hke Hkr kd kp kc ke kr.
  (* Derived columns *)
  get_col H as gm Hgm from R3. get_col H as sa Hsa from R3.
  binop_col H as q1 h1 Hq1 from Hgm Hsa.
  unfold series_scalar, series_round in H.
  map_col H as q2 h2 Hq2 from Hq1. map_col H as q3 h3 Hq3 from Hq2.
  pose proof (rw_setitem _ _ _ "gross_margin_pct" _ _ R3 Hq3) as R4.
  get_col H as sa' Hsa' from R4. get_col H as ta Hta from R4.
  binop_col H as q4 h4 Hq4 from Hsa' Hta.
  map_col H as q5 h5 Hq5 from Hq4. map_col H as q6 h6 Hq6 from Hq5.
  pose proof (rw_setitem _ _ _ "target_attainment_pct" _ _ R4 Hq6) as R5.
  get_col H as qty Hqty from R5. get_col H as up Hup from R5.
  binop_col H as q7 h7 Hq7 from Hqty Hup.
  get_col H as dp' Hdp' from R5.
  binop_col H as q8 h8 Hq8 from Hq7 Hdp'.
  map_col H as q9 h9 Hq9 from Hq8.
  pose proof (rw_setitem _ _ _ "discount_impact" _ _ R5 Hq9) as R6.
  get_col H as os Hos from R6.
  pose proof (rw_map _ _ (fun c => Bool (negb (cell_eqb c (Str "Cancelled")))) os Hos)
    as Hflag.
  pose proof (rw_setitem _ _ _ "is_revenue_eligible" _ _ R6 Hflag) as R7.
  pose proof (rw_dropna _ _ _ _ _ R7 H) as R8.
  match goal with R8 : rowwise _ ?f _ |- _ => exists f end.
  split.
  - unfold rowwise in *. rewrite R8, filter_filter. f_equal.
    apply filter_ext. intros r. f_equal. unfold measures_present.
    change (notnull (to_numeric_cell (r "sales_amount"))
            && (notnull (to_numeric_cell (r "cogs"))
                && (notnull (to_numeric_cell (r "quantity")) && true))
            = notnull (to_numeric_cell (r "sales_amount"))
              && notnull (to_numeric_cell (r "cogs"))
              && notnull (to_numeric_cell (r "quantity"))).
    rewrite andb_true_r, andb_assoc. reflexivity.
  - intros r. split; [| split].
    + intros c Hm. unfold fact_columns_written, numeric_cols in Hm. simpl app in Hm.
      repeat (apply mem_cons_false in Hm; let E := fresh "E" in destruct Hm as [E Hm]).
      unfold set_cell, cast_columns, numeric_cols. simpl fold_left. unfold set_cell.
      repeat match goal with E : String.eqb c _ = false |- _ => rewrite E; clear E end.
      reflexivity.
    + intros c Hin. unfold numeric_cols in Hin. simpl in Hin.
      repeat (destruct Hin as [<- | Hin]; [reflexivity |]). destruct Hin.
    + reflexivity.
Qed.

Lemma transform_dim_product_rowwise df out :
  transform_dim_product df = Ok out ->
  exists post : Row -> Row,
    rowwise (List.filter prices_present (rows df)) post out /\
    forall r, product_row_out r (post r).
Proof.
  unfold transform_dim_product. intros H.
  pose proof (rw_start df) as R0.
  get_col H as uc Huc from R0.
  pose proof (rw_setitem _ _ _ "unit_cost" _ _ R0 (rw_map _ _ to_numeric_cell uc Huc)) as R1.
  get_col H as lp Hlp from R1.
  pose proof (rw_setitem _ _ _ "list_price" _ _ R1 (rw_map _ _ to_numeric_cell lp Hlp)) as R2.
  get_col H as ia Hia from R2.
  pose proof (rw_setitem _ _ _ "is_active" _ _ R2
                (rw_map _ _ (fun c => Bool (truth c)) ia Hia)) as R3.
  get_col H as ld Hld from R3.
  map_col H as ld' g1 Hg1 from Hld.
  pose proof (rw_setitem _ _ _ "launch_date" _ _ R3 Hg1) as R4.
  get_col H as lp1 Hlp1 from R4. get_col H as uc1 Huc1 from R4.
  binop_col H as q1 h1 Hq1 from Hlp1 Huc1.
  get_col H as lp2 Hlp2 from R4.
  binop_col H as q2 h2 Hq2 from Hq1 Hlp2.
  unfold series_scalar, cut_margin_band in H.
  map_col H as q3 h3 Hq3 from Hq2. map_col H as q4 h4 Hq4 from Hq3.
  pose proof (rw_setitem _ _ _ "margin_band" _ _ R4 Hq4) as R5.
  pose proof (rw_dropna _ _ _ _ _ R5 H) as R6.
  match goal with R6 : rowwise _ ?f _ |- _ => exists f end.
  split.
  - unfold rowwise in *. rewrite R6. f_equal.
    apply filter_ext. intros r. unfold prices_present.
    change (notnull (to_numeric_cell (r "unit_cost"))
            && (notnull (to_numeric_cell (r "list_price")) && true)
            = notnull (to_numeric_cell (r "unit_cost"))
              && notnull (to_numeric_cell (r "list_price"))).
    rewrite andb_true_r. reflexivity.
  - intros r. split; [| split].
    + intros c Hm. unfold product_columns_written in Hm.
      repeat (apply mem_cons_false in Hm; let E := fresh "E" in destruct Hm as [E Hm]).
      unfold set_cell.
      repeat match goal with E : String.eqb c _ = false |- _ => rewrite E; clear E end.
      reflexivity.
    + reflexivity.
    + reflexivity.
Qed.

Lemma rowwise_Forall2 (R : Row -> Row -> Prop) l f df :
  rowwise l f df -> (forall r, R r (f r)) -> Forall2 R l (rows df).
Proof.
  unfold rowwise. intros -> HR. induction l as [|r l IH]; simpl; constructor; auto.
Qed.

Lemma Forall2_Forall_transfer {A B : Type} (R : A -> B -> Prop) (P : A -> Prop)
  (Q : B -> Prop) (l : list A) (l' : list B) :
  Forall2 R l l' -> Forall P l -> (forall x y, R x y -> P x -> Q y) -> Forall Q l'.
Proof.
  intros HF. induction HF as [|x y l l' Hxy HF IH]; intros HP HPQ; constructor.
  - inversion HP; subst. eauto.
  - apply IH; [inversion HP; subst; assumption | exact HPQ].
Qed.

Lemma fact_row_out_keys dd dp dc de dr r r' :
  fact_row_out r r' -> fk_ok dd dp dc de dr r' = fk_ok dd dp dc de dr r.
Proof.
  intros (Hsame & _ & _). unfold fk_ok.
  rewrite !Hsame by reflexivity. reflexivity.
Qed.

Lemma isnull_to_numeric c :
  isnull (to_numeric_cell c) = true <->
  c = Null \/ exists s, c = Str s /\ (parse_numeric s = None \/ parse_numeric s = Some NaN).
Proof.
  split.
  - destruct c as [[| | |q]|s|[]|t]; simpl; try discriminate; [left; reflexivity |].
    intros H. right. exists s. split; [reflexivity |].
    destruct (parse_numeric s) as [[| | |q]|]; simpl in H; try discriminate; auto.
  - intros [-> | (s & -> & [H | H])]; simpl; [reflexivity | |]; rewrite H; reflexivity.
Qed.

(** C1.  Every row of the result of [transform_fact_sales] has its date,
    product, customer, employee and region key in the key column of the
    respective dimension table.  The result rows are, in order, the input
    rows that satisfy the five memberships and keep their three measures
    after the cast, each with its keys unchanged: an input row that violates
    a membership is not among them, one that satisfies all five and survives
    the drop of null measures is. *)
Theorem fact_sales_referential_integrity df dd dp dc de dr out :
  transform_fact_sales df dd dp dc de dr = Ok out ->
  Forall (fun r' : Row =>
            cell_in (r' "date_key") (column dd "date_key") = true /\
            cell_in (r' "product_key") (column dp "product_key") = true /\
            cell_in (r' "customer_key") (column dc "customer_key") = true /\
            cell_in (r' "employee_key") (column de "employee_key") = true /\
            cell_in (r' "region_key") (column dr "region_key") = true)
         (rows out) /\
  Forall2 fact_row_out
    (List.filter (fun r => fk_ok dd dp dc de dr r && measures_present r) (rows df))
    (rows out).
Proof.
  intros H. apply transform_fact_sales_rowwise in H. destruct H as (post & Hrows & Hpost).
  pose proof (rowwise_Forall2 fact_row_out _ _ _ Hrows Hpost) as HF.
  split; [| exact HF].
  assert (Hin : Forall (fun r => fk_ok dd dp dc de dr r = true)
                  (List.filter (fun r => fk_ok dd dp dc de dr r && measures_present r)
                     (rows df))).
  { apply Forall_forall. intros r Hr. apply list_elem_of_In, filter_In in Hr.
    destruct Hr as [_ Hr]. apply andb_prop in Hr. destruct Hr; assumption. }
  eapply Forall2_Forall_transfer; [exact HF | exact Hin |].
  intros r r' Hrr' Hr. simpl in Hr.
  rewrite <- (fact_row_out_keys dd dp dc de dr _ _ Hrr') in Hr.
  unfold fk_ok in Hr. repeat (apply andb_prop in Hr; destruct Hr as [Hr ?]). auto.
Qed.

(** C5.  [transform_dim_product] keeps, in order, exactly the rows whose
    unit cost and list price are both numbers after the cast; a price is
    no number after the cast exactly when it is missing or its text does
    not parse as a number.  [transform_fact_sales] keeps, in order, exactly
    the rows that pass the foreign-key filter and whose sales amount, cost
    of goods and quantity are all numbers after the cast.  No other row is
    removed by either function. *)
Theorem transform_drops_exactly_invalid_rows :
  (forall df out,
     transform_dim_product df = Ok out ->
     Forall2 product_row_out (List.filter prices_present (rows df)) (rows out)) /\
  (forall df dd dp dc de dr out,
     transform_fact_sales df dd dp dc de dr = Ok out ->
     Forall2 fact_row_out
       (List.filter measures_present (List.filter (fk_ok dd dp dc de dr) (rows df)))
       (rows out)) /\
  (forall c,
     isnull (to_numeric_cell c) = true <->
     c = Null \/
     exists s, c = Str s /\ (parse_numeric s = None \/ parse_numeric s = Some NaN)).
Proof.
  split; [| split].
  - intros df out H. apply transform_dim_product_rowwise in H.
    destruct H as (post & Hrows & Hpost).
    exact (rowwise_Forall2 product_row_out _ _ _ Hrows Hpost).
  - intros df dd dp dc de dr out H. apply transform_fact_sales_rowwise in H.
    destruct H as (post & Hrows & Hpost). rewrite filter_filter.
    exact (rowwise_Forall2 fact_row_out _ _ _ Hrows Hpost).
  - apply isnull_to_numeric.
Qed.

(** ** The KPI dispatcher *)

Lemma KPI_MAP_methods id fn :
  KPI_MAP !! id = Some fn ->
  In (id, fn)
    [("KPI-001", kpi_total_revenue); ("KPI-002", kpi_gross_margin_pct);
     ("KPI-003", kpi_revenue_growth_mom); ("KPI-004", kpi_avg_order_value);
     ("KPI-005", kpi_target_attainment); ("KPI-006", kpi_total_orders);
     ("KPI-007", kpi_discount_rate); ("KPI-008", kpi_revenue_per_employee);
     ("KPI-009", kpi_customer_count); ("KPI-010", kpi_top10_revenue_share)].
Proof.
  intros H. unfold KPI_MAP in H. apply elem_of_list_to_map_2 in H.
  apply list_elem_of_In in H. exact H.
Qed.

(** A KPI method reads nothing of the calculator but the eligible rows. *)
Lemma kpi_method_eligible_only id fn s1 s2 :
  KPI_MAP !! id = Some fn -> eligible s1 = eligible s2 -> fn s1 = fn s2.
Proof.
  intros H He. apply KPI_MAP_methods in H. simpl in H.
  repeat (destruct H as [H | H];
          [injection H as _ <-;
           unfold kpi_total_revenue, kpi_gross_margin_pct, kpi_revenue_growth_mom,
             kpi_avg_order_value, kpi_target_attainment, kpi_total_orders,
             kpi_discount_rate, kpi_revenue_per_employee, kpi_customer_count,
             kpi_top10_revenue_share, monthly_revenue, revenue_by_product;
           rewrite He; reflexivity |]).
  destruct H.
Qed.

Lemma result_of_eligible s1 s2 d r :
  eligible s1 = eligible s2 -> result_of s1 d r -> result_of s2 d r.
Proof.
  intros He (fn & v & Hfn & Hv & Hrest). exists fn, v.
  split; [exact Hfn |]. split; [| exact Hrest].
  rewrite <- (kpi_method_eligible_only _ _ s1 s2 Hfn He). exact Hv.
Qed.

Lemma calculate_one_ok st d st' :
  calculate_one st d = Ok st' ->
  eligible (fst st') = eligible (fst st) /\
  kpi_defs (fst st') = kpi_defs (fst st) /\
  if in_KPI_MAP d
  then exists r, kpi_results (fst st') = kpi_results (fst st) ++ [r] /\
                 result_of (fst st) d r /\ snd st' = S (snd st)
  else st' = st.
Proof.
  unfold calculate_one, in_KPI_MAP. destruct (KPI_MAP !! d_id d) as [fn|] eqn:Hfn.
  - intros H. bind_inv H as v Hv. bind_inv H as status Hs. injection H as <-.
    simpl. split; [reflexivity |]. split; [reflexivity |].
    eexists. split; [reflexivity |]. split; [| reflexivity].
    exists fn, v. simpl. repeat split; assumption.
  - intros H. injection H as <-. auto.
Qed.

Lemma calculate_loop_ok defs st st' :
  foldM calculate_one defs st = Ok st' ->
  eligible (fst st') = eligible (fst st) /\
  kpi_defs (fst st') = kpi_defs (fst st) /\
  exists new,
    kpi_results (fst st') = kpi_results (fst st) ++ new /\
    Forall2 (result_of (fst st)) (List.filter in_KPI_MAP defs) new.
Proof.
  revert st. induction defs as [|d defs IH]; simpl; intros st H.
  - injection H as <-. split; [reflexivity |]. split; [reflexivity |].
    exists []. rewrite app_nil_r. split; [reflexivity | constructor].
  - bind_inv H as st1 H1. apply calculate_one_ok in H1.
    destruct H1 as (He1 & Hd1 & H1).
    apply IH in H. destruct H as (He & Hd & new & Hnew & HF).
    split; [congruence |]. split; [congruence |].
    assert (HF' : Forall2 (result_of (fst st)) (List.filter in_KPI_MAP defs) new).
    { eapply Forall2_impl; [exact HF |]. intros x y. apply result_of_eligible. exact He1. }
    destruct (in_KPI_MAP d).
    + destruct H1 as (r & Hr & Hres & _). exists (r :: new).
      split; [rewrite Hnew, Hr, <- app_assoc; reflexivity |].
      constructor; assumption.
    + subst st1. exists new. split; assumption.
Qed.

Lemma rag_status_direction v t d1 d2 : rag_status v t d1 = rag_status v t d2.
Proof. reflexivity. Qed.

Lemma calculate_one_direction st1 st2 d direction :
  same_run st1 st2 ->
  same_outcome (calculate_one st1 (set_trend_direction direction d)) (calculate_one st2 d).
Proof.
  intros (He & Hr & Ht). unfold calculate_one. simpl.
  destruct (KPI_MAP !! d_id d) as [fn|] eqn:Hfn; simpl.
  - rewrite (kpi_method_eligible_only _ _ (fst st1) (fst st2) Hfn He).
    destruct (fn (fst st2)) as [v|e]; simpl; [| reflexivity].
    rewrite (rag_status_direction v _ (default "" direction)
               (default "" (d_trend_direction d))).
    destruct (rag_status v _ _) as [s|e]; simpl; [| reflexivity].
    unfold same_run. simpl. rewrite He, Hr, Ht. auto.
  - unfold same_run. auto.
Qed.

Lemma calculate_loop_direction defs redirect st1 st2 :
  same_run st1 st2 ->
  same_outcome
    (foldM calculate_one (map (fun d => set_trend_direction (redirect d) d) defs) st1)
    (foldM calculate_one defs st2).
Proof.
  revert st1 st2. induction defs as [|d defs IH]; simpl; intros st1 st2 Hs.
  - exact Hs.
  - pose proof (calculate_one_direction st1 st2 d (redirect d) Hs) as H1.
    destruct (calculate_one st1 _) as [a|e1], (calculate_one st2 d) as [b|e2];
      simpl in *; try contradiction.
    + apply IH. exact H1.
    + exact H1.
Qed.

(** C9.  [rag_status] does not depend on its direction argument, and the
    [trend_direction] of the definitions does not influence what
    [calculate_all] returns: with every [trend_direction] of the catalog
    replaced, the same records, with the same classification, are returned
    (or the same exception is raised). *)
Theorem rag_status_ignores_direction :
  (forall v t d1 d2, rag_status v t d1 = rag_status v t d2) /\
  (forall self tick (redirect : KPIDef -> option string),
     returned (calculate_all
                 (with_kpi_defs self
                    (map (fun d => set_trend_direction (redirect d) d) (kpi_defs self)))
                 tick)
     = returned (calculate_all self tick)).
Proof.
  split; [apply rag_status_direction |].
  intros self tick redirect. unfold calculate_all. simpl.
  pose proof (calculate_loop_direction (kpi_defs self) redirect
                (with_kpi_defs self
                   (map (fun d => set_trend_direction (redirect d) d) (kpi_defs self)),
                 tick)
                (self, tick)) as H.
  unfold returned.
  destruct (foldM calculate_one (map _ _) _) as [a|e1],
           (foldM calculate_one (kpi_defs self) _) as [b|e2]; simpl in *.
  - destruct H as (_ & Hr & _); [repeat split |]. rewrite Hr. reflexivity.
  - destruct H; repeat split.
  - destruct H; repeat split.
  - rewrite H; [reflexivity | repeat split].
Qed.

Lemma calculate_loop_total self defs st :
  eligible (fst st) = eligible self ->
  (forall d fn, In d defs -> KPI_MAP !! d_id d = Some fn ->
     exists v s, fn self = Ok v /\
       rag_status v (default ∅ (d_thresholds d)) (default "" (d_trend_direction d)) = Ok s) ->
  exists st', foldM calculate_one defs st = Ok st'.
Proof.
  revert st. induction defs as [|d defs IH]; simpl; intros st He Hall.
  - eexists. reflexivity.
  - assert (H1 : exists st1, calculate_one st d = Ok st1).
    { unfold calculate_one. destruct (KPI_MAP !! d_id d) as [fn|] eqn:Hfn.
      - destruct (Hall d fn (or_introl eq_refl) Hfn) as (v & s & Hv & Hs).
        rewrite (kpi_method_eligible_only _ _ (fst st) self Hfn He), Hv. simpl.
        rewrite Hs. simpl. eexists. reflexivity.
      - eexists. reflexivity. }
    destruct H1 as [st1 H1]. rewrite H1. simpl. apply IH.
    + apply calculate_one_ok in H1. destruct H1 as (He1 & _). congruence.
    + intros d' fn Hin. apply Hall. right. exact Hin.
Qed.

Lemma in_KPI_MAP_ids d : In (d_id d) kpi_ids -> in_KPI_MAP d = true.
Proof.
  unfold in_KPI_MAP, kpi_ids. simpl.
  intros H. repeat (destruct H as [<- | H]; [reflexivity |]). destruct H.
Qed.

Lemma in_KPI_MAP_true d : in_KPI_MAP d = true -> In (d_id d) kpi_ids.
Proof.
  unfold in_KPI_MAP. destruct (KPI_MAP !! d_id d) as [fn|] eqn:Hfn; [| discriminate].
  intros _. apply KPI_MAP_methods in Hfn. simpl in Hfn. unfold kpi_ids. simpl.
  repeat (destruct Hfn as [Hfn | Hfn]; [injection Hfn as <- _; auto 12 |]).
  destruct Hfn.
Qed.

(** C7.  [calculate_all] appends to the results one record for every
    definition of the catalog whose id is in [KPI_MAP], in catalog order, and
    none for the others; each record carries the value of the KPI method
    rounded to four decimals and the status [rag_status] gives the unrounded
    value.  It returns whenever the methods and [rag_status] do.  [KPI_MAP]
    has ten entries, and when the known ids of the catalog are KPI-001 to
    KPI-010, each once, ten records are appended.

    Rounded to four decimals, of a double: NaN and the infinities are kept;
    a finite value becomes the double next to a decimal with four places
    that lies within half a unit of the fourth place of the value, up to
    the rounding error of one multiplication of doubles; a value that is
    the double of a decimal with four places is kept as it is, and so is a
    whole number (a count, or 0.0). *)
Theorem calculate_all_one_record_per_known_kpi :
  (forall self tick self' tick',
     calculate_all self tick = Ok (self', tick') ->
     exists new,
       kpi_results self' = kpi_results self ++ new /\
       Forall2 (result_of self) (List.filter in_KPI_MAP (kpi_defs self)) new) /\
  (forall self tick,
     (forall d fn, In d (kpi_defs self) -> KPI_MAP !! d_id d = Some fn ->
        exists v s, fn self = Ok v /\
          rag_status v (default ∅ (d_thresholds d)) (default "" (d_trend_direction d))
            = Ok s) ->
     exists self' tick', calculate_all self tick = Ok (self', tick')) /\
  (size KPI_MAP = 10%nat /\ forall d, in_KPI_MAP d = true <-> In (d_id d) kpi_ids) /\
  (forall self tick self' tick',
     calculate_all self tick = Ok (self', tick') ->
     Permutation (map d_id (List.filter in_KPI_MAP (kpi_defs self))) kpi_ids ->
     length (kpi_results self') = (length (kpi_results self) + 10)%nat) /\
  (fround 4 NaN = NaN /\ fround 4 PInf = PInf /\ fround 4 NInf = NInf) /\
  (forall q,
     (Qabs q <= inject_Z (10 ^ 300))%Q ->
     exists k : Z,
       fround 4 (Fin q) = binary64 (inject_Z k / 10000) /\
       (Qabs (inject_Z k / 10000 - q)
        <= (1 # 20000) + Qabs q * pow2 (-53) + pow2 (-1075))%Q) /\
  (forall k,
     (Z.abs k <= 2 ^ 50)%Z ->
     fround 4 (binary64 (inject_Z k / 10000)) = binary64 (inject_Z k / 10000)) /\
  (forall z, (Z.abs z <= 10 ^ 11)%Z -> fround 4 (of_Z z) = of_Z z).
Proof.
  split; [| split; [| split; [| split; [| split; [| split; [| split]]]]]];
    [| | | | exact fround_4_not_finite | exact fround_four_decimals
     | exact fround_keeps_four_decimals | exact fround_4_whole].
  - intros self tick self' tick' H. unfold calculate_all in H.
    apply calculate_loop_ok in H. simpl in H. destruct H as (_ & _ & H). exact H.
  - intros self tick Hall.
    destruct (calculate_loop_total self (kpi_defs self) (self, tick) eq_refl Hall)
      as [[self' tick'] H].
    exists self', tick'. exact H.
  - split; [reflexivity |]. intros d. split; [apply in_KPI_MAP_true | apply in_KPI_MAP_ids].
  - intros self tick self' tick' H Hperm. unfold calculate_all in H.
    apply calculate_loop_ok in H. simpl in H. destruct H as (_ & _ & new & Hnew & HF).
    rewrite Hnew, length_app. f_equal.
    apply Forall2_length in HF. rewrite <- HF.
    apply Permutation_length in Hperm. rewrite length_map in Hperm. exact Hperm.
Qed.

(** ** Guarded divisions of the KPI methods *)

Lemma feqb_zero_of_pos b : fgtb b (of_Z 0) = true -> feqb b (Fin 0) = false.
Proof.
  unfold fgtb, of_Z. change (inject_Z 0) with 0%Q.
  destruct b as [| | |q]; simpl; try reflexivity.
  destruct (0 ?= q)%Q eqn:Hc; intros Hb; try discriminate Hb.
  apply Qlt_alt in Hc. destruct (Qeq_bool q 0) eqn:He; [| reflexivity].
  apply Qeq_bool_eq in He. rewrite He in Hc. exfalso. exact (Qlt_irrefl 0 Hc).
Qed.

Lemma scalar_div_pos a b :
  fgtb b (of_Z 0) = true -> scalar_div a b = Ok (fdiv a b).
Proof. intros H. unfold scalar_div. rewrite (feqb_zero_of_pos b H). reflexivity. Qed.

Lemma scalar_div_count a n :
  Nat.ltb 0 n = true -> scalar_div a (of_nat n) = Ok (fdiv a (of_nat n)).
Proof.
  intros H. apply Nat.ltb_lt in H. unfold scalar_div, of_nat, of_Z. simpl.
  destruct (Qeq_bool (inject_Z (Z.of_nat n)) 0) eqn:He; [| reflexivity].
  apply Qeq_bool_eq in He. unfold Qeq in He. simpl in He. lia.
Qed.

Lemma not_zero_division_KeyError k : not_zero_division (KeyError k).
Proof. discriminate. Qed.

Lemma not_zero_division_TypeError : not_zero_division TypeError.
Proof. discriminate. Qed.

Lemma not_zero_division_IndexError : not_zero_division IndexError.
Proof. discriminate. Qed.

Local Hint Resolve not_zero_division_KeyError not_zero_division_TypeError
  not_zero_division_IndexError : core.

Lemma series_sum_no_zero_division s : raises_only not_zero_division (series_sum s).
Proof. unfold series_sum. raises_only_tac. Qed.

Lemma series_mean_no_zero_division s : raises_only not_zero_division (series_mean s).
Proof.
  unfold series_mean. raises_only_tac.
  destruct (Nat.ltb 0 _) eqn:Hn; [| apply raises_only_ok].
  rewrite (scalar_div_count _ _ Hn). apply raises_only_ok.
Qed.

Lemma groupby_sum_no_zero_division df keys col :
  raises_only not_zero_division (groupby_sum df keys col).
Proof.
  unfold groupby_sum. raises_only_tac; try apply series_sum_no_zero_division;
    raises_only_tac.
Qed.

(** The last step of a ratio KPI: the quotient, taken only when the divisor
    is positive. *)
Lemma guarded_ratio_no_zero_division a b :
  raises_only not_zero_division
    (if fgtb b (of_Z 0) then do q <- scalar_div a b; Ok (fmul q (of_Z 100))
     else Ok (Fin 0)).
Proof.
  destruct (fgtb b (of_Z 0)) eqn:Hb; [| apply raises_only_ok].
  rewrite (scalar_div_pos _ _ Hb). apply raises_only_ok.
Qed.

Lemma guarded_mean_no_zero_division a n :
  raises_only not_zero_division
    (if Nat.ltb 0 n then scalar_div a (of_nat n) else Ok (Fin 0)).
Proof.
  destruct (Nat.ltb 0 n) eqn:Hn; [| apply raises_only_ok].
  rewrite (scalar_div_count _ _ Hn). apply raises_only_ok.
Qed.

Ltac kpi_no_zero_division :=
  repeat first
    [ apply series_sum_no_zero_division
    | apply series_mean_no_zero_division
    | apply groupby_sum_no_zero_division
    | apply guarded_ratio_no_zero_division
    | apply guarded_mean_no_zero_division
    | raises_only_step ].

Lemma kpi_methods_no_zero_division id fn self :
  KPI_MAP !! id = Some fn -> raises_only not_zero_division (fn self).
Proof.
  intros H. apply KPI_MAP_methods in H. simpl in H.
  repeat (destruct H as [H | H]; [injection H as _ <- |]); try destruct H.
  - unfold kpi_total_revenue. kpi_no_zero_division.
  - unfold kpi_gross_margin_pct. kpi_no_zero_division.
  - unfold kpi_revenue_growth_mom, monthly_revenue. kpi_no_zero_division.
    { destruct (forallb _ _); [apply raises_only_ok | apply raises_only_raise; auto]. }
    destruct (Nat.ltb _ 2); [apply raises_only_ok |].
    destruct (rev _) as [|cur [|prev rest]];
      try (apply raises_only_raise; auto).
    apply guarded_ratio_no_zero_division.
  - unfold kpi_avg_order_value. kpi_no_zero_division.
  - unfold kpi_target_attainment. kpi_no_zero_division.
  - unfold kpi_total_orders. kpi_no_zero_division.
  - unfold kpi_discount_rate. kpi_no_zero_division.
  - unfold kpi_revenue_per_employee. kpi_no_zero_division.
  - unfold kpi_customer_count. kpi_no_zero_division.
  - unfold kpi_top10_revenue_share, revenue_by_product. kpi_no_zero_division.
Qed.

Lemma gross_margin_pct_guard self v rev :
  kpi_gross_margin_pct self = Ok v -> kpi_total_revenue self = Ok rev ->
  fgtb rev (of_Z 0) = false -> v = Fin 0.
Proof.
  unfold kpi_gross_margin_pct, kpi_total_revenue. intros H Hrev Hle.
  bind_inv Hrev as s Hs. rewrite Hs in H. cbn [bind] in H. rewrite Hrev in H. cbn [bind] in H.
  bind_inv H as g Hg. bind_inv H as gm Hgm. rewrite Hle in H. congruence.
Qed.

Lemma avg_order_value_guard self v :
  kpi_avg_order_value self = Ok v ->
  nunique (column (eligible self) "order_id") = 0%nat -> v = Fin 0.
Proof.
  unfold kpi_avg_order_value, column. intros H Hn.
  bind_inv H as s Hs. bind_inv H as rev Hrev. bind_inv H as ids Hids.
  apply getitem_ok in Hids. destruct Hids as [_ Hids].
  assert (Hz : nunique ids = 0%nat) by (rewrite Hids; exact Hn).
  rewrite Hz in H. simpl in H. congruence.
Qed.

Lemma target_attainment_guard self v target :
  kpi_target_attainment self = Ok v ->
  series_sum (column (eligible self) "target_amount") = Ok target ->
  fgtb target (of_Z 0) = false -> v = Fin 0.
Proof.
  unfold kpi_target_attainment, column. intros H Ht Hle.
  bind_inv H as s Hs. bind_inv H as actual Ha. bind_inv H as ts Hts.
  apply getitem_ok in Hts. destruct Hts as [_ Hts].
  assert (Hz : series_sum ts = Ok target) by (rewrite Hts; exact Ht).
  rewrite Hz in H. cbn [bind] in H. rewrite Hle in H. congruence.
Qed.

Lemma revenue_per_employee_guard self v :
  kpi_revenue_per_employee self = Ok v ->
  nunique (column (eligible self) "employee_key") = 0%nat -> v = Fin 0.
Proof.
  unfold kpi_revenue_per_employee, column. intros H Hn.
  bind_inv H as s Hs. bind_inv H as rev Hrev. bind_inv H as ids Hids.
  apply getitem_ok in Hids. destruct Hids as [_ Hids].
  assert (Hz : nunique ids = 0%nat) by (rewrite Hids; exact Hn).
  rewrite Hz in H. simpl in H. congruence.
Qed.

Lemma top10_revenue_share_guard self v by_product :
  kpi_top10_revenue_share self = Ok v ->
  revenue_by_product self = Ok by_product ->
  fgtb (fsum by_product) (of_Z 0) = false -> v = Fin 0.
Proof.
  unfold kpi_top10_revenue_share. intros H Hbp Hle.
  rewrite Hbp in H. cbn [bind] in H. rewrite Hle in H. congruence.
Qed.

Lemma revenue_growth_mom_guard self v monthly :
  kpi_revenue_growth_mom self = Ok v ->
  monthly_revenue self = Ok monthly ->
  (length monthly < 2)%nat \/
  (exists earlier prev cur,
     monthly = earlier ++ [prev; cur] /\ fgtb (snd prev) (of_Z 0) = false) ->
  v = Fin 0.
Proof.
  unfold kpi_revenue_growth_mom. intros H Hm Hcase. rewrite Hm in H. cbn [bind] in H.
  destruct Hcase as [Hlen | (earlier & prev & cur & -> & Hle)].
  - apply Nat.ltb_lt in Hlen. rewrite Hlen in H. congruence.
  - destruct (Nat.ltb _ 2); [congruence |].
    rewrite rev_app_distr in H. cbn [rev app] in H. rewrite Hle in H. congruence.
Qed.

Lemma mapM_length {A B : Type} (f : A -> result B) l l' :
  mapM f l = Ok l' -> length l' = length l.
Proof.
  revert l'. induction l as [|x l IH]; simpl; intros l' H.
  - injection H as <-. reflexivity.
  - bind_inv H as y Hy. bind_inv H as ys Hys. injection H as <-.
    simpl. f_equal. apply IH. exact Hys.
Qed.

Lemma insert_sorted_length {A : Type} (le : A -> A -> bool) x l :
  length (insert_sorted le x l) = S (length l).
Proof.
  induction l as [|y l IH]; simpl; [reflexivity |].
  destruct (le x y); simpl; [reflexivity | rewrite IH; reflexivity].
Qed.

Lemma sort_by_length {A : Type} (le : A -> A -> bool) l :
  length (sort_by le l) = length l.
Proof.
  unfold sort_by. induction l as [|x l IH]; simpl; [reflexivity |].
  rewrite insert_sorted_length, IH. reflexivity.
Qed.

(** [monthly] has one entry per distinct (year, month) of the eligible rows. *)
Lemma monthly_revenue_length self monthly :
  monthly_revenue self = Ok monthly ->
  length monthly = length (group_keys (eligible self) ["year"; "month_number"]).
Proof.
  unfold monthly_revenue, groupby_sum. intros H.
  bind_inv H as grouped Hg. destruct (forallb _ _); [| discriminate]. injection H as <-.
  bind_inv Hg as c1 Hc1. bind_inv Hg as c2 Hc2.
  apply mapM_length in Hg. rewrite sort_by_length. exact Hg.
Qed.

(** ** The KPI methods return on well-typed eligible rows *)

Lemma mapM_total {A B : Type} (f : A -> result B) l :
  Forall (fun x => exists y, f x = Ok y) l -> exists l', mapM f l = Ok l'.
Proof.
  induction 1 as [|x l [y Hy] Hl [l' IH]]; simpl.
  - eexists. reflexivity.
  - rewrite Hy, IH. simpl. eexists. reflexivity.
Qed.

Lemma series_sum_numeric s : Forall numeric s -> exists x, series_sum s = Ok x.
Proof.
  intros H. unfold series_sum. destruct (mapM_total as_float s H) as [xs Hxs].
  rewrite Hxs. simpl. eexists. reflexivity.
Qed.

Lemma series_mean_numeric s : Forall numeric s -> exists x, series_mean s = Ok x.
Proof.
  intros H. unfold series_mean. destruct (mapM_total as_float s H) as [xs Hxs].
  rewrite Hxs. cbn [bind].
  destruct (Nat.ltb 0 _) eqn:Hn; [| eexists; reflexivity].
  rewrite (scalar_div_count _ _ Hn). eexists. reflexivity.
Qed.

Lemma kpi_ready_column df c :
  kpi_ready df ->
  In c ["sales_amount"; "gross_margin"; "target_amount"; "discount_pct"; "order_id";
        "employee_key"; "customer_key"; "product_key"; "year"; "month_number"] ->
  getitem df c = Ok (column df c).
Proof.
  intros [Hc _] Hin. apply getitem_has.
  rewrite Forall_forall in Hc. apply Hc, list_elem_of_In. exact Hin.
Qed.

Lemma kpi_ready_numeric df c (rs : list Row) :
  kpi_ready df ->
  In c ["sales_amount"; "gross_margin"; "target_amount"; "discount_pct";
        "year"; "month_number"] ->
  (forall r, In r rs -> In r (rows df)) ->
  Forall numeric (map (fun r : Row => r c) rs).
Proof.
  intros [_ Hn] Hin Hsub. apply Forall_map, Forall_forall. intros r Hr.
  apply list_elem_of_In in Hr. apply Hsub in Hr.
  rewrite Forall_forall in Hn. apply list_elem_of_In in Hr. specialize (Hn r Hr).
  rewrite Forall_forall in Hn. apply Hn, list_elem_of_In. exact Hin.
Qed.

Lemma distinct_from_In {A : Type} (eqb : A -> A -> bool) seen l x :
  In x (distinct_from eqb seen l) -> In x l.
Proof.
  revert seen. induction l as [|y l IH]; simpl; intros seen H; [exact H |].
  destruct (existsb (eqb y) seen).
  - right. exact (IH _ H).
  - destruct H as [H | H]; [left; exact H | right; exact (IH _ H)].
Qed.

Lemma group_keys_In df keys k :
  In k (group_keys df keys) -> exists r, In r (rows df) /\ k = map r keys.
Proof.
  unfold group_keys, distinct. intros H. apply distinct_from_In in H.
  apply in_map_iff in H. destruct H as (r & <- & Hr).
  apply filter_In in Hr. destruct Hr as [Hr _]. exists r. split; [exact Hr | reflexivity].
Qed.

Lemma groupby_sum_keys df keys col grouped :
  groupby_sum df keys col = Ok grouped -> map fst grouped = group_keys df keys.
Proof.
  unfold groupby_sum. intros H. bind_inv H as c1 H1. bind_inv H as c2 H2.
  revert grouped H. induction (group_keys df keys) as [|k ks IH]; simpl; intros grouped H.
  - injection H as <-. reflexivity.
  - bind_inv H as y Hy. bind_inv H as ys Hys. injection H as <-.
    bind_inv Hy as total Ht. injection Hy as <-. simpl. f_equal. apply IH. exact Hys.
Qed.

Lemma groupby_sum_total df keys col :
  kpi_ready df ->
  (forall k, In k keys ->
     In k ["sales_amount"; "gross_margin"; "target_amount"; "discount_pct"; "order_id";
           "employee_key"; "customer_key"; "product_key"; "year"; "month_number"]) ->
  In col ["sales_amount"; "gross_margin"; "target_amount"; "discount_pct";
          "year"; "month_number"] ->
  exists grouped, groupby_sum df keys col = Ok grouped.
Proof.
  intros Hr Hkeys Hcol. unfold groupby_sum.
  destruct (mapM_total (getitem df) keys) as [cs Hcs].
  { apply Forall_forall. intros k Hk. apply list_elem_of_In in Hk.
    eexists. apply kpi_ready_column; auto. }
  rewrite Hcs. cbn [bind].
  rewrite (kpi_ready_column df col Hr).
  2:{ simpl in Hcol. simpl.
      repeat (destruct Hcol as [<- | Hcol]; [auto 12 |]). destruct Hcol. }
  cbn [bind]. apply mapM_total. apply Forall_forall. intros k _.
  destruct (mapM_total as_float
              (map (fun r : Row => r col)
                 (List.filter (fun r : Row => tuple_eqb (map r keys) k)
                    (List.filter (fun r : Row => forallb notnull (map r keys)) (rows df)))))
    as [x Hx].
  { apply (kpi_ready_numeric df col _ Hr Hcol).
    intros r Hin. apply filter_In in Hin. destruct Hin as [Hin _].
    apply filter_In in Hin. destruct Hin; assumption. }
  rewrite Hx. eexists. reflexivity.
Qed.

Lemma numeric_kind c : numeric c -> kind_of c = KNumber.
Proof. intros [x Hx]. destruct c; simpl in *; congruence. Qed.

Lemma homogeneous_numbers s : Forall (fun c => kind_of c = KNumber) s -> homogeneous s = true.
Proof.
  intros H. destruct s as [|c s]; [reflexivity |]. simpl.
  inversion H as [|? ? Hc Hs]; subst. rewrite Hc.
  apply forallb_forall. intros d Hd.
  rewrite Forall_forall in Hs. apply list_elem_of_In in Hd. rewrite (Hs d Hd). reflexivity.
Qed.

Lemma monthly_revenue_total self :
  kpi_ready (eligible self) -> exists monthly, monthly_revenue self = Ok monthly.
Proof.
  intros Hr. unfold monthly_revenue.
  destruct (groupby_sum_total (eligible self) ["year"; "month_number"] "sales_amount" Hr)
    as [grouped Hg].
  { simpl. intros k Hk. repeat (destruct Hk as [<- | Hk]; [auto 12 |]). destruct Hk. }
  { simpl. auto. }
  rewrite Hg. cbn [bind].
  assert (Hkeys : Forall (fun k : list cell =>
                            Forall (fun c => kind_of c = KNumber) k)
                    (map fst grouped)).
  { rewrite (groupby_sum_keys _ _ _ _ Hg). apply Forall_forall. intros k Hk.
    apply list_elem_of_In, group_keys_In in Hk. destruct Hk as (r & Hrow & ->).
    destruct Hr as [_ Hn]. rewrite Forall_forall in Hn.
    apply list_elem_of_In in Hrow. specialize (Hn r Hrow).
    rewrite Forall_forall in Hn.
    simpl. repeat constructor; apply numeric_kind, Hn, list_elem_of_In; simpl; auto 10. }
  assert (Hcol : forall i, homogeneous (key_column (map fst grouped) i) = true).
  { intros i. apply homogeneous_numbers. unfold key_column. apply Forall_map.
    eapply Forall_impl; [exact Hkeys |]. intros k Hk. simpl.
    destruct (nth_in_or_default i k Null) as [Hin | ->]; [| reflexivity].
    rewrite Forall_forall in Hk. apply Hk, list_elem_of_In. exact Hin. }
  cbn [forallb]. rewrite !Hcol. eexists. reflexivity.
Qed.

Lemma guarded_ratio_total a b :
  exists v, (if fgtb b (of_Z 0) then do q <- scalar_div a b; Ok (fmul q (of_Z 100))
             else Ok (Fin 0)) = Ok v.
Proof.
  destruct (fgtb b (of_Z 0)) eqn:Hb; [| eexists; reflexivity].
  rewrite (scalar_div_pos _ _ Hb). eexists. reflexivity.
Qed.

Lemma guarded_mean_total a n :
  exists v, (if Nat.ltb 0 n then scalar_div a (of_nat n) else Ok (Fin 0)) = Ok v.
Proof.
  destruct (Nat.ltb 0 n) eqn:Hn; [| eexists; reflexivity].
  rewrite (scalar_div_count _ _ Hn). eexists. reflexivity.
Qed.

Lemma kpi_ready_sum df c :
  kpi_ready df ->
  In c ["sales_amount"; "gross_margin"; "target_amount"; "discount_pct";
        "year"; "month_number"] ->
  exists x, series_sum (column df c) = Ok x.
Proof.
  intros Hr Hc. apply series_sum_numeric.
  apply (kpi_ready_numeric df c (rows df) Hr Hc). auto.
Qed.

(** Rewrites the column reads and sums of a KPI method on ready rows. *)
Ltac kpi_read Hr :=
  repeat match goal with
    | |- context [getitem ?df ?c] =>
        rewrite (kpi_ready_column df c Hr) by (simpl; auto 12); cbn [bind]
    | |- context [series_sum (column ?df ?c)] =>
        let x := fresh "x" in
        let Hx := fresh "Hx" in
        destruct (kpi_ready_sum df c Hr) as [x Hx]; [simpl; auto 12 |];
        rewrite Hx; cbn [bind]; clear Hx
    end.

Lemma kpi_methods_total id fn self :
  KPI_MAP !! id = Some fn -> kpi_ready (eligible self) -> exists v, fn self = Ok v.
Proof.
  intros H Hr. apply KPI_MAP_methods in H. simpl in H.
  repeat (destruct H as [H | H]; [injection H as _ <- |]); try destruct H.
  - unfold kpi_total_revenue. kpi_read Hr. eexists. reflexivity.
  - unfold kpi_gross_margin_pct. kpi_read Hr. apply guarded_ratio_total.
  - unfold kpi_revenue_growth_mom.
    destruct (monthly_revenue_total self Hr) as [monthly Hm]. rewrite Hm. cbn [bind].
    destruct (Nat.ltb (length monthly) 2) eqn:Hlen; [eexists; reflexivity |].
    apply Nat.ltb_ge in Hlen. rewrite <- length_rev in Hlen.
    destruct (rev monthly) as [|cur [|prev rest]]; simpl in Hlen; try lia.
    apply guarded_ratio_total.
  - unfold kpi_avg_order_value. kpi_read Hr. apply guarded_mean_total.
  - unfold kpi_target_attainment. kpi_read Hr. apply guarded_ratio_total.
  - unfold kpi_total_orders. kpi_read Hr. eexists. reflexivity.
  - unfold kpi_discount_rate. kpi_read Hr.
    destruct (series_mean_numeric (column (eligible self) "discount_pct")) as [m Hm].
    { apply (kpi_ready_numeric _ "discount_pct" _ Hr); [simpl; auto 10 | auto]. }
    rewrite Hm. eexists. reflexivity.
  - unfold kpi_revenue_per_employee. kpi_read Hr. apply guarded_mean_total.
  - unfold kpi_customer_count. kpi_read Hr. eexists. reflexivity.
  - unfold kpi_top10_revenue_share, revenue_by_product.
    destruct (groupby_sum_total (eligible self) ["product_key"] "sales_amount" Hr)
      as [grouped Hg].
    { simpl. intros k Hk. repeat (destruct Hk as [<- | Hk]; [auto 12 |]). destruct Hk. }
    { simpl. auto. }
    rewrite Hg. cbn [bind]. apply guarded_ratio_total.
Qed.

Lemma ratio_kpis_on_empty self :
  kpi_ready (eligible self) -> rows (eligible self) = [] ->
  kpi_gross_margin_pct self = Ok (Fin 0) /\
  kpi_revenue_growth_mom self = Ok (Fin 0) /\
  kpi_avg_order_value self = Ok (Fin 0) /\
  kpi_target_attainment self = Ok (Fin 0) /\
  kpi_revenue_per_employee self = Ok (Fin 0) /\
  kpi_top10_revenue_share self = Ok (Fin 0).
Proof.
  intros Hr Hrows.
  assert (Hget : forall c,
             In c ["sales_amount"; "gross_margin"; "target_amount"; "discount_pct";
                   "order_id"; "employee_key"; "customer_key"; "product_key";
                   "year"; "month_number"] ->
             getitem (eligible self) c = Ok []).
  { intros c Hc. rewrite (kpi_ready_column _ c Hr Hc). unfold column.
    rewrite Hrows. reflexivity. }
  unfold kpi_gross_margin_pct, kpi_revenue_growth_mom, kpi_avg_order_value,
    kpi_target_attainment, kpi_revenue_per_employee, kpi_top10_revenue_share,
    monthly_revenue, revenue_by_product, groupby_sum, group_keys.
  cbn [mapM]. rewrite !Hget by (simpl; auto 12). rewrite Hrows.
  repeat split; reflexivity.
Qed.

(** C8.  Each ratio KPI returns 0.0 when its divisor is not positive: the
    total revenue for the gross margin, the number of distinct orders for
    the average order value, the total target for the target attainment,
    the number of distinct employees for the revenue per employee, the
    revenue summed over the products for the top-10 share, and for the
    month-over-month growth fewer than two months (one entry per distinct
    year and month) or a previous month whose revenue is not positive.  No
    KPI method of the dispatcher divides by zero, whatever the eligible rows
    are; on eligible rows with the expected columns and numeric measures
    every method returns, and on an empty set of eligible rows the six
    ratio KPIs return 0.0. *)
Theorem ratio_kpis_division_guarded :
  (forall self v rev,
     kpi_gross_margin_pct self = Ok v -> kpi_total_revenue self = Ok rev ->
     fgtb rev (of_Z 0) = false -> v = Fin 0) /\
  (forall self v,
     kpi_avg_order_value self = Ok v ->
     nunique (column (eligible self) "order_id") = 0%nat -> v = Fin 0) /\
  (forall self v target,
     kpi_target_attainment self = Ok v ->
     series_sum (column (eligible self) "target_amount") = Ok target ->
     fgtb target (of_Z 0) = false -> v = Fin 0) /\
  (forall self v,
     kpi_revenue_per_employee self = Ok v ->
     nunique (column (eligible self) "employee_key") = 0%nat -> v = Fin 0) /\
  (forall self v by_product,
     kpi_top10_revenue_share self = Ok v ->
     revenue_by_product self = Ok by_product ->
     fgtb (fsum by_product) (of_Z 0) = false -> v = Fin 0) /\
  (forall self v monthly,
     kpi_revenue_growth_mom self = Ok v ->
     monthly_revenue self = Ok monthly ->
     length monthly = length (group_keys (eligible self) ["year"; "month_number"]) /\
     ((length monthly < 2)%nat \/
      (exists earlier prev cur,
         monthly = earlier ++ [prev; cur] /\ fgtb (snd prev) (of_Z 0) = false) ->
      v = Fin 0)) /\
  (forall id fn self,
     KPI_MAP !! id = Some fn -> fn self <> Raise ZeroDivisionError) /\
  (forall id fn self,
     KPI_MAP !! id = Some fn -> kpi_ready (eligible self) -> exists v, fn self = Ok v) /\
  (forall self,
     kpi_ready (eligible self) -> rows (eligible self) = [] ->
     kpi_gross_margin_pct self = Ok (Fin 0) /\
     kpi_revenue_growth_mom self = Ok (Fin 0) /\
     kpi_avg_order_value self = Ok (Fin 0) /\
     kpi_target_attainment self = Ok (Fin 0) /\
     kpi_revenue_per_employee self = Ok (Fin 0) /\
     kpi_top10_revenue_share self = Ok (Fin 0)).
Proof.
  repeat apply conj.
  - apply gross_margin_pct_guard.
  - apply avg_order_value_guard.
  - apply target_attainment_guard.
  - apply revenue_per_employee_guard.
  - apply top10_revenue_share_guard.
  - intros self v monthly Hv Hm. split.
    + apply monthly_revenue_length. exact Hm.
    + apply (revenue_growth_mom_guard self v monthly Hv Hm).
  - intros id fn self Hfn Hraise.
    exact (kpi_methods_no_zero_division id fn self Hfn _ Hraise eq_refl).
  - apply kpi_methods_total.
  - apply ratio_kpis_on_empty.
Qed.

(** ** Equality of cells *)

Lemma feqb_sym a b : feqb a b = feqb b a.
Proof.
  destruct a as [| | |p], b as [| | |q]; simpl; try reflexivity.
  destruct (Qeq_bool p q) eqn:H1, (Qeq_bool q p) eqn:H2; try reflexivity.
  - apply Qeq_bool_eq in H1. symmetry in H1. apply Qeq_eq_bool in H1. congruence.
  - apply Qeq_bool_eq in H2. symmetry in H2. apply Qeq_eq_bool in H2. congruence.
Qed.

Lemma feqb_trans a b c : feqb a b = true -> feqb b c = true -> feqb a c = true.
Proof.
  destruct a as [| | |p], b as [| | |q], c as [| | |r]; simpl; try congruence.
  intros H1 H2. apply Qeq_bool_eq in H1, H2. apply Qeq_eq_bool.
  rewrite H1. exact H2.
Qed.

Lemma same_float_sym x y : same_float x y = same_float y x.
Proof. unfold same_float. rewrite (andb_comm (is_nan x)), (feqb_sym x y). reflexivity. Qed.

Lemma same_float_trans x y z :
  same_float x y = true -> same_float y z = true -> same_float x z = true.
Proof.
  unfold same_float. intros H1 H2.
  apply orb_prop in H1. apply orb_prop in H2. apply orb_true_iff.
  destruct H1 as [H1 | H1], H2 as [H2 | H2].
  - apply andb_prop in H1, H2. left. apply andb_true_intro.
    destruct H1, H2. split; assumption.
  - apply andb_prop in H1. destruct H1 as [_ H1].
    destruct y; try discriminate; destruct z; discriminate.
  - apply andb_prop in H2. destruct H2 as [H2 _].
    destruct y; try discriminate; destruct x; discriminate.
  - right. exact (feqb_trans _ _ _ H1 H2).
Qed.

Lemma cell_eqb_sym a b : cell_eqb a b = cell_eqb b a.
Proof.
  destruct a as [x|s|u|t], b as [y|s'|u'|t']; simpl;
    try reflexivity; try apply same_float_sym.
  - apply String.eqb_sym.
  - apply Z.eqb_sym.
Qed.

Lemma cell_eqb_trans a b c :
  cell_eqb a b = true -> cell_eqb b c = true -> cell_eqb a c = true.
Proof.
  destruct a as [x|s|u|t], b as [y|s'|u'|t'], c as [z|s''|u''|t''];
    try (simpl; congruence); try (simpl; apply same_float_trans).
  - simpl. intros H1 H2. apply String.eqb_eq in H1, H2. apply String.eqb_eq. congruence.
  - simpl. intros H1 H2. apply Z.eqb_eq in H1, H2. apply Z.eqb_eq. congruence.
Qed.

(** ** drop_duplicates leaves at most one row per key *)

Lemma keep_first_fresh key seen l r :
  In r (keep_first key seen l) -> cell_in (key r) seen = false.
Proof.
  revert seen. induction l as [|x l IH]; simpl; intros seen H; [destruct H |].
  destruct (cell_in (key x) seen) eqn:Hx.
  - exact (IH _ H).
  - destruct H as [<- | H]; [exact Hx |].
    apply IH in H. simpl in H. apply orb_false_elim in H. destruct H; assumption.
Qed.

Lemma keep_first_unique key seen l k :
  (length (List.filter (fun r => cell_eqb k (key r)) (keep_first key seen l)) <= 1)%nat.
Proof.
  revert seen. induction l as [|x l IH]; simpl; intros seen; [lia |].
  destruct (cell_in (key x) seen); [apply IH |].
  simpl. destruct (cell_eqb k (key x)) eqn:Hk; [| apply IH].
  simpl. rewrite filter_none; [simpl; lia |].
  apply Forall_forall. intros r Hr. apply list_elem_of_In in Hr.
  apply keep_first_fresh in Hr. simpl in Hr. apply orb_false_elim in Hr.
  destruct Hr as [Hr _].
  destruct (cell_eqb k (key r)) eqn:Hkr; [| reflexivity].
  rewrite cell_eqb_sym in Hkr.
  rewrite (cell_eqb_trans _ _ _ Hkr Hk) in Hr. discriminate.
Qed.

(** Runs through every step of a computation that returned. *)
Ltac bind_all H :=
  repeat (apply bind_ok in H; destruct H as (? & ? & H)).

Lemma transform_dim_date_unique raw dd k :
  transform_dim_date raw = Ok dd ->
  (length (List.filter (fun r : Row => cell_eqb k (r "date_key")) (rows dd)) <= 1)%nat.
Proof.
  unfold transform_dim_date. intros H. bind_all H. injection H as <-.
  match goal with
  | Hd : drop_duplicates _ _ = Ok _ |- _ =>
      unfold drop_duplicates in Hd;
      destruct (has_column _ "date_key"); [injection Hd as <- | discriminate Hd]
  end.
  simpl. apply keep_first_unique.
Qed.

(** ** The merge with the date dimension *)

Lemma find_none_intro {A : Type} (p : A -> bool) (l : list A) :
  (forall x, In x l -> p x = false) -> find p l = None.
Proof.
  induction l as [|x l IH]; simpl; intros H; [reflexivity |].
  rewrite (H x (or_introl eq_refl)). apply IH. intros y Hy. apply H. right. exact Hy.
Qed.

Lemma merge_row_left overlap (c : string) l r :
  (forall k, In k overlap -> In k ["year"; "month_number"; "month_name"; "quarter"]) ->
  In c ["sales_amount"; "is_revenue_eligible"] ->
  merge_row overlap ["year"; "month_number"; "month_name"; "quarter"] l r c = l c.
Proof.
  intros Hsub Hc. unfold merge_row.
  rewrite !find_none_intro.
  - simpl in Hc. destruct Hc as [<- | [<- | []]]; reflexivity.
  - intros k Hk. apply Hsub in Hk. simpl in Hk, Hc.
    destruct Hc as [<- | [<- | []]];
      repeat (destruct Hk as [<- | Hk]; [reflexivity |]); destruct Hk.
  - intros k Hk. apply Hsub in Hk. simpl in Hk, Hc.
    destruct Hc as [<- | [<- | []]];
      repeat (destruct Hk as [<- | Hk]; [reflexivity |]); destruct Hk.
Qed.

Lemma has_column_In df c : has_column df c = true <-> In c (columns df).
Proof.
  unfold has_column. rewrite existsb_exists. split.
  - intros (x & Hx & He). apply String.eqb_eq in He. subst. exact Hx.
  - intros H. exists c. split; [exact H | apply String.eqb_refl].
Qed.

Lemma mem_In c l : mem c l = true <-> In c l.
Proof.
  unfold mem. rewrite existsb_exists. split.
  - intros (x & Hx & He). apply String.eqb_eq in He. subst. exact Hx.
  - intros H. exists c. split; [exact H | apply String.eqb_refl].
Qed.

(** ** Revenue on the pipeline *)

Lemma dropna_has_column df subset df' c :
  dropna df subset = Ok df' -> In c subset -> has_column df' c = true.
Proof.
  unfold dropna. destruct (find _ subset) eqn:Hf; intros H Hc; [discriminate |].
  injection H as <-. unfold has_column at 1. simpl.
  pose proof (List.find_none _ _ Hf c Hc) as Hn.
  apply negb_false_iff in Hn. exact Hn.
Qed.

Lemma transform_fact_sales_has_sales_amount df dd dp dc de dr out :
  transform_fact_sales df dd dp dc de dr = Ok out ->
  has_column out "sales_amount" = true.
Proof.
  unfold transform_fact_sales. intros H. bind_all H.
  eapply dropna_has_column; [exact H | simpl; auto].
Qed.

Lemma to_numeric_cell_numeric c : numeric (to_numeric_cell c).
Proof.
  unfold numeric. destruct c as [x|s|b|t]; simpl; try (eexists; reflexivity).
  destruct (parse_numeric s); eexists; reflexivity.
Qed.

Lemma map_eq_Forall {A B : Type} (f : A -> B) (P : B -> Prop) (l1 l2 : list A) :
  map f l1 = map f l2 -> Forall (fun x => P (f x)) l2 -> Forall (fun x => P (f x)) l1.
Proof.
  intros Hmap H. apply (Forall_map f P) in H. apply (Forall_map f P).
  rewrite Hmap. exact H.
Qed.

Lemma transform_fact_sales_flag df dd dp dc de dr out :
  transform_fact_sales df dd dp dc de dr = Ok out ->
  Forall (fun r : Row =>
            r "is_revenue_eligible" = Bool (negb (cancelled r)) /\
            numeric (r "sales_amount"))
         (rows out).
Proof.
  intros H. apply transform_fact_sales_rowwise in H.
  destruct H as (post & Hrows & Hpost). unfold rowwise in Hrows. rewrite Hrows.
  apply Forall_map, Forall_forall. intros r _.
  destruct (Hpost r) as (Hsame & Hnum & Hflag). simpl. split.
  - unfold cancelled. rewrite (Hsame "order_status") by reflexivity. exact Hflag.
  - rewrite (Hnum "sales_amount") by (unfold numeric_cols; simpl; auto).
    apply to_numeric_cell_numeric.
Qed.

Lemma map_const_repeat {A B : Type} (c : B) (l : list A) :
  map (fun _ => c) l = repeat c (length l).
Proof. induction l as [|x l IH]; simpl; [reflexivity | rewrite IH; reflexivity]. Qed.

Lemma flat_map_per_match {A B C D : Type} (pick : A -> list B) (g : A -> B -> C)
  (d : B) (f : C -> D) (h : A -> D) (l : list A) :
  (forall x y, f (g x y) = h x) ->
  map f (flat_map (fun x => match pick x with
                            | [] => [g x d]
                            | ys => map (g x) ys
                            end) l)
  = flat_map (fun x => repeat (h x) (Nat.max 1 (length (pick x)))) l.
Proof.
  intros Hg. induction l as [|x l IH]; [reflexivity |].
  cbn [flat_map]. rewrite map_app, IH. f_equal.
  destruct (pick x) as [|y ys]; [simpl; rewrite Hg; reflexivity |].
  rewrite map_map. rewrite (map_ext _ (fun _ => h x)) by (intros; apply Hg).
  rewrite map_const_repeat. reflexivity.
Qed.

Lemma length_flat_map_repeat {A B : Type} (h : A -> B) (n : A -> nat) (l : list A) :
  length (flat_map (fun x => repeat (h x) (n x)) l) = list_sum (map n l).
Proof.
  induction l as [|x l IH]; [reflexivity |].
  cbn [flat_map map list_sum]. rewrite length_app, repeat_length, IH. reflexivity.
Qed.

Lemma list_sum_ge_length {A : Type} (n : A -> nat) (l : list A) :
  (forall x, (1 <= n x)%nat) -> (length l <= list_sum (map n l))%nat.
Proof.
  intros Hn. induction l as [|x l IH]; simpl; [lia |]. specialize (Hn x). lia.
Qed.

Lemma KPICalculator_init_ok processed catalog calc :
  KPICalculator_init processed catalog = Ok calc ->
  exists fact_df dd dates,
    processed !! "fact_sales" = Some (Parsed fact_df) /\
    processed !! "dim_date" = Some (Parsed dd) /\
    has_column fact_df "is_revenue_eligible" = true /\
    columns dates = ["date_key"; "year"; "month_number"; "month_name"; "quarter"] /\
    rows dates = rows dd /\
    merge_left {| columns := columns fact_df; rows := eligible_rows fact_df |}
      dates "date_key" (dtype_of (column fact_df "date_key")) = Ok (eligible calc).
Proof.
  unfold KPICalculator_init. intros H.
  bind_inv H as fact_df Hf. bind_inv H as dd Hd. bind_inv H as flag Hflag.
  bind_inv H as dates Hdates. bind_inv H as merged Hm. injection H as <-.
  apply load_ok in Hf, Hd. apply getitem_ok in Hflag. destruct Hflag as [Hcol ->].
  exists fact_df, dd, dates.
  split; [exact Hf |]. split; [exact Hd |]. split; [exact Hcol |].
  unfold getitem_cols in Hdates.
  destruct (find _ _); [discriminate |]. injection Hdates as <-.
  split; [reflexivity |]. split; [reflexivity |].
  cbn [eligible]. rewrite <- Hm. f_equal.
  unfold getitem_mask, eligible_rows. f_equal.
  rewrite map_map. symmetry.
  apply (select_map (fun r : Row => eq_True (r "is_revenue_eligible"))).
Qed.

Lemma length_filter_map {A B : Type} (f : A -> B) (p : B -> bool) (l : list A) :
  length (List.filter (fun x => p (f x)) l) = length (List.filter p (map f l)).
Proof.
  induction l as [|x l IH]; [reflexivity |]. simpl.
  destruct (p (f x)); simpl; rewrite IH; reflexivity.
Qed.

Lemma no_duplicate_value_matches s k :
  no_duplicate_value s -> (length (List.filter (cell_eqb k) s) <= 1)%nat.
Proof.
  unfold no_duplicate_value. induction 1 as [|a l Ha _ IH]; simpl; [lia |].
  destruct (cell_eqb k a) eqn:Hk; [| exact IH].
  simpl. rewrite filter_none; [simpl; lia |].
  apply Forall_forall. intros x Hx.
  rewrite List.Forall_forall in Ha. apply list_elem_of_In in Hx. specialize (Ha x Hx).
  destruct (cell_eqb k x) eqn:Hkx; [| reflexivity].
  rewrite cell_eqb_sym in Hkx.
  rewrite (cell_eqb_trans _ _ _ Hkx Hk) in Ha. discriminate.
Qed.

(** A key column without a duplicate lists every left row once. *)
Lemma copies_unique dd on l :
  no_duplicate_value (column dd on) -> copies dd on l = 1%nat.
Proof.
  intros H. unfold copies, matches.
  rewrite (length_filter_map (fun r : Row => r on) (cell_eqb (l on))).
  pose proof (no_duplicate_value_matches _ (l on) H) as Hm. unfold column in Hm. lia.
Qed.

Lemma flat_map_repeat_once {A B : Type} (h : A -> B) (n : A -> nat) (l : list A) :
  (forall x, n x = 1%nat) -> flat_map (fun x => repeat (h x) (n x)) l = map h l.
Proof.
  intros Hn. induction l as [|x l IH]; [reflexivity |].
  cbn [flat_map map]. rewrite Hn, IH. reflexivity.
Qed.

(** C4.  [transform_fact_sales] sets [is_revenue_eligible] to
    True exactly on the rows whose order status is not Cancelled.  The
    calculator works on the rows of the loaded fact table whose flag is
    True, each listed once for every row of the loaded dim_date that has
    its date key, and once when no row has it: [kpi_total_revenue] returns
    the sum of [sales_amount] over this list.  On a fact table loaded with
    the flag as the transform sets it, these are the rows that are not
    cancelled, so a cancelled row contributes nothing; and when no date key
    is twice in dim_date the total is the sum of [sales_amount] over the
    rows that are not cancelled. *)
Theorem total_revenue_counts_rows_once_per_date :
  (forall raw dd dp dc de dr fact,
     transform_fact_sales raw dd dp dc de dr = Ok fact ->
     Forall (fun r : Row => r "is_revenue_eligible" = Bool (negb (cancelled r)))
            (rows fact)) /\
  (forall processed catalog calc fact_df dd,
     KPICalculator_init processed catalog = Ok calc ->
     processed !! "fact_sales" = Some (Parsed fact_df) ->
     processed !! "dim_date" = Some (Parsed dd) ->
     Forall (fun r : Row => eq_True (r "is_revenue_eligible") = true)
            (rows (eligible calc)) /\
     column (eligible calc) "sales_amount"
     = flat_map (fun r : Row => repeat (r "sales_amount") (copies dd "date_key" r))
         (eligible_rows fact_df) /\
     kpi_total_revenue calc
     = (if has_column fact_df "sales_amount"
        then series_sum
               (flat_map (fun r : Row => repeat (r "sales_amount") (copies dd "date_key" r))
                  (eligible_rows fact_df))
        else Raise (KeyError "sales_amount")) /\
     (Forall (fun r : Row => eq_True (r "is_revenue_eligible") = negb (cancelled r))
             (rows fact_df) ->
      has_column fact_df "sales_amount" = true ->
      kpi_total_revenue calc
      = series_sum
          (flat_map (fun r : Row => repeat (r "sales_amount") (copies dd "date_key" r))
             (List.filter (fun r => negb (cancelled r)) (rows fact_df))) /\
      (no_duplicate_value (column dd "date_key") ->
       kpi_total_revenue calc
       = series_sum (map (fun r : Row => r "sales_amount")
                       (List.filter (fun r => negb (cancelled r)) (rows fact_df)))))).
Proof.
  split.
  - intros raw dd dp dc de dr fact H.
    apply transform_fact_sales_flag in H.
    eapply List.Forall_impl; [| exact H]. intros r [Hr _]. exact Hr.
  - intros processed catalog calc fact_df dd Hinit Hf Hd.
    apply KPICalculator_init_ok in Hinit.
    destruct Hinit as (fact_df' & dd' & dates & Hf' & Hd' & _ & Hcols & Hrows & Hm).
    assert (fact_df' = fact_df) by congruence. assert (dd' = dd) by congruence. subst.
    set (left := {| columns := columns fact_df; rows := eligible_rows fact_df |}) in *.
    unfold merge_left in Hm.
    destruct (has_column left "date_key"); [| discriminate].
    destruct (has_column dates "date_key"); [| discriminate].
    destruct (incompatible_keys _ _ _ _); [discriminate |].
    cbn [negb] in Hm. injection Hm as Hm. rewrite Hcols in Hm.
    change (List.filter (fun c0 : string => negb (String.eqb c0 "date_key"))
              ["date_key"; "year"; "month_number"; "month_name"; "quarter"])
      with ["year"; "month_number"; "month_name"; "quarter"] in Hm.
    set (others := ["year"; "month_number"; "month_name"; "quarter"]) in *.
    set (overlap := List.filter (fun c => has_column left c) others) in *.
    assert (Hsub : forall k, In k overlap -> In k others).
    { intros k Hk. apply filter_In in Hk. destruct Hk; assumption. }
    assert (Hcol : forall c, In c ["sales_amount"; "is_revenue_eligible"] ->
                     column (eligible calc) c
                     = flat_map (fun l : Row => repeat (l c) (copies dd "date_key" l))
                         (eligible_rows fact_df)).
    { intros c Hc. unfold column. rewrite <- Hm. cbn [rows]. rewrite Hrows.
      apply (flat_map_per_match
               (fun l : Row => List.filter (fun r : Row => cell_eqb (l "date_key") (r "date_key"))
                                 (rows dd))
               (fun l r => merge_row overlap others l r)
               (fun _ => Null) (fun r : Row => r c) (fun l => l c)).
      intros l r. apply merge_row_left; assumption. }
    assert (Htotal : kpi_total_revenue calc
                     = (if has_column fact_df "sales_amount"
                        then series_sum
                               (flat_map (fun r : Row =>
                                            repeat (r "sales_amount") (copies dd "date_key" r))
                                  (eligible_rows fact_df))
                        else Raise (KeyError "sales_amount"))).
    { unfold kpi_total_revenue, getitem.
      assert (Hhas : has_column (eligible calc) "sales_amount"
                     = has_column fact_df "sales_amount").
      { apply eq_true_iff_eq. rewrite !has_column_In. rewrite <- Hm. cbn [columns].
        rewrite in_app_iff, !in_map_iff. split.
        - intros [(c & Hc & Hin) | (c & Hc & Hin)].
          + destruct (mem c overlap) eqn:Eo.
            * apply mem_In, Hsub in Eo. simpl in Eo.
              repeat (destruct Eo as [<- | Eo]; [discriminate Hc |]). destruct Eo.
            * subst c. exact Hin.
          + simpl in Hin.
            repeat (destruct Hin as [<- | Hin];
                    [destruct (mem _ overlap); discriminate Hc |]).
            destruct Hin.
        - intros Hin. left. exists "sales_amount". split; [| exact Hin].
          destruct (mem "sales_amount" overlap) eqn:Eo; [| reflexivity].
          apply mem_In, Hsub in Eo. simpl in Eo.
          repeat (destruct Eo as [Eo | Eo]; [discriminate Eo |]). destruct Eo. }
      rewrite Hhas. destruct (has_column fact_df "sales_amount"); [| reflexivity].
      cbn [bind]. f_equal. apply (Hcol "sales_amount"). simpl. auto. }
    split; [| split; [apply Hcol; simpl; auto | split; [exact Htotal |]]].
    + apply (Forall_map (fun r : Row => r "is_revenue_eligible")
               (fun c => eq_True c = true)).
      fold (column (eligible calc) "is_revenue_eligible").
      rewrite Hcol by (simpl; auto).
      apply List.Forall_forall. intros c Hc. apply in_flat_map in Hc.
      destruct Hc as (r & Hr & Hc). apply repeat_spec in Hc. subst c.
      unfold eligible_rows in Hr. apply filter_In in Hr. destruct Hr as [_ Hr]. exact Hr.
    + intros Hflag Hsa. rewrite Htotal, Hsa.
      assert (Hrows' : eligible_rows fact_df
                       = List.filter (fun r => negb (cancelled r)) (rows fact_df)).
      { unfold eligible_rows. apply filter_ext_in. intros r Hr.
        rewrite List.Forall_forall in Hflag. exact (Hflag r Hr). }
      rewrite Hrows'. split; [reflexivity |].
      intros Hnd. f_equal. apply flat_map_repeat_once. intros r.
      apply copies_unique. exact Hnd.
Qed.

(** ** The foreign-key check *)

Lemma check_fk_integrity_present df fk ref_df ref_col tbl ref_table report :
  has_column df fk = true -> has_column ref_df ref_col = true ->
  check_fk_integrity df fk ref_df ref_col tbl ref_table report
  = Ok (add report (fk_result df fk ref_df ref_col tbl ref_table)).
Proof.
  intros Hfk Href. unfold check_fk_integrity.
  rewrite (getitem_has _ _ Hfk), (getitem_has _ _ Href). cbn [bind].
  unfold fk_result, orphan_rows, column, isin.
  rewrite !map_map, count_true_map. reflexivity.
Qed.

Lemma check_fk_integrity_ok df fk ref_df ref_col tbl ref_table report report' :
  check_fk_integrity df fk ref_df ref_col tbl ref_table report = Ok report' ->
  report' = add report (fk_result df fk ref_df ref_col tbl ref_table).
Proof.
  intros H. pose proof H as H0. unfold check_fk_integrity in H0.
  bind_inv H0 as s Hs. bind_inv H0 as s' Hs'.
  apply getitem_ok in Hs, Hs'. destruct Hs as [Hfk _], Hs' as [Href _].
  rewrite (check_fk_integrity_present _ _ _ _ tbl ref_table report Hfk Href) in H.
  injection H as <-. reflexivity.
Qed.

Lemma length_filter_0 {A : Type} (p : A -> bool) (l : list A) :
  length (List.filter p l) = 0%nat <-> Forall (fun x => p x = false) l.
Proof.
  induction l as [|x l IH]; simpl.
  - split; [constructor | reflexivity].
  - destruct (p x) eqn:E; simpl.
    + split; [discriminate |]. intros H. inversion H; subst. congruence.
    + rewrite IH. split; [intros H; constructor; assumption |].
      intros H. inversion H; subst. assumption.
Qed.

Lemma cell_in_null s :
  cell_in Null s = true <-> Exists (fun c => isnull c = true) s.
Proof.
  unfold cell_in. induction s as [|c s IH]; simpl.
  - split; [discriminate | intros H; inversion H].
  - rewrite orb_true_iff, IH. split.
    + intros [H | H]; [left | right; exact H].
      destruct c as [[| | |q]|t|[]|t]; simpl in *; try discriminate; reflexivity.
    + intros H. inversion H as [? ? Hc | ? ? Hs]; subst; [left | right; exact Hs].
      apply isnull_true in Hc. subst c. reflexivity.
Qed.

(** X1.  [check_fk_integrity] adds one ERROR result whose row count is the
    number of rows whose foreign key does not occur in the referenced
    column; the result passes exactly when every row's key occurs there.
    Keys are compared as [isin] does: a null key is an orphan unless the
    referenced column holds a null. *)
Theorem check_fk_integrity_counts_orphans df fk ref_df ref_col tbl ref_table report :
  has_column df fk = true -> has_column ref_df ref_col = true ->
  check_fk_integrity df fk ref_df ref_col tbl ref_table report
  = Ok (add report (fk_result df fk ref_df ref_col tbl ref_table)) /\
  severity (fk_result df fk ref_df ref_col tbl ref_table) = "ERROR" /\
  row_count (fk_result df fk ref_df ref_col tbl ref_table)
  = length (orphan_rows df fk ref_df ref_col) /\
  (passed (fk_result df fk ref_df ref_col tbl ref_table) = true <->
   Forall (fun r : Row => cell_in (r fk) (column ref_df ref_col) = true) (rows df)) /\
  (forall r, In r (rows df) -> isnull (r fk) = true ->
     (In r (orphan_rows df fk ref_df ref_col) <->
      Forall (fun c => isnull c = false) (column ref_df ref_col))).
Proof.
  intros Hfk Href.
  split; [apply check_fk_integrity_present; assumption |].
  split; [reflexivity |]. split; [reflexivity |]. split.
  - unfold fk_result. cbn [passed]. rewrite Nat.eqb_eq. unfold orphan_rows.
    rewrite length_filter_0. split; intros H; eapply List.Forall_impl; try exact H;
      cbv beta; intros r Hr.
    + apply negb_false_iff in Hr. exact Hr.
    + rewrite Hr. reflexivity.
  - intros r Hin Hnull. apply isnull_true in Hnull. unfold orphan_rows.
    rewrite filter_In, Hnull, negb_true_iff. split.
    + intros [_ H]. apply List.Forall_forall. intros c Hc.
      destruct (isnull c) eqn:E; [| reflexivity].
      assert (Hex : cell_in Null (column ref_df ref_col) = true).
      { apply cell_in_null, List.Exists_exists. exists c. split; assumption. }
      congruence.
    + intros H. split; [exact Hin |].
      destruct (cell_in Null (column ref_df ref_col)) eqn:E; [| reflexivity].
      apply cell_in_null, List.Exists_exists in E. destruct E as (c & Hc & Hn).
      rewrite List.Forall_forall in H. rewrite (H c Hc) in Hn. discriminate.
Qed.


(** ** The transformed tables under the validator *)

Lemma has_column_setitem df c' s c :
  has_column df c = true -> has_column (setitem df c' s) c = true.
Proof.
  intros H. unfold setitem, has_column at 1. cbn [columns].
  destruct (has_column df c'); [exact H |].
  rewrite existsb_app. unfold has_column in H. rewrite H. reflexivity.
Qed.

(** A column read earlier in a transform is a column of a later frame. *)
Ltac column_kept :=
  repeat first
    [ match goal with
      | Hg : getitem ?d ?c = Ok _ |- has_column ?d ?c = true =>
          exact (proj1 (getitem_ok _ _ _ Hg))
      | |- has_column (getitem_mask ?d ?m) ?c = true =>
          change (has_column d c = true)
      end
    | apply has_column_setitem ].

Lemma transform_fact_sales_key_columns df dd dp dc de dr out :
  transform_fact_sales df dd dp dc de dr = Ok out ->
  Forall (fun x : string * DataFrame * string =>
            has_column out (fst (fst x)) = true /\
            has_column (snd (fst x)) (fst (fst x)) = true)
         (fact_foreign_keys dd dp dc de dr).
Proof.
  unfold transform_fact_sales. intros H. bind_all H.
  apply dropna_ok in H. destruct H as [Hcols _].
  unfold fact_foreign_keys.
  repeat (apply List.Forall_cons; [cbn [fst snd]; split |]); try apply List.Forall_nil;
    try (unfold has_column at 1; rewrite Hcols;
         match goal with
         | |- existsb (String.eqb ?c) (columns ?d) = true =>
             change (has_column d c = true)
         end);
    column_kept.
Qed.

Lemma transform_fact_sales_keys_in df dd dp dc de dr out :
  transform_fact_sales df dd dp dc de dr = Ok out ->
  Forall (fun r' : Row => fk_ok dd dp dc de dr r' = true) (rows out).
Proof.
  intros H. apply transform_fact_sales_rowwise in H. destruct H as (post & Hrows & Hpost).
  unfold rowwise in Hrows. rewrite Hrows. apply Forall_map, List.Forall_forall.
  intros r Hr. apply filter_In in Hr. destruct Hr as [_ Hr].
  apply andb_prop in Hr. destruct Hr as [Hr _].
  rewrite (fact_row_out_keys dd dp dc de dr _ _ (Hpost r)). exact Hr.
Qed.

Lemma validate_fact_sales_fk_results df dd dp dc de dr report report' :
  validate_fact_sales df dd dp dc de dr report = Ok report' ->
  Forall (fun x : string * DataFrame * string =>
            In (fk_result df (fst (fst x)) (snd (fst x)) (fst (fst x)) "fact_sales" (snd x))
               (results report'))
         (fact_foreign_keys dd dp dc de dr).
Proof.
  unfold validate_fact_sales. intros H.
  bind_inv H as r1 H1. bind_inv H as r2 H2.
  bind_inv H as r3 H3. bind_inv H as r4 H4. bind_inv H as r5 H5.
  bind_inv H as r6 H6. bind_inv H as r7 H7.
  apply check_fk_integrity_ok in H3, H4, H5, H6, H7.
  match type of H with
  | ?m = Ok _ => assert (Hrest : grows_from r7 m) by (cbv zeta; grows_tac)
  end.
  apply Hrest in H.
  assert (Hin : forall x, In x (results r7) -> In x (results report'))
    by (intros x Hx; eapply extends_In; eassumption).
  subst r7 r6 r5 r4 r3. unfold fact_foreign_keys.
  repeat (apply List.Forall_cons; [cbn [fst snd]; apply Hin |]); try apply List.Forall_nil;
    unfold add; cbn [results]; rewrite !in_app_iff; simpl; auto 10.
Qed.

(** X2.  The table [transform_fact_sales] returns passes the five
    foreign-key checks of [validate_fact_sales] against the dimension tables
    it was filtered with: each check finds no orphan row and adds a passed
    result, and every report [validate_fact_sales] completes on that table
    holds these five results. *)
Theorem transformed_fact_passes_fk_checks df dd dp dc de dr out :
  transform_fact_sales df dd dp dc de dr = Ok out ->
  Forall (fun x : string * DataFrame * string =>
            let k := fst (fst x) in
            let dim := snd (fst x) in
            let name := snd x in
            orphan_rows out k dim k = [] /\
            passed (fk_result out k dim k "fact_sales" name) = true /\
            (forall report,
               check_fk_integrity out k dim k "fact_sales" name report
               = Ok (add report (fk_result out k dim k "fact_sales" name))) /\
            (forall report report',
               validate_fact_sales out dd dp dc de dr report = Ok report' ->
               In (fk_result out k dim k "fact_sales" name) (results report')))
         (fact_foreign_keys dd dp dc de dr).
Proof.
  intros H.
  pose proof (transform_fact_sales_key_columns _ _ _ _ _ _ _ H) as Hcols.
  pose proof (transform_fact_sales_keys_in _ _ _ _ _ _ _ H) as Hkeys.
  assert (Hno : Forall (fun x : string * DataFrame * string =>
                          orphan_rows out (fst (fst x)) (snd (fst x)) (fst (fst x)) = [])
                       (fact_foreign_keys dd dp dc de dr)).
  { unfold fact_foreign_keys, orphan_rows.
    repeat (apply List.Forall_cons; [cbn [fst snd] |]); try apply List.Forall_nil;
      apply filter_none; eapply Forall_impl; try exact Hkeys;
      cbv beta; intros r Hr; unfold fk_ok in Hr;
      repeat (apply andb_prop in Hr; let H' := fresh in destruct Hr as [Hr H']);
      apply negb_false_iff; assumption. }
  apply List.Forall_forall. intros x Hx.
  rewrite List.Forall_forall in Hcols, Hno.
  specialize (Hcols x Hx). specialize (Hno x Hx). destruct Hcols as [Hc1 Hc2].
  cbv zeta. split; [exact Hno |]. split.
  - unfold fk_result. cbn [passed]. rewrite Hno. reflexivity.
  - split.
    + intros report. apply check_fk_integrity_present; assumption.
    + intros report report' Hv.
      pose proof (validate_fact_sales_fk_results _ _ _ _ _ _ _ _ Hv) as Hres.
      rewrite List.Forall_forall in Hres. exact (Hres x Hx).
Qed.

Lemma dropna_notnull df subset df' c :
  dropna df subset = Ok df' -> In c subset ->
  has_column df' c = true /\ null_count df' c = 0%nat.
Proof.
  intros H Hc. split; [exact (dropna_has_column _ _ _ _ H Hc) |].
  apply dropna_ok in H. destruct H as [_ Hrows].
  unfold null_count. rewrite Hrows. apply length_filter_0, List.Forall_forall.
  intros r Hr. apply filter_In in Hr. destruct Hr as [_ Hr].
  rewrite forallb_forall in Hr. specialize (Hr c Hc).
  unfold notnull in Hr. apply negb_true_iff in Hr. exact Hr.
Qed.

(** X3.  The columns the transforms clean with [dropna] pass the validator's
    null check: the sales amount, cost of goods and quantity of a
    transformed fact table and both prices of a transformed product table
    hold no null, so [check_no_nulls] adds a passed result with row count 0
    for each of them. *)
Theorem transformed_tables_pass_null_checks :
  (forall df dd dp dc de dr out report,
     transform_fact_sales df dd dp dc de dr = Ok out ->
     check_no_nulls out "fact_sales" ["sales_amount"; "cogs"; "quantity"] report
     = Ok {| results := results report
                        ++ map (no_nulls_result out "fact_sales")
                             ["sales_amount"; "cogs"; "quantity"] |} /\
     Forall (fun c => row_count (no_nulls_result out "fact_sales" c) = 0%nat /\
                      passed (no_nulls_result out "fact_sales" c) = true)
            ["sales_amount"; "cogs"; "quantity"]) /\
  (forall df out report,
     transform_dim_product df = Ok out ->
     check_no_nulls out "dim_product" ["unit_cost"; "list_price"] report
     = Ok {| results := results report
                        ++ map (no_nulls_result out "dim_product")
                             ["unit_cost"; "list_price"] |} /\
     Forall (fun c => row_count (no_nulls_result out "dim_product" c) = 0%nat /\
                      passed (no_nulls_result out "dim_product" c) = true)
            ["unit_cost"; "list_price"]).
Proof.
  split.
  - intros df dd dp dc de dr out report H.
    unfold transform_fact_sales in H. bind_all H.
    assert (Hc : forall c, In c ["sales_amount"; "cogs"; "quantity"] ->
                   has_column out c = true /\ null_count out c = 0%nat)
      by (intros c; apply (dropna_notnull _ _ _ _ H)).
    split.
    + apply check_no_nulls_present, List.Forall_forall. intros c Hin. apply Hc, Hin.
    + apply List.Forall_forall. intros c Hin. destruct (Hc c Hin) as [_ Hn].
      unfold no_nulls_result. cbn [row_count passed]. rewrite Hn. auto.
  - intros df out report H.
    unfold transform_dim_product in H. bind_all H.
    assert (Hc : forall c, In c ["unit_cost"; "list_price"] ->
                   has_column out c = true /\ null_count out c = 0%nat)
      by (intros c; apply (dropna_notnull _ _ _ _ H)).
    split.
    + apply check_no_nulls_present, List.Forall_forall. intros c Hin. apply Hc, Hin.
    + apply List.Forall_forall. intros c Hin. destruct (Hc c Hin) as [_ Hn].
      unfold no_nulls_result. cbn [row_count passed]. rewrite Hn. auto.
Qed.


(** ** The date dimension without duplicates *)

Lemma cell_in_equiv k k' s : cell_eqb k k' = true -> cell_in k s = cell_in k' s.
Proof.
  intros Hk. unfold cell_in. induction s as [|c s IH]; simpl; [reflexivity |].
  rewrite IH. f_equal.
  destruct (cell_eqb k c) eqn:E1, (cell_eqb k' c) eqn:E2; try reflexivity.
  - rewrite cell_eqb_sym in Hk. rewrite (cell_eqb_trans _ _ _ Hk E1) in E2. discriminate.
  - rewrite (cell_eqb_trans _ _ _ Hk E2) in E1. discriminate.
Qed.

Lemma keep_first_keys key seen l k :
  cell_in k seen || cell_in k (map key (keep_first key seen l))
  = cell_in k seen || cell_in k (map key l).
Proof.
  revert seen. induction l as [|r l IH]; intros seen; [reflexivity |].
  cbn [keep_first map]. destruct (cell_in (key r) seen) eqn:Hr.
  - rewrite IH. unfold cell_in at 4. cbn [existsb]. fold (cell_in k (map key l)).
    destruct (cell_eqb k (key r)) eqn:Hk; [| reflexivity].
    rewrite (cell_in_equiv _ _ seen Hk), Hr. reflexivity.
  - cbn [map]. specialize (IH (key r :: seen)).
    unfold cell_in in *. cbn [existsb] in *.
    destruct (cell_eqb k (key r)), (existsb (cell_eqb k) seen); simpl in *;
      try reflexivity; exact IH.
Qed.

Lemma keep_first_no_duplicate key seen l :
  no_duplicate_value (map key (keep_first key seen l)).
Proof.
  unfold no_duplicate_value. revert seen.
  induction l as [|r l IH]; intros seen; cbn [keep_first map]; [constructor |].
  destruct (cell_in (key r) seen) eqn:Hr; [apply IH |].
  cbn [map]. constructor; [| apply IH].
  apply Forall_map, List.Forall_forall. intros r' Hr'.
  apply keep_first_fresh in Hr'. simpl in Hr'. apply orb_false_elim in Hr'.
  destruct Hr' as [Hr' _]. exact Hr'.
Qed.

Lemma transform_dim_date_rowwise raw dd :
  transform_dim_date raw = Ok dd ->
  exists post : Row -> Row,
    rows dd = keep_first (fun r : Row => r "date_key") [] (map post (rows raw)) /\
    (forall r c, mem c ["full_date"; "is_weekend"; "is_holiday"] = false ->
       post r c = r c) /\
    has_column dd "date_key" = true.
Proof.
  unfold transform_dim_date. intros H. pose proof (rw_start raw) as R0.
  get_col H as fd Hfd from R0.
  unfold to_datetime in H. map_col H as fd' g1 Hg1 from Hfd.
  pose proof (rw_setitem _ _ _ "full_date" _ _ R0 Hg1) as R1.
  get_col H as iw Hiw from R1.
  pose proof (rw_setitem _ _ _ "is_weekend" _ _ R1
                (rw_map _ _ (fun c => Bool (truth c)) iw Hiw)) as R2.
  get_col H as ih Hih from R2.
  pose proof (rw_setitem _ _ _ "is_holiday" _ _ R2
                (rw_map _ _ (fun c => Bool (truth c)) ih Hih)) as R3.
  bind_inv H as d Hd. injection H as <-.
  unfold drop_duplicates in Hd.
  destruct (has_column _ "date_key") eqn:E; [injection Hd as <- | discriminate Hd].
  match goal with R3 : rowwise _ ?f _ |- _ => exists f end.
  split; [| split].
  - cbn [rows]. f_equal. exact R3.
  - intros r c Hm.
    repeat (apply mem_cons_false in Hm; let E := fresh "E" in destruct Hm as [E Hm]).
    unfold set_cell.
    repeat match goal with E : String.eqb c _ = false |- _ => rewrite E; clear E end.
    reflexivity.
  - exact E.
Qed.

(** X4.  [transform_dim_date] keeps every date key of its input exactly
    once: a key occurs in the result exactly when it occurs in the input,
    no key of the result is equal to an earlier one, so the validator's
    duplicate check on [date_key] passes on the result; and a fact row has
    its date in the result exactly when it has it in the input. *)
Theorem transform_dim_date_keeps_each_key_once raw dd :
  transform_dim_date raw = Ok dd ->
  (forall k, cell_in k (column dd "date_key") = cell_in k (column raw "date_key")) /\
  no_duplicate_value (column dd "date_key") /\
  (forall report,
     check_no_duplicates dd "dim_date" "date_key" report
     = Ok (add report (no_duplicates_result dd "dim_date" "date_key"))) /\
  passed (no_duplicates_result dd "dim_date" "date_key") = true /\
  (forall dp dc de dr r, fk_ok dd dp dc de dr r = fk_ok raw dp dc de dr r).
Proof.
  intros H. apply transform_dim_date_rowwise in H.
  destruct H as (post & Hrows & Hpost & Hcol).
  assert (Hkeys : map (fun r : Row => r "date_key") (map post (rows raw))
                  = column raw "date_key").
  { unfold column. rewrite map_map. apply map_ext. intros r.
    apply Hpost. reflexivity. }
  assert (Hin : forall k, cell_in k (column dd "date_key")
                          = cell_in k (column raw "date_key")).
  { intros k. unfold column at 1. rewrite Hrows.
    pose proof (keep_first_keys (fun r : Row => r "date_key") [] (map post (rows raw)) k)
      as Hk.
    simpl in Hk. rewrite Hk, Hkeys. reflexivity. }
  assert (Hnd : no_duplicate_value (column dd "date_key")).
  { unfold column. rewrite Hrows. apply keep_first_no_duplicate. }
  split; [exact Hin |]. split; [exact Hnd |]. split; [| split].
  - intros report. apply check_no_duplicates_present. exact Hcol.
  - apply no_duplicates_passed_iff. exact Hnd.
  - intros dp dc de dr r. unfold fk_ok. rewrite Hin. reflexivity.
Qed.


(** ** The outline of a validation run *)

(** Runs through the checks of a validation that returned; each generic
    check is replaced by the result it added. *)
Ltac checks_inv H :=
  repeat (apply bind_ok in H;
          let r := fresh "r" in
          let Hr := fresh "Hr" in
          destruct H as (r & Hr & H);
          first [ apply check_no_nulls_ok in Hr
                | apply check_no_duplicates_ok in Hr
                | apply check_value_range_ok in Hr
                | apply check_fk_integrity_ok in Hr
                | idtac ]).

Ltac outline_tac H :=
  checks_inv H;
  try (injection H as <-);
  try (apply check_no_duplicates_ok in H);
  subst;
  unfold add; cbn [results];
  repeat match goal with
    | Hr : results _ = _ |- _ => rewrite Hr; clear Hr
    end;
  rewrite ?map_app, ?map_map, <- ?app_assoc;
  apply (f_equal (app _)); vm_compute; reflexivity.

Lemma validate_dim_date_outline df report report' :
  validate_dim_date df report = Ok report' ->
  map outline (results report') = map outline (results report) ++ plan_dim_date.
Proof. unfold validate_dim_date. intros H. outline_tac H. Qed.

Lemma validate_dim_product_outline df report report' :
  validate_dim_product df report = Ok report' ->
  map outline (results report') = map outline (results report) ++ plan_dim_product.
Proof. unfold validate_dim_product. intros H. outline_tac H. Qed.

Lemma validate_dim_customer_outline df report report' :
  validate_dim_customer df report = Ok report' ->
  map outline (results report') = map outline (results report) ++ plan_dim_customer.
Proof. unfold validate_dim_customer. intros H. outline_tac H. Qed.

Lemma validate_dim_employee_outline df report report' :
  validate_dim_employee df report = Ok report' ->
  map outline (results report') = map outline (results report) ++ plan_dim_employee.
Proof. unfold validate_dim_employee. intros H. outline_tac H. Qed.

Lemma validate_dim_region_outline df report report' :
  validate_dim_region df report = Ok report' ->
  map outline (results report') = map outline (results report) ++ plan_dim_region.
Proof. unfold validate_dim_region. intros H. outline_tac H. Qed.

Lemma validate_fact_sales_outline df dd dp dc de dr report report' :
  validate_fact_sales df dd dp dc de dr report = Ok report' ->
  map outline (results report') = map outline (results report) ++ plan_fact_sales.
Proof. unfold validate_fact_sales. intros H. outline_tac H. Qed.

Lemma run_checks_outline processed report :
  run_checks processed = Ok report -> map outline (results report) = check_plan.
Proof.
  unfold run_checks. intros H.
  bind_inv H as dd Hdd. bind_inv H as dp Hdp. bind_inv H as dc Hdc.
  bind_inv H as de Hde. bind_inv H as dr Hdr. bind_inv H as fs Hfs.
  bind_inv H as r1 H1. bind_inv H as r2 H2. bind_inv H as r3 H3.
  bind_inv H as r4 H4. bind_inv H as r5 H5.
  apply validate_dim_date_outline in H1. apply validate_dim_product_outline in H2.
  apply validate_dim_customer_outline in H3. apply validate_dim_employee_outline in H4.
  apply validate_dim_region_outline in H5. apply validate_fact_sales_outline in H.
  rewrite H, H5, H4, H3, H2, H1. unfold check_plan.
  cbn [results map]. rewrite <- !app_assoc. reflexivity.
Qed.

Lemma filter_length_partition {A : Type} (p : A -> bool) (l : list A) :
  (length (List.filter p l) + length (List.filter (fun x => negb (p x)) l))%nat = length l.
Proof.
  induction l as [|x l IH]; simpl; [reflexivity |].
  destruct (p x); simpl; lia.
Qed.

(** X5.  The checks of a validation run do not depend on the data: every
    report [run_validation] completes holds the same sixty checks, each
    with its table, its name and its severity, in the same order, table by
    table.  All are of severity ERROR except three: the price order of
    products, the segment values of customers and the margin sanity of
    facts, which are WARNING.  Every result is therefore counted as
    passed, as an error or as a warning. *)
Theorem run_checks_fixed_plan processed report :
  run_checks processed = Ok report ->
  map outline (results report) = check_plan /\
  length (results report) = 60%nat /\
  map outline (List.filter (fun r => negb (String.eqb (severity r) "ERROR")) (results report))
  = warning_checks /\
  (passed_count report + length (errors report) + length (warnings report))%nat = 60%nat.
Proof.
  intros H. apply run_checks_outline in H.
  assert (Hlen : length (results report) = 60%nat).
  { rewrite <- (length_map outline), H. reflexivity. }
  assert (Hsev : map severity (results report) = map snd check_plan).
  { rewrite <- H, map_map. reflexivity. }
  split; [exact H |]. split; [exact Hlen |]. split.
  - rewrite <- (filter_map_comm outline (fun o => negb (String.eqb (snd o) "ERROR"))), H.
    reflexivity.
  - unfold passed_count, errors, warnings.
    rewrite <- Hlen, <- (filter_length_partition passed (results report)).
    rewrite <- Nat.add_assoc. f_equal.
    assert (Hall : Forall (fun r => String.eqb (severity r) "ERROR"
                                    || String.eqb (severity r) "WARNING" = true)
                          (results report)).
    { apply List.Forall_forall. intros r Hr.
      assert (Hs : In (severity r) (map snd check_plan))
        by (rewrite <- Hsev; apply in_map; exact Hr).
      remember (severity r) as s eqn:Es. clear Es. vm_compute in Hs.
      repeat (destruct Hs as [<- | Hs]; [reflexivity |]). destruct Hs. }
    clear H Hlen Hsev. induction (results report) as [|r l IH]; [reflexivity |].
    inversion Hall as [|? ? Hr Hl]; subst. specialize (IH Hl). cbn [List.filter].
    destruct (passed r); cbn [negb andb length]; [exact IH |].
    destruct (String.eqb (severity r) "ERROR") eqn:E1.
    + apply String.eqb_eq in E1. rewrite E1. cbn [String.eqb]. simpl. simpl in IH. lia.
    + simpl in Hr. rewrite Hr. simpl. simpl in IH. lia.
Qed.


(** ** How a validation run can end *)

Lemma column_error_KeyError k : column_error (KeyError k).
Proof. exact I. Qed.

Lemma column_error_TypeError : column_error TypeError.
Proof. exact I. Qed.

Local Hint Resolve column_error_KeyError column_error_TypeError : core.

Ltac checks_column_error :=
  unfold check_no_nulls, check_no_duplicates, check_fk_integrity, check_value_range,
    series_lt, series_gt, series_cmp;
  repeat first
    [ raises_only_step
    | match goal with
      | |- raises_only _ (match ?o with Some _ => _ | None => _ end) => destruct o
      end ].

Lemma validate_tables_column_error dd dp dc de dr fs report :
  raises_only column_error
    (do report <- validate_dim_date dd report;
     do report <- validate_dim_product dp report;
     do report <- validate_dim_customer dc report;
     do report <- validate_dim_employee de report;
     do report <- validate_dim_region dr report;
     validate_fact_sales fs dd dp dc de dr report).
Proof.
  unfold validate_dim_date, validate_dim_product, validate_dim_customer,
    validate_dim_employee, validate_dim_region, validate_fact_sales.
  checks_column_error.
Qed.

Lemma load_unread processed t :
  unread processed t = true ->
  load processed t
  = Raise (match processed !! t with
           | Some (Unparsable NoColumns) => EmptyDataError
           | Some (Unparsable BadLine) => ParserError
           | Some (Unparsable BadEncoding) => UnicodeDecodeError
           | _ => FileNotFoundError (t ++ ".csv")
           end).
Proof.
  unfold unread, load. destruct (processed !! t) as [[df|[| |]]|]; intros H;
    try discriminate; reflexivity.
Qed.

Lemma load_read processed t :
  unread processed t = false -> exists df, load processed t = Ok df.
Proof.
  unfold unread, load. destruct (processed !! t) as [[df|why]|]; intros H;
    try discriminate. exists df. reflexivity.
Qed.

(** X6.  How [run_validation] can end.  It never returns False: a failed
    validation leaves by [sys.exit(1)].  The six files are read before any
    check runs, in the order dim_date, dim_product, dim_customer,
    dim_employee, dim_region, fact_sales: for the first table whose file is
    missing or cannot be parsed it raises what [read_csv] raises,
    FileNotFoundError for a missing file and EmptyDataError, ParserError or
    UnicodeDecodeError for a file that is there.  When all six files are
    parsed, the only other ways out are a KeyError for a column a check
    reads and a TypeError for a cell a comparison cannot order. *)
Theorem run_validation_outcomes processed :
  run_validation processed <> Ok false /\
  (forall t, find (unread processed) validation_tables = Some t ->
     run_validation processed
     = Raise (match processed !! t with
              | Some (Unparsable NoColumns) => EmptyDataError
              | Some (Unparsable BadLine) => ParserError
              | Some (Unparsable BadEncoding) => UnicodeDecodeError
              | _ => FileNotFoundError (t ++ ".csv")
              end)) /\
  (find (unread processed) validation_tables = None ->
     forall e, run_validation processed = Raise e ->
       e = SystemExit 1 \/ e = TypeError \/ exists c, e = KeyError c).
Proof.
  split; [| split].
  - unfold run_validation. intros H. bind_inv H as report Hr.
    destruct (print_summary report); simpl in H; discriminate.
  - intros t Ht. unfold run_validation, run_checks.
    unfold validation_tables in Ht. cbn [find] in Ht.
    repeat match type of Ht with
      | (if unread processed ?k then _ else _) = _ =>
          let E := fresh "E" in
          destruct (unread processed k) eqn:E;
          [ injection Ht as <-; rewrite (load_unread _ _ E); reflexivity
          | destruct (load_read _ _ E) as [? ->]; cbn [bind] ]
      end.
    discriminate.
  - unfold validation_tables, unread, run_validation, run_checks, load. cbn [find].
    intros Hm e.
    repeat match type of Hm with
      | context [processed !! ?k] =>
          destruct (processed !! k) as [[?|?]|]; [| discriminate Hm ..]
      end.
    cbn [bind]. intros H. apply bind_raise in H. destruct H as [H | (report & _ & H)].
    + apply validate_tables_column_error in H.
      destruct e; simpl in H; try contradiction; eauto.
    + destruct (print_summary report); simpl in H; [discriminate |].
      injection H as <-. left. reflexivity.
Qed.

(** ** What the generic checks do on a missing column or on text *)

Lemma mapM_raise {A B : Type} (f : A -> result B) (e : exn) (l : list A) :
  (forall x e', f x = Raise e' -> e' = e) ->
  Exists (fun x => exists e', f x = Raise e') l ->
  mapM f l = Raise e.
Proof.
  intros Hf Hex. induction l as [|x l IH]; [inversion Hex |]. simpl.
  destruct (f x) as [y|e'] eqn:Hx; simpl.
  - inversion Hex as [? ? (e'' & He'') | ? ? Hl]; subst; [congruence |].
    rewrite (IH Hl). reflexivity.
  - rewrite (Hf x e' Hx). reflexivity.
Qed.

Lemma foldM_first_raise {A S : Type} (f : S -> A -> result S) (p : A -> bool)
  (err : A -> exn) (l : list A) (s : S) (x : A) :
  (forall s x, if p x then f s x = Raise (err x) else exists s', f s x = Ok s') ->
  find p l = Some x ->
  foldM f l s = Raise (err x).
Proof.
  intros Hf Hfind. revert s.
  induction l as [|y l IH]; intros s; [discriminate |].
  simpl in Hfind. simpl. specialize (Hf s y) as Hy.
  destruct (p y).
  - injection Hfind as ->. rewrite Hy. reflexivity.
  - destruct Hy as [s' ->]. simpl. apply IH. exact Hfind.
Qed.

Lemma not_numeric_raises c : ~ numeric c <-> as_float c = Raise TypeError.
Proof.
  unfold numeric. destruct c as [x|s|b|t]; simpl.
  - split; [intros H; exfalso; apply H; eauto | discriminate].
  - split; [reflexivity | intros _ [x H]; discriminate].
  - split; [intros H; exfalso; apply H; eauto | discriminate].
  - split; [reflexivity | intros _ [x H]; discriminate].
Qed.

Lemma series_cmp_scalar_text (f : float64 -> float64 -> bool) (k : float64) (s : Series) :
  Exists (fun c => ~ numeric c) s ->
  mapM (fun c => do x <- as_float c; Ok (f x k)) s = Raise TypeError.
Proof.
  intros H. apply mapM_raise.
  - intros c e' Hc. destruct c; simpl in Hc; congruence.
  - eapply List.Exists_impl; [| exact H]. cbv beta. intros c Hc.
    apply not_numeric_raises in Hc. exists TypeError. rewrite Hc. reflexivity.
Qed.

(** X7.  What the generic checks do on a column that is missing or holds
    text.  [check_no_nulls] raises KeyError for the first listed column the
    table does not have; [check_no_duplicates] and [check_fk_integrity] raise
    it for the key column, the foreign key before the referenced one.
    [check_value_range] reads the column only for a bound that is given:
    with no bound it adds a passed result whatever the table holds, with a
    bound it raises KeyError for a missing column and, on a column that is
    there, returns exactly when every cell is a number or null (text and
    timestamps raise TypeError). *)
Theorem generic_checks_on_bad_columns :
  (forall df tbl cols report c,
     find (fun c => negb (has_column df c)) cols = Some c ->
     check_no_nulls df tbl cols report = Raise (KeyError c)) /\
  (forall df tbl pk report,
     has_column df pk = false ->
     check_no_duplicates df tbl pk report = Raise (KeyError pk)) /\
  (forall df fk ref_df ref_col tbl ref_table report,
     (has_column df fk = false ->
      check_fk_integrity df fk ref_df ref_col tbl ref_table report = Raise (KeyError fk)) /\
     (has_column df fk = true -> has_column ref_df ref_col = false ->
      check_fk_integrity df fk ref_df ref_col tbl ref_table report
      = Raise (KeyError ref_col))) /\
  (forall df tbl col report sev,
     check_value_range df tbl col None None report sev
     = Ok (add report (range_result tbl col None None sev 0))) /\
  (forall df tbl col lo hi report sev,
     lo <> None \/ hi <> None ->
     (has_column df col = false ->
      check_value_range df tbl col lo hi report sev = Raise (KeyError col)) /\
     (has_column df col = true ->
      Exists (fun r : Row => ~ numeric (r col)) (rows df) ->
      check_value_range df tbl col lo hi report sev = Raise TypeError) /\
     (has_column df col = true ->
      Forall (fun r : Row => numeric (r col)) (rows df) ->
      exists report', check_value_range df tbl col lo hi report sev = Ok report')).
Proof.
  split; [| split; [| split; [| split]]].
  - intros df tbl cols report c Hfind. unfold check_no_nulls.
    apply (foldM_first_raise _ (fun c => negb (has_column df c)) KeyError);
      [| exact Hfind].
    intros s x. unfold getitem. destruct (has_column df x); simpl; eauto.
  - intros df tbl pk report H. unfold check_no_duplicates, getitem. rewrite H. reflexivity.
  - intros df fk ref_df ref_col tbl ref_table report. split.
    + intros H. unfold check_fk_integrity, getitem. rewrite H. reflexivity.
    + intros H1 H2. unfold check_fk_integrity, getitem. rewrite H1, H2. reflexivity.
  - intros df tbl col report sev. unfold check_value_range. cbn [bind].
    unfold range_result, count_true.
    assert (Hz : List.filter id (repeat false (length (rows df))) = []).
    { induction (length (rows df)) as [|n IH]; simpl; [reflexivity | exact IH]. }
    rewrite Hz. reflexivity.
  - intros df tbl col lo hi report sev Hb. split; [| split].
    + intros H. unfold check_value_range, getitem. rewrite H.
      destruct lo as [l|]; [reflexivity |].
      destruct hi as [h|]; [reflexivity |].
      destruct Hb as [Hb | Hb]; contradiction.
    + intros H Hex. unfold check_value_range. rewrite (getitem_has _ _ H). cbn [bind].
      assert (Hs : Exists (fun c => ~ numeric c) (map (fun r : Row => r col) (rows df))).
      { apply List.Exists_exists in Hex. destruct Hex as (r & Hr & Hn).
        apply List.Exists_exists. exists (r col). split; [| exact Hn].
        apply in_map_iff. exists r. auto. }
      unfold series_lt, series_gt.
      destruct lo as [l|].
      * rewrite (series_cmp_scalar_text fltb _ _ Hs). reflexivity.
      * destruct hi as [h|]; [| destruct Hb as [Hb | Hb]; contradiction].
        cbn [bind]. rewrite (series_cmp_scalar_text fgtb _ _ Hs). reflexivity.
    + intros H Hall. apply check_value_range_numeric; assumption.
Qed.


(** ** Failed checks stay in the report *)

(** X8.  A report never forgets a failure.  Adding a result keeps the
    verdict of [print_summary] unless the new result is a failed ERROR, which
    turns it to False; so a report that holds a failed ERROR fails whatever is
    added later.  The counters of the summary never count a result twice:
    passed, errors and warnings together are at most the total, and they
    make up the total exactly when every failed result has severity ERROR or
    WARNING (a failed result of another severity is counted as failed and
    listed nowhere). *)
Theorem failed_checks_are_never_forgotten :
  (forall report r,
     print_summary (add report r)
     = print_summary report && (passed r || negb (String.eqb (severity r) "ERROR"))) /\
  (forall report report',
     extends report report' -> print_summary report = false ->
     print_summary report' = false) /\
  (forall report,
     (passed_count report + length (errors report) + length (warnings report)
      <= length (results report))%nat) /\
  (forall report,
     (passed_count report + length (errors report) + length (warnings report))%nat
     = length (results report) <->
     Forall (fun r => passed r = true \/ severity r = "ERROR" \/ severity r = "WARNING")
            (results report)).
Proof.
  split; [| split; [| split]].
  - intros report r. unfold print_summary, errors, add. cbn [results].
    rewrite List.filter_app, length_app. cbn [List.filter].
    destruct (passed r); cbn [negb andb orb length].
    + rewrite Nat.add_0_r, andb_true_r. reflexivity.
    + destruct (String.eqb (severity r) "ERROR"); cbn [negb length].
      * rewrite andb_false_r. apply Nat.eqb_neq. lia.
      * rewrite Nat.add_0_r, andb_true_r. reflexivity.
  - intros report report' [added Hadd] H.
    destruct (print_summary report') eqn:E; [| reflexivity].
    rewrite <- H. symmetry. apply print_summary_true_iff.
    intros r Hin Hsev.
    apply (proj1 (print_summary_true_iff report') E r); [| exact Hsev].
    rewrite Hadd. apply in_or_app. left. exact Hin.
  - intros report. unfold passed_count, errors, warnings.
    induction (results report) as [|r l IH]; [simpl; lia |].
    cbn [List.filter]. destruct (passed r); cbn [negb andb length]; [lia |].
    destruct (String.eqb (severity r) "ERROR") eqn:E1.
    + apply String.eqb_eq in E1. rewrite E1. cbn [String.eqb]. simpl. simpl in IH. lia.
    + destruct (String.eqb (severity r) "WARNING"); simpl; simpl in IH; lia.
  - intros report. unfold passed_count, errors, warnings.
    induction (results report) as [|r l IH]; [simpl; split; [constructor | reflexivity] |].
    assert (Hle : (length (List.filter passed l)
                   + length (List.filter
                               (fun r => negb (passed r) && String.eqb (severity r) "ERROR") l)
                   + length (List.filter
                               (fun r => negb (passed r) && String.eqb (severity r) "WARNING")
                               l) <= length l)%nat).
    { clear IH. induction l as [|x l IH]; [simpl; lia |].
      cbn [List.filter]. destruct (passed x); cbn [negb andb length]; [lia |].
      destruct (String.eqb (severity x) "ERROR") eqn:E1.
      - apply String.eqb_eq in E1. rewrite E1. cbn [String.eqb]. simpl. simpl in IH. lia.
      - destruct (String.eqb (severity x) "WARNING"); simpl; simpl in IH; lia. }
    cbn [List.filter]. destruct (passed r) eqn:Hp; cbn [negb andb length].
    + split.
      * intros H. constructor; [left; exact Hp |]. apply IH. lia.
      * intros H. inversion H as [|? ? _ Hl]; subst. apply IH in Hl. lia.
    + destruct (String.eqb (severity r) "ERROR") eqn:E1.
      * apply String.eqb_eq in E1. rewrite E1. cbn [String.eqb]. cbn [length]. split.
        -- intros H. constructor; [right; left; exact E1 |]. apply IH.
           simpl in H. lia.
        -- intros H. inversion H as [|? ? _ Hl]; subst. apply IH in Hl. simpl. lia.
      * destruct (String.eqb (severity r) "WARNING") eqn:E2; cbn [length]; split.
        -- intros H. constructor; [right; right; apply String.eqb_eq; exact E2 |].
           apply IH. lia.
        -- intros H. inversion H as [|? ? _ Hl]; subst. apply IH in Hl. lia.
        -- intros H. exfalso. lia.
        -- intros H. inversion H as [|? ? Hr Hl]; subst. exfalso.
           destruct Hr as [Hr | [Hr | Hr]].
           ++ congruence.
           ++ apply String.eqb_eq in Hr. congruence.
           ++ apply String.eqb_eq in Hr. congruence.
Qed.


(** ** The quarter check *)

Lemma unique_from_fresh seen s c :
  In c (select s (map negb (duplicated_from seen s))) ->
  cell_in c seen = false /\ In c s.
Proof.
  revert seen. induction s as [|x s IH]; intros seen; cbn [duplicated_from map select];
    [intros [] |].
  destruct (cell_in x seen) eqn:Hx; cbn [negb].
  - intros H. apply IH in H. destruct H as [H1 H2]. simpl in H1.
    apply orb_false_elim in H1. destruct H1 as [_ H1]. split; [exact H1 | right; exact H2].
  - intros [<- | H]; [split; [exact Hx | left; reflexivity] |].
    apply IH in H. destruct H as [H1 H2]. simpl in H1.
    apply orb_false_elim in H1. destruct H1 as [_ H1]. split; [exact H1 | right; exact H2].
Qed.

Lemma unique_from_no_duplicate seen s :
  no_duplicate_value (select s (map negb (duplicated_from seen s))).
Proof.
  unfold no_duplicate_value. revert seen.
  induction s as [|x s IH]; intros seen; cbn [duplicated_from map select]; [constructor |].
  destruct (cell_in x seen) eqn:Hx; cbn [negb]; [apply IH |].
  constructor; [| apply IH].
  apply List.Forall_forall. intros c Hc. apply unique_from_fresh in Hc.
  destruct Hc as [Hc _]. simpl in Hc. apply orb_false_elim in Hc. destruct Hc as [Hc _].
  exact Hc.
Qed.

Lemma unique_from_cover seen s c :
  In c s ->
  cell_in c seen = true \/
  exists c', In c' (select s (map negb (duplicated_from seen s))) /\ cell_eqb c c' = true.
Proof.
  revert seen. induction s as [|x s IH]; intros seen; [intros [] |].
  cbn [duplicated_from map select]. intros [<- | Hc].
  - destruct (cell_in x seen) eqn:Hx; [left; reflexivity |]. right. exists x.
    split; [left; reflexivity |].
    destruct (cell_eqb x x) eqn:E; [reflexivity |].
    destruct x as [[| | |q]|t|[]|t]; simpl in E; try discriminate.
    + unfold same_float in E. simpl in E. rewrite Qeq_bool_refl in E. discriminate.
    + rewrite String.eqb_refl in E. discriminate.
    + rewrite Z.eqb_refl in E. discriminate.
  - destruct (IH (x :: seen) Hc) as [H | (c' & Hc' & He)].
    + simpl in H. apply orb_prop in H. destruct H as [H | H]; [| left; exact H].
      destruct (cell_in x seen) eqn:Hx; cbn [negb].
      * left. rewrite (cell_in_equiv _ _ seen H). exact Hx.
      * right. exists x. split; [left; reflexivity | exact H].
    + right. exists c'. split; [| exact He].
      destruct (cell_in x seen); cbn [negb]; [exact Hc' | right; exact Hc'].
Qed.

Lemma unique_from_filter_length (p : cell -> bool) seen s :
  (length (List.filter p (select s (map negb (duplicated_from seen s))))
   <= length (List.filter p s))%nat.
Proof.
  revert seen. induction s as [|x s IH]; intros seen; cbn [duplicated_from map select];
    [simpl; lia |].
  specialize (IH (x :: seen)). cbn [List.filter].
  destruct (cell_in x seen); cbn [negb List.filter]; destruct (p x); simpl; lia.
Qed.

Lemma valid_quarter_label c :
  valid_quarter c = true <-> exists s, c = Str s /\ In s ["Q1"; "Q2"; "Q3"; "Q4"].
Proof.
  unfold valid_quarter, cell_in. cbn [existsb]. split.
  - destruct c as [x|s|b|t]; simpl; try (destruct x; discriminate);
      try (destruct b; discriminate); try discriminate.
    intros H. exists s. split; [reflexivity |].
    repeat (apply orb_prop in H; destruct H as [H | H];
            [apply String.eqb_eq in H; subst s; simpl; auto |]).
    discriminate.
  - intros (s & -> & Hs). simpl in Hs.
    repeat (destruct Hs as [<- | Hs]; [reflexivity |]). destruct Hs.
Qed.

Lemma validate_dim_date_quarter_result df report report' :
  validate_dim_date df report = Ok report' ->
  has_column df "quarter" = true /\
  exists earlier, results report' = earlier ++ [quarter_result df].
Proof.
  unfold validate_dim_date. intros H.
  do 5 (apply bind_ok in H; destruct H as (? & _ & H)).
  bind_inv H as q Hq. apply getitem_ok in Hq. destruct Hq as [Hcol ->].
  injection H as <-. split; [exact Hcol |]. eexists. reflexivity.
Qed.

(** X9.  The quarter check of [validate_dim_date] is the last result it
    adds.  It passes exactly when the quarter of every row is one of the
    texts Q1, Q2, Q3, Q4; a null quarter fails it.  Its row count is the
    number of distinct invalid values, not of rows: no value is listed
    twice, and the count is at most the number of rows with an invalid
    quarter. *)
Theorem quarter_check_counts_distinct_values df report report' :
  validate_dim_date df report = Ok report' ->
  (exists earlier, results report' = earlier ++ [quarter_result df]) /\
  row_count (quarter_result df) = length (invalid_quarters df) /\
  (passed (quarter_result df) = true <->
   Forall (fun r : Row => exists s, r "quarter" = Str s /\ In s ["Q1"; "Q2"; "Q3"; "Q4"])
          (rows df)) /\
  (Exists (fun r : Row => isnull (r "quarter") = true) (rows df) ->
   passed (quarter_result df) = false) /\
  no_duplicate_value (invalid_quarters df) /\
  (length (invalid_quarters df)
   <= length (List.filter (fun r : Row => negb (valid_quarter (r "quarter"))) (rows df)))%nat.
Proof.
  intros H. apply validate_dim_date_quarter_result in H. destruct H as [_ Hres].
  assert (Hpass : passed (quarter_result df) = true <->
                  Forall (fun r : Row => valid_quarter (r "quarter") = true) (rows df)).
  { unfold quarter_result. cbn [passed]. rewrite Nat.eqb_eq.
    unfold invalid_quarters, unique, duplicated. rewrite length_filter_0. split.
    - intros Hu. apply List.Forall_forall. intros r Hr.
      assert (Hc : In (r "quarter") (column df "quarter"))
        by (unfold column; apply in_map_iff; exists r; auto).
      destruct (unique_from_cover [] _ _ Hc) as [Hs | (c' & Hc' & He)]; [discriminate |].
      rewrite List.Forall_forall in Hu. specialize (Hu c' Hc').
      apply negb_false_iff in Hu. unfold valid_quarter in *.
      rewrite (cell_in_equiv _ _ _ He). exact Hu.
    - intros Hall. apply List.Forall_forall. intros c Hc.
      apply unique_from_fresh in Hc. destruct Hc as [_ Hc].
      unfold column in Hc. apply in_map_iff in Hc. destruct Hc as (r & <- & Hr).
      rewrite List.Forall_forall in Hall. rewrite (Hall r Hr). reflexivity. }
  split; [exact Hres |]. split; [reflexivity |]. split; [| split; [| split]].
  - rewrite Hpass. split; intros Hall; eapply List.Forall_impl; try exact Hall;
      cbv beta; intros r Hr; apply valid_quarter_label; exact Hr.
  - intros Hex. destruct (passed (quarter_result df)); [| reflexivity].
    exfalso. pose proof (proj1 Hpass eq_refl) as E.
    apply List.Exists_exists in Hex. destruct Hex as (r & Hr & Hn).
    rewrite List.Forall_forall in E. specialize (E r Hr).
    apply isnull_true in Hn. rewrite Hn in E. discriminate.
  - unfold invalid_quarters, unique, duplicated.
    pose proof (unique_from_no_duplicate [] (column df "quarter")) as Hnd.
    unfold no_duplicate_value in *.
    induction Hnd as [|c l Hc Hl IH]; cbn [List.filter]; [constructor |].
    destruct (negb (valid_quarter c)); [| exact IH].
    constructor; [| exact IH].
    apply List.Forall_forall. intros x Hx. apply filter_In in Hx. destruct Hx as [Hx _].
    rewrite List.Forall_forall in Hc. exact (Hc x Hx).
  - unfold invalid_quarters, unique, duplicated.
    etransitivity; [apply unique_from_filter_length |].
    unfold column. rewrite filter_map_comm, length_map. reflexivity.
Qed.


(** ** Threshold entries that are missing, and a value that is no number *)

(** X10.  What [rag_status] does with a thresholds dictionary that is not
    empty but lacks an entry.  The entries are read in the order excellent,
    good, warning, each only when the comparisons before it failed: a
    missing entry raises KeyError when it is reached and is no error when an
    earlier comparison already decided.  The critical entry is never read
    (RED is what is left), and INFO is returned for the empty dictionary
    only. *)
Theorem rag_status_missing_entries v (t : gmap string threshold) d :
  size t <> 0%nat ->
  (t !! "excellent" = None -> rag_status v t d = Raise (KeyError "excellent")) /\
  (forall e,
     t !! "excellent" = Some e -> check v (operator e) (value e) = true ->
     rag_status v t d = Ok "GREEN") /\
  (forall e,
     t !! "excellent" = Some e -> check v (operator e) (value e) = false ->
     t !! "good" = None ->
     rag_status v t d = Raise (KeyError "good")) /\
  (forall e g,
     t !! "excellent" = Some e -> check v (operator e) (value e) = false ->
     t !! "good" = Some g -> check v (operator g) (value g) = true ->
     rag_status v t d = Ok "GREEN") /\
  (forall e g,
     t !! "excellent" = Some e -> check v (operator e) (value e) = false ->
     t !! "good" = Some g -> check v (operator g) (value g) = false ->
     t !! "warning" = None ->
     rag_status v t d = Raise (KeyError "warning")) /\
  (forall c, rag_status v (<["critical" := c]> t) d = rag_status v t d) /\
  (forall s, rag_status v t d = Ok s -> In s ["GREEN"; "AMBER"; "RED"]).
Proof.
  intros Hsize.
  assert (Hdec : bool_decide (size t = 0%nat) = false)
    by (apply bool_decide_eq_false_2; exact Hsize).
  unfold rag_status. rewrite Hdec. unfold dict_getitem.
  split; [| split; [| split; [| split; [| split; [| split]]]]].
  - intros ->. reflexivity.
  - intros e He Hc. rewrite He. cbn [bind]. rewrite Hc. reflexivity.
  - intros e He Hc Hg. rewrite He. cbn [bind]. rewrite Hc, Hg. reflexivity.
  - intros e g He Hc Hg Hc'. rewrite He. cbn [bind]. rewrite Hc, Hg. cbn [bind].
    rewrite Hc'. reflexivity.
  - intros e g He Hc Hg Hc' Hw. rewrite He. cbn [bind]. rewrite Hc, Hg. cbn [bind].
    rewrite Hc', Hw. reflexivity.
  - intros c.
    assert (Hdec' : bool_decide (size (<["critical" := c]> t) = 0%nat) = false).
    { apply bool_decide_eq_false_2. intros Hs. apply map_size_empty_inv in Hs.
      apply (insert_non_empty t "critical" c). exact Hs. }
    rewrite Hdec'. rewrite !lookup_insert_ne by discriminate. reflexivity.
  - intros s H.
    destruct (t !! "excellent") as [e|]; [| discriminate]. cbn [bind] in H.
    destruct (check v (operator e) (value e)); [injection H as <-; simpl; auto |].
    destruct (t !! "good") as [g|]; [| discriminate]. cbn [bind] in H.
    destruct (check v (operator g) (value g)); [injection H as <-; simpl; auto |].
    destruct (t !! "warning") as [w|]; [| discriminate]. cbn [bind] in H.
    destruct (check v (operator w) (value w)); injection H as <-; simpl; auto.
Qed.

Lemma check_nan op x : check NaN op x = false.
Proof.
  destruct (String.eqb_spec op ">=") as [-> | H1]; [destruct x; reflexivity |].
  destruct (String.eqb_spec op "<=") as [-> | H2]; [destruct x; reflexivity |].
  destruct (String.eqb_spec op ">") as [-> | H3]; [destruct x; reflexivity |].
  destruct (String.eqb_spec op "<") as [-> | H4]; [destruct x; reflexivity |].
  destruct (String.eqb_spec op "=") as [-> | H5]; [destruct x; reflexivity |].
  apply check_other. simpl. intros [H | [H | [H | [H | [H | []]]]]]; congruence.
Qed.

Lemma series_mean_all_null s :
  Forall (fun c => isnull c = true) s -> series_mean s = Ok NaN.
Proof.
  intros H. unfold series_mean.
  rewrite (mapM_all_ok as_float (fun _ => NaN)).
  - cbn [bind].
    assert (Hf : List.filter (fun x => negb (is_nan x)) (map (fun _ : cell => NaN) s) = []).
    { clear H. induction s as [|c s IH]; [reflexivity | exact IH]. }
    rewrite Hf. reflexivity.
  - eapply Forall_impl; [exact H |]. cbv beta. intros c Hc.
    apply isnull_true in Hc. subst c. reflexivity.
Qed.

(** X11.  A KPI without data is classified RED.  On eligible rows that hold
    no discount at all (no row, or nulls only) [kpi_discount_rate] returns
    NaN, where the ratio KPIs return 0.0; NaN satisfies no comparison,
    whatever the operator, so [rag_status] answers RED for it from any
    thresholds that have the three entries. *)
Theorem discount_rate_without_data_is_red :
  (forall self,
     has_column (eligible self) "discount_pct" = true ->
     Forall (fun r : Row => isnull (r "discount_pct") = true) (rows (eligible self)) ->
     kpi_discount_rate self = Ok NaN) /\
  (forall op x, check NaN op x = false) /\
  (forall (t : gmap string threshold) d e g w,
     t !! "excellent" = Some e -> t !! "good" = Some g -> t !! "warning" = Some w ->
     rag_status NaN t d = Ok "RED").
Proof.
  split; [| split].
  - intros self Hcol Hnull. unfold kpi_discount_rate.
    rewrite (getitem_has _ _ Hcol). cbn [bind].
    rewrite series_mean_all_null; [reflexivity |].
    apply Forall_map. exact Hnull.
  - apply check_nan.
  - intros t d e g w He Hg Hw. unfold rag_status.
    rewrite (size_lookup_ne_0 t _ _ He). unfold dict_getitem.
    rewrite He, Hg, Hw. cbn [bind]. rewrite !check_nan. reflexivity.
Qed.


End Pipeline.

(** * The properties on the small instance *)

Local Abbreviation the_dim_date := (example_dim_date example_parse_datetime).
Local Abbreviation the_dim_product :=
  (example_dim_product example_parse_numeric example_parse_datetime).
Local Abbreviation the_fact_sales :=
  (example_fact_sales example_parse_numeric example_parse_datetime).
Local Abbreviation the_processed :=
  (example_processed example_parse_numeric example_parse_datetime).
Local Abbreviation the_report :=
  (example_report example_parse_numeric example_parse_datetime
     example_repr_float example_repr_cells).
Local Abbreviation the_calculator :=
  (example_calculator example_parse_numeric example_parse_datetime).
Local Abbreviation the_idle_calculator :=
  (example_idle_calculator example_parse_numeric example_parse_datetime).
Local Abbreviation the_calculated :=
  (example_calculated example_parse_numeric example_parse_datetime example_now).

Lemma example_fact_sales_transformed :
  transform_fact_sales example_parse_numeric example_parse_datetime raw_fact_sales
    the_dim_date the_dim_product raw_dim_customer raw_dim_employee raw_dim_region
  = Ok the_fact_sales.
Proof. vm_compute. reflexivity. Defined.

Lemma fact_sales_referential_integrity_witness :
  length (rows the_fact_sales) = 3%nat /\
  Forall (fun r' : Row =>
            cell_in (r' "date_key") (column the_dim_date "date_key") = true /\
            cell_in (r' "product_key") (column the_dim_product "product_key") = true /\
            cell_in (r' "customer_key") (column raw_dim_customer "customer_key") = true /\
            cell_in (r' "employee_key") (column raw_dim_employee "employee_key") = true /\
            cell_in (r' "region_key") (column raw_dim_region "region_key") = true)
         (rows the_fact_sales) /\
  Forall2 (fact_row_out example_parse_numeric)
    (List.filter (fun r => fk_ok the_dim_date the_dim_product raw_dim_customer
                             raw_dim_employee raw_dim_region r
                           && measures_present example_parse_numeric r)
       (rows raw_fact_sales))
    (rows the_fact_sales).
Proof.
  split; [vm_compute; reflexivity |].
  exact (fact_sales_referential_integrity _ _ _ _ _ _ _ _ _ example_fact_sales_transformed).
Defined.

Lemma rag_status_classification_witness :
  rag_status (of_Z 5000000) revenue_thresholds "higher_is_better" = Ok "AMBER".
Proof.
  rewrite (proj1 (proj2 rag_status_classification) (of_Z 5000000) revenue_thresholds
             "higher_is_better"
             {| operator := ">="; value := of_Z 10000000 |}
             {| operator := ">="; value := of_Z 7000000 |}
             {| operator := ">="; value := of_Z 4000000 |}
             eq_refl eq_refl eq_refl).
  reflexivity.
Defined.

Lemma validation_succeeds_iff_no_error_witness :
  run_validation example_repr_float example_repr_cells the_processed = Ok true /\
  run_validation example_repr_float example_repr_cells
    (example_processed_with_duplicates example_parse_numeric example_parse_datetime)
  = Raise (SystemExit 1).
Proof.
  split.
  - apply (proj2 (proj2 (proj2 (proj2
             (validation_succeeds_iff_no_error example_repr_float example_repr_cells)))
             the_processed)).
    exists the_report. split; vm_compute; reflexivity.
  - apply (proj2 (proj1 (proj2 (proj2
             (validation_succeeds_iff_no_error example_repr_float example_repr_cells)))
             (example_processed_with_duplicates example_parse_numeric
                example_parse_datetime))).
    eexists. split; vm_compute; reflexivity.
Defined.

Lemma transform_drops_exactly_invalid_rows_witness :
  length (rows raw_dim_product) = 4%nat /\
  length (rows the_dim_product) = 2%nat /\
  Forall2 (product_row_out example_parse_numeric)
    (List.filter (prices_present example_parse_numeric) (rows raw_dim_product))
    (rows the_dim_product) /\
  Forall2 (fact_row_out example_parse_numeric)
    (List.filter (measures_present example_parse_numeric)
       (List.filter (fk_ok the_dim_date the_dim_product raw_dim_customer
                       raw_dim_employee raw_dim_region)
          (rows raw_fact_sales)))
    (rows the_fact_sales).
Proof.
  assert (Hprod : transform_dim_product example_parse_numeric example_parse_datetime
                    raw_dim_product = Ok the_dim_product)
    by (vm_compute; reflexivity).
  split; [reflexivity |]. split; [vm_compute; reflexivity |]. split.
  - exact (proj1 (transform_drops_exactly_invalid_rows example_parse_numeric
                    example_parse_datetime) _ _ Hprod).
  - exact (proj1 (proj2 (transform_drops_exactly_invalid_rows example_parse_numeric
                           example_parse_datetime))
             _ _ _ _ _ _ _ example_fact_sales_transformed).
Defined.

Lemma key_checks_applied_to_every_table_witness :
  run_checks example_repr_float example_repr_cells the_processed = Ok the_report /\
  Forall (key_checks_in the_processed the_report) key_checks.
Proof.
  assert (H : run_checks example_repr_float example_repr_cells the_processed
              = Ok the_report)
    by (vm_compute; reflexivity).
  split; [exact H |].
  exact (proj2 (proj2 (proj2 (proj2
           (key_checks_applied_to_every_table example_repr_float example_repr_cells))))
           the_processed the_report H).
Defined.

Lemma loaded_fact_sales_flagged :
  Forall (fun r : Row => eq_True (r "is_revenue_eligible") = negb (cancelled r))
         (rows loaded_fact_sales).
Proof. repeat constructor. Defined.

Lemma total_revenue_counts_rows_once_per_date_witness :
  kpi_total_revenue (loaded_calculator loaded_dim_date)
  = series_sum (map (fun r : Row => r "sales_amount")
                  (List.filter (fun r => negb (cancelled r)) (rows loaded_fact_sales))) /\
  kpi_total_revenue (loaded_calculator loaded_dim_date) = Ok (Fin 3500) /\
  kpi_total_revenue (loaded_calculator loaded_dim_date_twice)
  = series_sum [num 1000; num 1000; num 2500].
Proof.
  assert (Hinit : KPICalculator_init (loaded_processed loaded_dim_date) example_catalog
                  = Ok (loaded_calculator loaded_dim_date))
    by (vm_compute; reflexivity).
  assert (Hinit2 : KPICalculator_init (loaded_processed loaded_dim_date_twice)
                     example_catalog
                   = Ok (loaded_calculator loaded_dim_date_twice))
    by (vm_compute; reflexivity).
  assert (Hnd : no_duplicate_value (column loaded_dim_date "date_key"))
    by (repeat constructor).
  pose proof (proj2 (total_revenue_counts_rows_once_per_date example_parse_numeric
                       example_parse_datetime)
                (loaded_processed loaded_dim_date) example_catalog
                (loaded_calculator loaded_dim_date) loaded_fact_sales loaded_dim_date
                Hinit eq_refl eq_refl) as (_ & _ & _ & H).
  pose proof (proj2 (total_revenue_counts_rows_once_per_date example_parse_numeric
                       example_parse_datetime)
                (loaded_processed loaded_dim_date_twice) example_catalog
                (loaded_calculator loaded_dim_date_twice) loaded_fact_sales
                loaded_dim_date_twice Hinit2 eq_refl eq_refl) as (_ & _ & _ & H2).
  destruct (H loaded_fact_sales_flagged eq_refl) as [_ Hsum].
  destruct (H2 loaded_fact_sales_flagged eq_refl) as [Htwice _].
  split; [exact (Hsum Hnd) |]. split; [vm_compute; reflexivity |].
  etransitivity; [exact Htwice |]. vm_compute. reflexivity.
Defined.

(** With a date that dim_date lists twice, the total is not the sum of
    [sales_amount] over the rows that are not cancelled: the fact table
    carries the flag as [transform_fact_sales] sets it, its two orders that
    are not cancelled sum to 3500, and [kpi_total_revenue] returns 4500. *)
Lemma total_revenue_with_a_date_listed_twice :
  Forall (fun r : Row => r "is_revenue_eligible" = Bool (negb (cancelled r)))
         (rows loaded_fact_sales) /\
  KPICalculator_init (loaded_processed loaded_dim_date_twice) example_catalog
  = Ok (loaded_calculator loaded_dim_date_twice) /\
  series_sum (map (fun r : Row => r "sales_amount")
                (List.filter (fun r => negb (cancelled r)) (rows loaded_fact_sales)))
  = Ok (Fin 3500) /\
  kpi_total_revenue (loaded_calculator loaded_dim_date_twice) = Ok (Fin 4500) /\
  kpi_total_revenue (loaded_calculator loaded_dim_date_twice)
  <> series_sum (map (fun r : Row => r "sales_amount")
                   (List.filter (fun r => negb (cancelled r)) (rows loaded_fact_sales))).
Proof.
  split; [repeat constructor |]. split; [vm_compute; reflexivity |].
  split; [vm_compute; reflexivity |]. split; [vm_compute; reflexivity |].
  vm_compute. discriminate.
Qed.

(** Date keys that are numbers in the fact table and text in dim_date
    cannot be merged: the calculator is not built. *)
Lemma calculator_rejects_text_keys :
  KPICalculator_init (loaded_processed loaded_dim_date_text) example_catalog
  = Raise ValueError.
Proof. vm_compute. reflexivity. Qed.

Lemma calculate_all_one_record_per_known_kpi_witness :
  calculate_all example_now the_calculator 0 = Ok the_calculated /\
  length (kpi_defs the_calculator) = 11%nat /\
  length (kpi_results (fst the_calculated)) = 10%nat /\
  (exists k : Z,
     fround 4 (Fin (359375 # 100000)) = binary64 (inject_Z k / 10000) /\
     (Qabs (inject_Z k / 10000 - (359375 # 100000))
      <= (1 # 20000) + Qabs (359375 # 100000) * pow2 (-53) + pow2 (-1075))%Q) /\
  fround 4 (binary64 (inject_Z 35937 / 10000)) = binary64 (inject_Z 35937 / 10000) /\
  (exists r,
     returned (calculate_all example_now margin_calculator 0) = Ok [r] /\
     r_value r = binary64 (35937 # 10000) /\
     r_rag_status r = "RED").
Proof.
  assert (H : calculate_all example_now the_calculator 0
              = Ok (fst the_calculated, snd the_calculated))
    by (vm_compute; reflexivity).
  assert (Hperm : Permutation
                    (map d_id (List.filter in_KPI_MAP (kpi_defs the_calculator))) kpi_ids)
    by (vm_compute; apply Permutation_refl).
  assert (Hq : (Qabs (359375 # 100000) <= inject_Z (10 ^ 300))%Q)
    by (vm_compute; discriminate).
  assert (Hk : (Z.abs 35937 <= 2 ^ 50)%Z) by (vm_compute; discriminate).
  pose proof (calculate_all_one_record_per_known_kpi example_now)
    as (_ & _ & _ & Hten & _ & Hround & Hkeep & _).
  split; [vm_compute; reflexivity |]. split; [vm_compute; reflexivity |].
  split; [exact (Hten the_calculator 0%nat (fst the_calculated) (snd the_calculated)
                   H Hperm) |].
  split; [exact (Hround (359375 # 100000) Hq) |].
  split; [exact (Hkeep 35937%Z Hk) |].
  eexists. split; [vm_compute; reflexivity |]. split; vm_compute; reflexivity.
Defined.

Lemma ratio_kpis_division_guarded_witness :
  (exists v, kpi_gross_margin_pct the_calculator = Ok v) /\
  kpi_gross_margin_pct the_idle_calculator = Ok (Fin 0) /\
  kpi_revenue_growth_mom the_idle_calculator = Ok (Fin 0) /\
  kpi_avg_order_value the_idle_calculator = Ok (Fin 0) /\
  kpi_target_attainment the_idle_calculator = Ok (Fin 0) /\
  kpi_revenue_per_employee the_idle_calculator = Ok (Fin 0) /\
  kpi_top10_revenue_share the_idle_calculator = Ok (Fin 0).
Proof.
  pose proof ratio_kpis_division_guarded as (_ & _ & _ & _ & _ & _ & _ & Htotal & Hempty).
  split.
  - apply (Htotal "KPI-002" kpi_gross_margin_pct the_calculator eq_refl).
    split; vm_compute; repeat constructor; eexists; reflexivity.
  - apply Hempty; [| reflexivity].
    split; vm_compute; repeat constructor.
Defined.

Lemma range_check_skips_nulls_witness :
  has_column the_fact_sales "discount_pct" = true /\
  Exists (fun r : Row => isnull (r "discount_pct") = true) (rows the_fact_sales) /\
  check_value_range example_repr_float the_fact_sales "fact_sales" "discount_pct"
    (Some (PyInt 0)) (Some (PyFloat 1)) {| results := [] |} "ERROR"
  = Ok (add {| results := [] |}
          (range_result example_repr_float "fact_sales" "discount_pct"
             (Some (PyInt 0)) (Some (PyFloat 1)) "ERROR" 0)).
Proof.
  split; [vm_compute; reflexivity |]. split.
  - vm_compute. apply Exists_cons_tl, Exists_cons_hd. reflexivity.
  - apply (proj2 (proj2 (proj2 (proj2 (range_check_skips_nulls example_repr_float))))).
    + vm_compute. reflexivity.
    + vm_compute.
      repeat (apply List.Forall_cons;
              [first [left; reflexivity
                     | right; eexists; split; [reflexivity | split; discriminate]] |]).
      apply List.Forall_nil.
Defined.

Lemma example_dim_date_transformed :
  transform_dim_date example_parse_datetime raw_dim_date = Ok the_dim_date.
Proof. vm_compute. reflexivity. Defined.

Lemma example_dim_product_transformed :
  transform_dim_product example_parse_numeric example_parse_datetime raw_dim_product
  = Ok the_dim_product.
Proof. vm_compute. reflexivity. Defined.

Lemma check_fk_integrity_counts_orphans_witness :
  check_fk_integrity raw_fact_sales "product_key" the_dim_product "product_key"
    "fact_sales" "dim_product" {| results := [] |}
  = Ok (add {| results := [] |}
          (fk_result raw_fact_sales "product_key" the_dim_product "product_key"
             "fact_sales" "dim_product")) /\
  row_count (fk_result raw_fact_sales "product_key" the_dim_product "product_key"
               "fact_sales" "dim_product") = 1%nat /\
  passed (fk_result raw_fact_sales "product_key" the_dim_product "product_key"
            "fact_sales" "dim_product") = false.
Proof.
  assert (H1 : has_column raw_fact_sales "product_key" = true) by (vm_compute; reflexivity).
  assert (H2 : has_column the_dim_product "product_key" = true)
    by (vm_compute; reflexivity).
  split; [| split; vm_compute; reflexivity].
  exact (proj1 (check_fk_integrity_counts_orphans raw_fact_sales "product_key"
                  the_dim_product "product_key" "fact_sales" "dim_product"
                  {| results := [] |} H1 H2)).
Defined.

Lemma transformed_fact_passes_fk_checks_witness :
  Forall (fun x : string * DataFrame * string =>
            orphan_rows the_fact_sales (fst (fst x)) (snd (fst x)) (fst (fst x)) = [] /\
            passed (fk_result the_fact_sales (fst (fst x)) (snd (fst x)) (fst (fst x))
                      "fact_sales" (snd x)) = true)
         (fact_foreign_keys the_dim_date the_dim_product raw_dim_customer
            raw_dim_employee raw_dim_region).
Proof.
  pose proof (transformed_fact_passes_fk_checks example_parse_numeric
                example_parse_datetime example_repr_float _ _ _ _ _ _ _
                example_fact_sales_transformed) as H.
  eapply List.Forall_impl; [| exact H].
  cbv beta zeta. intros x (H1 & H2 & _). split; assumption.
Defined.

Lemma transformed_tables_pass_null_checks_witness :
  Forall (fun c => row_count (no_nulls_result the_fact_sales "fact_sales" c) = 0%nat /\
                   passed (no_nulls_result the_fact_sales "fact_sales" c) = true)
         ["sales_amount"; "cogs"; "quantity"] /\
  Forall (fun c => row_count (no_nulls_result the_dim_product "dim_product" c) = 0%nat /\
                   passed (no_nulls_result the_dim_product "dim_product" c) = true)
         ["unit_cost"; "list_price"].
Proof.
  split.
  - exact (proj2 (proj1 (transformed_tables_pass_null_checks example_parse_numeric
                           example_parse_datetime)
                    _ _ _ _ _ _ _ {| results := [] |} example_fact_sales_transformed)).
  - exact (proj2 (proj2 (transformed_tables_pass_null_checks example_parse_numeric
                           example_parse_datetime)
                    _ _ {| results := [] |} example_dim_product_transformed)).
Defined.

Lemma transform_dim_date_keeps_each_key_once_witness :
  length (rows raw_dim_date) = 3%nat /\
  length (rows the_dim_date) = 2%nat /\
  passed (no_duplicates_result raw_dim_date "dim_date" "date_key") = false /\
  passed (no_duplicates_result the_dim_date "dim_date" "date_key") = true.
Proof.
  split; [reflexivity |]. split; [vm_compute; reflexivity |].
  split; [vm_compute; reflexivity |].
  exact (proj1 (proj2 (proj2 (proj2
           (transform_dim_date_keeps_each_key_once example_parse_datetime _ _
              example_dim_date_transformed))))).
Defined.

Lemma run_checks_fixed_plan_witness :
  map outline (results the_report) = check_plan example_repr_float /\
  length (results the_report) = 60%nat /\
  map outline (List.filter (fun r => negb (String.eqb (severity r) "ERROR"))
                 (results the_report))
  = warning_checks /\
  (passed_count the_report + length (errors the_report) + length (warnings the_report))%nat
  = 60%nat.
Proof.
  assert (H : run_checks example_repr_float example_repr_cells the_processed = Ok the_report)
    by (vm_compute; reflexivity).
  exact (run_checks_fixed_plan example_repr_float example_repr_cells the_processed
           the_report H).
Defined.

Lemma run_validation_outcomes_witness :
  run_validation example_repr_float example_repr_cells
    (delete "dim_region" (delete "dim_customer" the_processed))
  = Raise (FileNotFoundError "dim_customer.csv") /\
  run_validation example_repr_float example_repr_cells
    (<["dim_product" := Unparsable NoColumns]> (delete "dim_region" the_processed))
  = Raise EmptyDataError.
Proof.
  split.
  - assert (H : find (unread (delete "dim_region" (delete "dim_customer" the_processed)))
                  validation_tables = Some "dim_customer")
      by (vm_compute; reflexivity).
    pose proof (proj1 (proj2 (run_validation_outcomes example_repr_float
                                example_repr_cells
                                (delete "dim_region" (delete "dim_customer" the_processed))))
                  "dim_customer" H) as E.
    etransitivity; [exact E |]. vm_compute. reflexivity.
  - assert (H : find (unread (<["dim_product" := Unparsable NoColumns]>
                                (delete "dim_region" the_processed)))
                  validation_tables = Some "dim_product")
      by (vm_compute; reflexivity).
    pose proof (proj1 (proj2 (run_validation_outcomes example_repr_float
                                example_repr_cells
                                (<["dim_product" := Unparsable NoColumns]>
                                   (delete "dim_region" the_processed))))
                  "dim_product" H) as E.
    etransitivity; [exact E |]. vm_compute. reflexivity.
Defined.

Lemma generic_checks_on_bad_columns_witness :
  check_no_nulls raw_dim_region "dim_region" ["region_key"; "sub_region"; "zip"]
    {| results := [] |}
  = Raise (KeyError "sub_region") /\
  check_value_range example_repr_float raw_dim_customer "dim_customer" "segment"
    (Some (PyInt 0)) None {| results := [] |} "ERROR"
  = Raise TypeError.
Proof.
  assert (Hfind : find (fun c => negb (has_column raw_dim_region c))
                    ["region_key"; "sub_region"; "zip"] = Some "sub_region")
    by (vm_compute; reflexivity).
  assert (Hcol : has_column raw_dim_customer "segment" = true)
    by (vm_compute; reflexivity).
  assert (Htext : Exists (fun r : Row => ~ numeric (r "segment")) (rows raw_dim_customer)).
  { apply Exists_cons_hd. intros [x Hx]. discriminate Hx. }
  assert (Hbound : Some (PyInt 0) <> None \/ @None pynum <> None)
    by (left; discriminate).
  split.
  - exact (proj1 (generic_checks_on_bad_columns example_repr_float)
             raw_dim_region "dim_region" ["region_key"; "sub_region"; "zip"]
             {| results := [] |} "sub_region" Hfind).
  - exact (proj1 (proj2 (proj2 (proj2 (proj2 (proj2
             (generic_checks_on_bad_columns example_repr_float))))
             raw_dim_customer "dim_customer" "segment" (Some (PyInt 0)) None
             {| results := [] |} "ERROR" Hbound)) Hcol Htext).
Defined.

Lemma failed_checks_are_never_forgotten_witness :
  print_summary
    (add (add {| results := [] |} (no_duplicates_result raw_dim_date "dim_date" "date_key"))
       (no_nulls_result raw_dim_date "dim_date" "date_key"))
  = false.
Proof.
  apply (proj1 (proj2 failed_checks_are_never_forgotten)
           (add {| results := [] |} (no_duplicates_result raw_dim_date "dim_date" "date_key"))).
  - apply extends_add.
  - vm_compute. reflexivity.
Defined.

Lemma quarter_check_counts_distinct_values_witness :
  passed (quarter_result example_repr_cells dim_date_odd_quarters) = false /\
  row_count (quarter_result example_repr_cells dim_date_odd_quarters) = 2%nat /\
  length (rows dim_date_odd_quarters) = 3%nat /\
  no_duplicate_value (invalid_quarters dim_date_odd_quarters).
Proof.
  assert (H : validate_dim_date example_repr_float example_repr_cells
                dim_date_odd_quarters {| results := [] |}
              = Ok (unwrap {| results := [] |}
                      (validate_dim_date example_repr_float example_repr_cells
                         dim_date_odd_quarters {| results := [] |})))
    by (vm_compute; reflexivity).
  pose proof (quarter_check_counts_distinct_values example_repr_float example_repr_cells
                _ _ _ H) as (_ & _ & _ & Hnull & Hnd & _).
  split; [| split; [vm_compute; reflexivity | split; [reflexivity | exact Hnd]]].
  apply Hnull. apply Exists_cons_tl, Exists_cons_hd. reflexivity.
Defined.

Lemma rag_status_missing_entries_witness :
  rag_status (of_Z 5)
    (<["good" := {| operator := ">="; value := of_Z 1 |}]> (∅ : gmap string threshold))
    "higher_is_better"
  = Raise (KeyError "excellent").
Proof.
  assert (Hs : size (<["good" := {| operator := ">="; value := of_Z 1 |}]>
                       (∅ : gmap string threshold)) <> 0%nat)
    by (vm_compute; discriminate).
  exact (proj1 (rag_status_missing_entries (of_Z 5) _ "higher_is_better" Hs) eq_refl).
Defined.

Lemma discount_rate_without_data_is_red_witness :
  kpi_discount_rate the_idle_calculator = Ok NaN /\
  rag_status NaN revenue_thresholds "lower_is_better" = Ok "RED".
Proof.
  assert (H1 : has_column (eligible the_idle_calculator) "discount_pct" = true)
    by (vm_compute; reflexivity).
  assert (H2 : Forall (fun r : Row => isnull (r "discount_pct") = true)
                 (rows (eligible the_idle_calculator)))
    by (vm_compute; constructor).
  split.
  - exact (proj1 discount_rate_without_data_is_red the_idle_calculator H1 H2).
  - exact (proj2 (proj2 discount_rate_without_data_is_red) revenue_thresholds
             "lower_is_better" _ _ _ eq_refl eq_refl eq_refl).
Defined.
